(** * The C tracer of pdb_clone's bdb module, embedded in Rocq

    This development embeds [src/pdb_clone/_bdbmodule.c] (the [BdbTracer]
    type: [stop_here], [bkpt_in_code], [bkpt_at_line], [user_method],
    [tracer], [BdbTracer_reset]) as functions of a small state monad and
    proves properties of the stop decision, the breakpoint cache, the event
    dispatcher and the reset operation.  A second part (from "The rest of
    the module" on) adds the default methods of the type and proves further
    properties: the file name cache, the handler protocol of [user_method],
    what a dispatch may call, the constructor, and [msleep] of the test
    suite.

    Conventions of the embedding.
    - A [PyObject *] is an [option PyObject]: [None] is the C [NULL] pointer.
      Immutable objects whose identity the C code never observes (ints,
      strings) are values; the singletons [Py_None], [Py_True], [Py_False],
      [Py_NotImplemented] and the tracer object itself are constants; every
      other object (frames, code objects, dictionaries) lives in the heap and
      is named by its address, so that pointer comparisons of the source are
      comparisons of addresses and mutation through one reference is seen
      through all the others.  An instance of any other class is an
      [HObject]; it carries the outcome of its truth test, which is [None]
      when its [__bool__] raises.
    - C [int] and [long] are [Z]; the one narrowing conversion of the source
      ([int lineno = PyLong_AsLong(...)]) is written out for an LP64 platform
      (64-bit [long], 32-bit [int]).
    - Reference counts are not tracked, but a [Py_INCREF] or [Py_DECREF] of a
      [NULL] pointer is undefined behaviour, as are out-of-range
      [PyList_GET_ITEM] and a [PyDict_Contains] on something that is not a
      dictionary.  Undefined behaviour is the outcome [UB] of the monad.
    - Methods looked up on the tracer object at run time
      ([is_skipped_module], [user_line], [get_traceobj], ...) are overridden
      by the Python subclass; they are one section variable [py_method],
      an arbitrary state transformer that may fail (return [NULL]). *)

From stdpp Require Import gmap strings list.
From Stdlib Require Import ZArith Lia.
Open Scope Z_scope.

(** * The embedding

    ** Objects and the heap *)

Abbreviation addr := positive (only parsing).

Inductive PyObject : Type :=
| Py_None
| Py_True
| Py_False
| Py_NotImplemented
| PyLong (z : Z)
| PyUnicode (s : string)
| PySelf
| PyRef (a : addr).

#[global] Instance PyObject_eq_dec : EqDecision PyObject.
Proof. solve_decision. Defined.

(** [frameobject.h]: the fields of a frame the tracer reads or writes. *)
Record PyFrameObject := mkFrame {
  f_back : option addr;
  f_code : addr;
  f_trace : option PyObject;
  f_lineno : Z;
  f_lasti : Z }.

Record PyCodeObject := mkCode {
  co_filename : PyObject;
  co_firstlineno : Z }.

Inductive HeapObj : Type :=
| HFrame (fr : PyFrameObject)
| HCode (co : PyCodeObject)
| HDict (items : list (PyObject * PyObject))
| HObject (truth : option bool).

Inductive PyExc : Type :=
| SystemError | TypeError | OverflowError | AttributeError | OtherError.

(** ** The tracer object (struct BdbTracer) *)

Record BdbTracer := mkTracer {
  trace_dispatch : option PyObject;
  breakpoints : option PyObject;
  botframe : option PyObject;
  quitting : option PyObject;
  topframe : option PyObject;
  topframe_locals : option PyObject;
  stopframe : option PyObject;
  stop_lineno : option PyObject;
  skip_modules : option (list PyObject);   (* a tuple *)
  skip_calls : option (list PyObject);     (* a tuple *)
  linenumbers : option (list PyObject);    (* a list *)
  ignore_first_call_event : Z;
  lcfilename_cache : option PyObject;
  module_bps : option PyObject;
  code_bps : option PyObject;
  cached_f_code : option addr              (* self->f_code *)
}.

Definition set_botframe (v : option PyObject) (t : BdbTracer) : BdbTracer :=
  mkTracer (trace_dispatch t) (breakpoints t) v (quitting t) (topframe t)
    (topframe_locals t) (stopframe t) (stop_lineno t) (skip_modules t)
    (skip_calls t) (linenumbers t) (ignore_first_call_event t)
    (lcfilename_cache t) (module_bps t) (code_bps t) (cached_f_code t).

Definition set_quitting (v : option PyObject) (t : BdbTracer) : BdbTracer :=
  mkTracer (trace_dispatch t) (breakpoints t) (botframe t) v (topframe t)
    (topframe_locals t) (stopframe t) (stop_lineno t) (skip_modules t)
    (skip_calls t) (linenumbers t) (ignore_first_call_event t)
    (lcfilename_cache t) (module_bps t) (code_bps t) (cached_f_code t).

Definition set_topframe (v : option PyObject) (t : BdbTracer) : BdbTracer :=
  mkTracer (trace_dispatch t) (breakpoints t) (botframe t) (quitting t) v
    (topframe_locals t) (stopframe t) (stop_lineno t) (skip_modules t)
    (skip_calls t) (linenumbers t) (ignore_first_call_event t)
    (lcfilename_cache t) (module_bps t) (code_bps t) (cached_f_code t).

Definition set_topframe_locals (v : option PyObject) (t : BdbTracer) : BdbTracer :=
  mkTracer (trace_dispatch t) (breakpoints t) (botframe t) (quitting t)
    (topframe t) v (stopframe t) (stop_lineno t) (skip_modules t)
    (skip_calls t) (linenumbers t) (ignore_first_call_event t)
    (lcfilename_cache t) (module_bps t) (code_bps t) (cached_f_code t).

Definition set_stopframe (v : option PyObject) (t : BdbTracer) : BdbTracer :=
  mkTracer (trace_dispatch t) (breakpoints t) (botframe t) (quitting t)
    (topframe t) (topframe_locals t) v (stop_lineno t) (skip_modules t)
    (skip_calls t) (linenumbers t) (ignore_first_call_event t)
    (lcfilename_cache t) (module_bps t) (code_bps t) (cached_f_code t).

Definition set_stop_lineno (v : option PyObject) (t : BdbTracer) : BdbTracer :=
  mkTracer (trace_dispatch t) (breakpoints t) (botframe t) (quitting t)
    (topframe t) (topframe_locals t) (stopframe t) v (skip_modules t)
    (skip_calls t) (linenumbers t) (ignore_first_call_event t)
    (lcfilename_cache t) (module_bps t) (code_bps t) (cached_f_code t).

Definition set_ignore_first_call_event (v : Z) (t : BdbTracer) : BdbTracer :=
  mkTracer (trace_dispatch t) (breakpoints t) (botframe t) (quitting t)
    (topframe t) (topframe_locals t) (stopframe t) (stop_lineno t)
    (skip_modules t) (skip_calls t) (linenumbers t) v
    (lcfilename_cache t) (module_bps t) (code_bps t) (cached_f_code t).

(** The three cache references are only ever written together
    ([bkpt_in_code], lines 228-238 of the source). *)
Definition set_bkpt_cache (mb cb : option PyObject) (co : option addr)
    (t : BdbTracer) : BdbTracer :=
  mkTracer (trace_dispatch t) (breakpoints t) (botframe t) (quitting t)
    (topframe t) (topframe_locals t) (stopframe t) (stop_lineno t)
    (skip_modules t) (skip_calls t) (linenumbers t)
    (ignore_first_call_event t) (lcfilename_cache t) mb cb co.

(** ** Machine state *)

(** What the tracer does to the outside world, in order.  Calls that can
    raise record their result, so that a failure is visible in the log; of a
    truth test only the failure is recorded. *)
Inductive Event : Type :=
| EvCallMethod (name : string) (args : list PyObject) (result : option PyObject)
| EvLower (o : PyObject) (result : option PyObject)
| EvDictGetItem (d : option PyObject) (key : PyObject)
| EvDictSetItem (d : option PyObject) (key value : PyObject) (rc : Z)
| EvDictContains (d : option PyObject) (key : PyObject) (rc : Z)
| EvLongAsLong (o : option PyObject) (ok : bool)
| EvBuildValueNull
| EvFastToLocals (frame : addr)
| EvLocalsToFast (frame : addr)
| EvTraceBackHere (frame : addr)
| EvSetTrace (traceobj : option PyObject)
| EvIsTrueFailed (o : PyObject).

Record State := mkState {
  self : BdbTracer;
  heap : gmap addr HeapObj;
  err_indicator : option PyExc;      (* the thread's pending exception *)
  c_traceobj : option PyObject;      (* the global hook of PyEval_SetTrace *)
  log : list Event }.

Definition set_self (t : BdbTracer) (s : State) : State :=
  mkState t (heap s) (err_indicator s) (c_traceobj s) (log s).
Definition set_heap (h : gmap addr HeapObj) (s : State) : State :=
  mkState (self s) h (err_indicator s) (c_traceobj s) (log s).
Definition set_err (e : option PyExc) (s : State) : State :=
  mkState (self s) (heap s) e (c_traceobj s) (log s).
Definition set_c_traceobj (o : option PyObject) (s : State) : State :=
  mkState (self s) (heap s) (err_indicator s) o (log s).
Definition set_log (l : list Event) (s : State) : State :=
  mkState (self s) (heap s) (err_indicator s) (c_traceobj s) l.

(** ** The monad: state passing with undefined behaviour *)

Inductive Res (A : Type) : Type :=
| Ok (a : A) (s : State)
| UB.
Arguments Ok {A} a s.
Arguments UB {A}.

Definition M (A : Type) : Type := State → Res A.

#[global] Instance M_ret : MRet M := λ A a s, Ok a s.
#[global] Instance M_bind : MBind M := λ A B f m s,
  match m s with
  | Ok a s' => f a s'
  | UB => UB
  end.

Definition undefined {A : Type} : M A := λ _, UB.
Definition get_self : M BdbTracer := λ s, Ok (self s) s.
Definition modify_self (f : BdbTracer → BdbTracer) : M unit :=
  λ s, Ok tt (set_self (f (self s)) s).
Definition emit (e : Event) : M unit :=
  λ s, Ok tt (set_log (log s ++ [e]) s).
Definition raise (e : PyExc) : M unit :=
  λ s, Ok tt (set_err (Some e) s).
Definition get_heap : M (gmap addr HeapObj) := λ s, Ok (heap s) s.
Definition put_heap (h : gmap addr HeapObj) : M unit :=
  λ s, Ok tt (set_heap h s).

(** ** C integers *)

Definition LONG_MIN : Z := - 2 ^ 63.
Definition LONG_MAX : Z := 2 ^ 63 - 1.
Definition INT_MIN : Z := - 2 ^ 31.
Definition INT_MAX : Z := 2 ^ 31 - 1.

(** The conversion of a [long] to an [int] keeps the low 32 bits. *)
Definition long_to_int (z : Z) : Z := (z + 2 ^ 31) mod 2 ^ 32 - 2 ^ 31.

(** [Python.h]: the event kinds passed to a C trace function. *)
Definition PyTrace_CALL : Z := 0.
Definition PyTrace_EXCEPTION : Z := 1.
Definition PyTrace_LINE : Z := 2.
Definition PyTrace_RETURN : Z := 3.

(** ** The part of the CPython API the tracer uses *)

Definition Py_INCREF (o : option PyObject) : M unit :=
  match o with
  | Some _ => mret tt
  | None => undefined
  end.

Definition Py_DECREF (o : option PyObject) : M unit :=
  match o with
  | Some _ => mret tt
  | None => undefined
  end.

Definition PyErr_Occurred : M bool :=
  λ s, Ok (bool_decide (err_indicator s ≠ None)) s.

(** Reading and writing through a [PyFrameObject *] or a [PyCodeObject *]:
    the pointer must point to an object of that type. *)
Definition frame_load (frame : addr) : M PyFrameObject :=
  h ← get_heap;
  match h !! frame with
  | Some (HFrame fr) => mret fr
  | _ => undefined
  end.

Definition frame_store (frame : addr) (fr : PyFrameObject) : M unit :=
  h ← get_heap;
  match h !! frame with
  | Some (HFrame _) => put_heap (<[frame := HFrame fr]> h)
  | _ => undefined
  end.

Definition code_load (co : addr) : M PyCodeObject :=
  h ← get_heap;
  match h !! co with
  | Some (HCode c) => mret c
  | _ => undefined
  end.

Definition PyTuple_GET_SIZE (t : option (list PyObject)) : M Z :=
  match t with
  | Some l => mret (Z.of_nat (length l))
  | None => undefined
  end.

Definition PyList_GET_SIZE (t : option (list PyObject)) : M Z :=
  match t with
  | Some l => mret (Z.of_nat (length l))
  | None => undefined
  end.

(** The macro does no bounds check. *)
Definition PyList_GET_ITEM (t : option (list PyObject)) (i : Z) : M PyObject :=
  match t with
  | Some l =>
      if bool_decide (0 ≤ i) then
        match l !! Z.to_nat i with
        | Some o => mret o
        | None => undefined
        end
      else undefined
  | None => undefined
  end.

(** Dictionary keys: [True == 1] and [False == 0] hash and compare equal;
    strings and ints compare by value, the other objects by identity. *)
Definition key_norm (k : PyObject) : PyObject :=
  match k with
  | Py_True => PyLong 1
  | Py_False => PyLong 0
  | _ => k
  end.

Definition key_eqb (a b : PyObject) : bool :=
  bool_decide (key_norm a = key_norm b).

Fixpoint dict_find (items : list (PyObject * PyObject)) (k : PyObject)
    : option PyObject :=
  match items with
  | [] => None
  | (k', v) :: rest => if key_eqb k' k then Some v else dict_find rest k
  end.

Fixpoint dict_set (items : list (PyObject * PyObject)) (k v : PyObject)
    : list (PyObject * PyObject) :=
  match items with
  | [] => [(k, v)]
  | (k', v') :: rest =>
      if key_eqb k' k then (k', v) :: rest else (k', v') :: dict_set rest k v
  end.

(** Dictionaries are the unhashable objects of this model. *)
Definition hashable (h : gmap addr HeapObj) (k : PyObject) : bool :=
  match k with
  | PyRef a => match h !! a with
               | Some (HDict _) => false
               | _ => true
               end
  | _ => true
  end.

Definition as_dict (h : gmap addr HeapObj) (d : PyObject)
    : option (addr * list (PyObject * PyObject)) :=
  match d with
  | PyRef a => match h !! a with
               | Some (HDict items) => Some (a, items)
               | _ => None
               end
  | _ => None
  end.

(** What a dictionary lookup finds: nothing when [d] is not a dictionary or
    the key is unhashable. *)
Definition dict_lookup (h : gmap addr HeapObj) (d key : PyObject)
    : option PyObject :=
  match as_dict h d with
  | Some (_, items) => if hashable h key then dict_find items key else None
  | None => None
  end.

(** [PyDict_GetItem] returns [NULL] when the key is missing, when the first
    argument is not a dictionary and when the key is unhashable; it never
    leaves an exception set. *)
Definition PyDict_GetItem (d : option PyObject) (key : PyObject)
    : M (option PyObject) :=
  emit (EvDictGetItem d key);;
  match d with
  | None => undefined
  | Some o => h ← get_heap; mret (dict_lookup h o key)
  end.

Definition PyDict_SetItem (d : option PyObject) (key value : PyObject) : M Z :=
  match d with
  | None => undefined
  | Some o =>
      h ← get_heap;
      match as_dict h o with
      | Some (a, items) =>
          if hashable h key then
            put_heap (<[a := HDict (dict_set items key value)]> h);;
            emit (EvDictSetItem d key value 0);;
            mret 0
          else
            raise TypeError;;
            emit (EvDictSetItem d key value (-1));;
            mret (-1)
      | None =>
          raise SystemError;;
          emit (EvDictSetItem d key value (-1));;
          mret (-1)
      end
  end.

(** [PyDict_Contains] casts its argument without checking it. *)
Definition PyDict_Contains (d : option PyObject) (key : PyObject) : M Z :=
  match d with
  | None => undefined
  | Some o =>
      h ← get_heap;
      match as_dict h o with
      | Some (_, items) =>
          if hashable h key then
            let rc := match dict_find items key with Some _ => 1 | None => 0 end in
            emit (EvDictContains d key rc);;
            mret rc
          else
            raise TypeError;;
            emit (EvDictContains d key (-1));;
            mret (-1)
      | None => undefined
      end
  end.

(** [PyLong_AsLong]: [-1] with an exception set when the object is not an
    int or does not fit a C [long]. *)
Definition PyLong_AsLong (o : option PyObject) : M Z :=
  match o with
  | Some (PyLong z) =>
      if bool_decide (LONG_MIN ≤ z ≤ LONG_MAX) then
        emit (EvLongAsLong o true);; mret z
      else
        raise OverflowError;; emit (EvLongAsLong o false);; mret (-1)
  | Some Py_True => emit (EvLongAsLong o true);; mret 1
  | Some Py_False => emit (EvLongAsLong o true);; mret 0
  | Some _ => raise TypeError;; emit (EvLongAsLong o false);; mret (-1)
  | None => raise SystemError;; emit (EvLongAsLong o false);; mret (-1)
  end.

(** What [PyObject_IsTrue] returns: 1, 0, or -1 when the test raises.
    [None], [False], zero, the empty string and the empty dictionary are
    false; an instance of another class answers through its [__bool__],
    which may raise. *)
Definition object_truth (h : gmap addr HeapObj) (o : PyObject) : Z :=
  match o with
  | Py_None => 0
  | Py_False => 0
  | PyLong z => if bool_decide (z = 0) then 0 else 1
  | PyUnicode str => if bool_decide (str = EmptyString) then 0 else 1
  | PyRef a => match h !! a with
               | Some (HDict []) => 0
               | Some (HObject (Some false)) => 0
               | Some (HObject None) => -1
               | _ => 1
               end
  | _ => 1
  end.

(** [PyObject_IsTrue]: [-1] with an exception set when the truth test
    raises.  A test that succeeds leaves no trace. *)
Definition PyObject_IsTrue (o : PyObject) : M Z :=
  h ← get_heap;
  if bool_decide (object_truth h o = -1) then
    raise OtherError;; emit (EvIsTrueFailed o);; mret (-1)
  else mret (object_truth h o).

(** On the objects of this model a comparison cannot raise, so that
    [PySequence_Contains] never returns [-1]. *)

Definition PySequence_Contains (t : option (list PyObject)) (o : PyObject)
    : M Z :=
  match t with
  | Some l => mret (if existsb (λ x, key_eqb x o) l then 1 else 0)
  | None => undefined
  end.

Definition ascii_lower (c : Ascii.ascii) : Ascii.ascii :=
  let n := Ascii.nat_of_ascii c in
  if ((65 <=? n) && (n <=? 90))%nat then Ascii.ascii_of_nat (n + 32) else c.

Fixpoint str_lower (str : string) : string :=
  match str with
  | EmptyString => EmptyString
  | String c rest => String (ascii_lower c) (str_lower rest)
  end.

(** [PyObject_CallMethod(filename, "lower", NULL)]: only strings have the
    method. *)
Definition call_lower (o : PyObject) : M (option PyObject) :=
  match o with
  | PyUnicode str =>
      let r := Some (PyUnicode (str_lower str)) in
      emit (EvLower o r);; mret r
  | _ => raise AttributeError;; emit (EvLower o None);; mret None
  end.

Definition PyFrame_FastToLocals (frame : addr) : M unit :=
  emit (EvFastToLocals frame).
Definition PyFrame_LocalsToFast (frame : addr) : M unit :=
  emit (EvLocalsToFast frame).
Definition PyTraceBack_Here (frame : addr) : M unit :=
  emit (EvTraceBackHere frame).
Definition put_c_traceobj (o : option PyObject) : M unit :=
  λ s, Ok tt (set_c_traceobj o s).
Definition PyEval_SetTrace (traceobj : option PyObject) : M unit :=
  put_c_traceobj traceobj;;
  emit (EvSetTrace traceobj).

Definition is_bool (o : PyObject) : bool :=
  match o with
  | Py_True | Py_False => true
  | _ => false
  end.

(** ** The functions of _bdbmodule.c *)

(** The control transfers of [tracer]: [goto fin] with a result, [goto fail],
    or falling out of the [if ... else if] chain. *)
Inductive Jump : Type :=
| GotoFin (result : option PyObject)
| GotoFail
| FallThrough.


Section Tracer.

(** [PyObject_CallMethod((PyObject * )self, name, ...)]: the method is looked
    up on the instance, so it is whatever the Python subclass defines. *)
Variable py_method :
  string → list PyObject → State → option PyObject * State.

(** [PyCode_Addr2Line], used by [PyFrame_GetLineNumber] on a frame that is
    not traced. *)
Variable PyCode_Addr2Line : PyCodeObject → Z → Z.

Definition PyObject_CallMethod (name : string) (args : list PyObject)
    : M (option PyObject) :=
  λ s, let (r, s') := py_method name args s in
       Ok r (set_log (log s ++ [EvCallMethod name args r]) s').

Definition PyFrame_GetLineNumber (frame : addr) : M Z :=
  fr ← frame_load frame;
  match f_trace fr with
  | Some _ => mret (f_lineno fr)
  | None => co ← code_load (f_code fr); mret (PyCode_Addr2Line co (f_lasti fr))
  end.

(** Lines 169-179: the skip test.  [Some rc] is one of its two early
    returns; [None] means that control reaches line 181.  Line 174 uses the
    result of [PyObject_IsTrue] as the condition of an [if]: the [-1] of a
    truth test that raised is not zero, and takes the [return 0]. *)
Definition skip_test (frame : addr) : M (option Z) :=
  self0 ← get_self;
  n ← PyTuple_GET_SIZE (skip_modules self0);
  if bool_decide (n ≠ 0) then
    result ← PyObject_CallMethod "is_skipped_module" [PyRef frame];
    match result with
    | None => mret (Some (-1))
    | Some r =>
        t ← PyObject_IsTrue r;
        if bool_decide (t ≠ 0) then mret (Some 0) else mret None
    end
  else mret None.

(** Lines 181-191: the decision on the frame and the line. *)
Definition stop_decision (frame : addr) : M Z :=
  self1 ← get_self;
  l ← PyLong_AsLong (stop_lineno self1);
  let lineno := long_to_int l in
  e ← PyErr_Occurred;
  if bool_decide (lineno = -1) && e then mret (-1)
  else if bool_decide (Some (PyRef frame) = stopframe self1)
          || bool_decide (stopframe self1 = Some Py_None) then
    if bool_decide (lineno = -1) then mret 0
    else
      fr ← frame_load frame;
      mret (if bool_decide (lineno ≤ f_lineno fr) then 1 else 0)
  else mret 0.

(** Lines 163-192. *)
Definition stop_here (frame : addr) : M Z :=
  early ← skip_test frame;
  match early with
  | Some rc => mret rc
  | None => stop_decision frame
  end.

(** Lines 204-218: the optional case folding of the file name.  [None] is
    the [return NULL] of lines 209 and 212. *)
Definition fold_filename (filename : PyObject) : M (option PyObject) :=
  self0 ← get_self;
  match lcfilename_cache self0 with
  | Some _ =>
      lc_filename ← PyDict_GetItem (lcfilename_cache self0) filename;
      match lc_filename with
      | None =>
          lc_filename ← call_lower filename;
          match lc_filename with
          | None => mret None
          | Some lc =>
              rc ← PyDict_SetItem (lcfilename_cache self0) filename lc;
              if bool_decide (rc ≠ 0) then mret None else mret (Some lc)
          end
      | Some lc => mret (Some lc)
      end
  | None => mret (Some filename)
  end.

(** Lines 220-248: the two-level lookup, and the update of the cache. *)
Definition lookup_code_bps (frame : addr) (filename : PyObject)
    : M (option PyObject) :=
  fr ← frame_load frame;
  co ← code_load (f_code fr);
  self0 ← get_self;
  module_bps ← PyDict_GetItem (breakpoints self0) filename;
  match module_bps with
  | Some mb =>
      n ← PyList_GET_SIZE (linenumbers self0);
      if bool_decide (co_firstlineno co < n) then
        firstlineno ← PyList_GET_ITEM (linenumbers self0) (co_firstlineno co);
        if bool_decide (firstlineno ≠ Py_None) then
          code_bps ← PyDict_GetItem (Some mb) firstlineno;
          match code_bps with
          | Some cb =>
              modify_self (set_bkpt_cache (Some mb) (Some cb) (Some (f_code fr)));;
              mret (Some mb)
          | None => mret (Some Py_None)
          end
        else mret (Some Py_None)
      else mret (Some Py_None)
  | None => mret (Some Py_None)
  end.

(** Lines 194-253. *)
Definition bkpt_in_code (frame : addr) : M (option PyObject) :=
  fr ← frame_load frame;
  co ← code_load (f_code fr);
  filename ← fold_filename (co_filename co);
  match filename with
  | None => mret None
  | Some fname => lookup_code_bps frame fname
  end.

(** Lines 275-291, with [module_bps] resolved. *)
Definition bkpt_on_lineno (frame : addr) (module_bps : option PyObject)
    : M (option PyObject) :=
  fr ← frame_load frame;
  self0 ← get_self;
  n ← PyList_GET_SIZE (linenumbers self0);
  if bool_decide (f_lineno fr < n) then
    lineno ← PyList_GET_ITEM (linenumbers self0) (f_lineno fr);
    if bool_decide (lineno ≠ Py_None) then
      haskey ← PyDict_Contains (code_bps self0) lineno;
      if bool_decide (haskey = -1) then mret None
      else if bool_decide (haskey ≠ 0) then mret module_bps
      else mret (Some Py_None)
    else mret (Some Py_None)
  else mret (Some Py_None).

(** Lines 267-273 followed by 275-291: the path that does not use the
    cache. *)
Definition bkpt_at_line_uncached (frame : addr) : M (option PyObject) :=
  module_bps ← bkpt_in_code frame;
  match module_bps with
  | None => mret None
  | Some Py_None => mret (Some Py_None)
  | Some mb => bkpt_on_lineno frame (Some mb)
  end.

(** Lines 255-292. *)
Definition bkpt_at_line (frame : addr) : M (option PyObject) :=
  fr ← frame_load frame;
  self0 ← get_self;
  if bool_decide (Some (f_code fr) = cached_f_code self0) then
    Py_INCREF (module_bps self0);;
    bkpt_on_lineno frame (module_bps self0)
  else bkpt_at_line_uncached frame.

(** Lines 294-339.  With the format ["OO"] a [NULL] argument makes
    [PyObject_CallMethod] fail before anything is called. *)
Definition user_method (frame : addr) (name : string) (arg : option PyObject)
    : M (option PyObject) :=
  self0 ← get_self;
  (if bool_decide (botframe self0 = Some Py_None)
   then modify_self (set_botframe (Some (PyRef frame)))
   else mret tt);;
  self1 ← get_self;
  modify_self (set_topframe (Some (PyRef frame)));;
  Py_DECREF (topframe self1);;
  modify_self (set_topframe_locals (Some Py_None));;
  Py_DECREF (topframe_locals self1);;
  PyFrame_FastToLocals frame;;
  result ← (if bool_decide (name = "user_line") then
              PyObject_CallMethod name [PyRef frame]
            else
              match arg with
              | Some a => PyObject_CallMethod name [PyRef frame; a]
              | None => raise SystemError;; emit EvBuildValueNull;; mret None
              end);
  PyFrame_LocalsToFast frame;;
  match result with
  | None => mret None
  | Some _ =>
      self2 ← get_self;
      modify_self (set_topframe (Some Py_None));;
      Py_DECREF (topframe self2);;
      modify_self (set_topframe_locals (Some Py_None));;
      Py_DECREF (topframe_locals self2);;
      PyObject_CallMethod "get_traceobj" []
  end.

(** Lines 361-380. *)
Definition tracer_LINE (frame : addr) : M Jump :=
  rc ← stop_here frame;
  if bool_decide (rc = -1) then mret GotoFail
  else if bool_decide (rc ≠ 0) then
    result ← user_method frame "user_line" None;
    mret (GotoFin result)
  else
    module_bps ← bkpt_at_line frame;
    match module_bps with
    | None => mret GotoFail
    | Some Py_None => mret FallThrough
    | Some mb =>
        result ← user_method frame "bkpt_user_line" (Some mb);
        mret (GotoFin result)
    end.

(** Lines 383-413. *)
Definition tracer_CALL (frame : addr) (arg : option PyObject) : M Jump :=
  self0 ← get_self;
  if bool_decide (ignore_first_call_event self0 ≠ 0) then
    modify_self (set_ignore_first_call_event 0);;
    mret (GotoFin (Some PySelf))
  else
    fr ← frame_load frame;
    rc ← PySequence_Contains (skip_calls self0) (PyRef (f_code fr));
    if bool_decide (rc = -1) then mret GotoFail
    else if bool_decide (rc ≠ 0) then mret (GotoFin (Some Py_None))
    else
      rc ← stop_here frame;
      if bool_decide (rc = -1) then mret GotoFail
      else
        result ← bkpt_in_code frame;
        match result with
        | None => mret GotoFail
        | Some r =>
            if bool_decide (rc = 0) && bool_decide (r = Py_None) then
              mret (GotoFin (Some r))
            else if bool_decide (rc ≠ 0) then
              result ← user_method frame "user_call" arg;
              mret (GotoFin result)
            else mret FallThrough
        end.

(** Lines 431-451: the step target is handed to the caller's frame. *)
Definition propagate_to_caller (frame : addr) : M unit :=
  fr ← frame_load frame;
  match f_back fr with
  | Some f_back_addr =>
      fb ← frame_load f_back_addr;
      match f_trace fb with
      | None =>
          ln ← PyFrame_GetLineNumber f_back_addr;
          frame_store f_back_addr
            (mkFrame (f_back fb) (f_code fb) (Some PySelf) ln (f_lasti fb))
      | Some _ => mret tt
      end
  | None => mret tt
  end;;
  self0 ← get_self;
  modify_self (set_stopframe (Some Py_None));;
  Py_DECREF (stopframe self0);;
  modify_self (set_stop_lineno (Some (PyLong 0)));;
  Py_DECREF (stop_lineno self0).

(** Lines 420-452; [None] when control leaves the block normally. *)
Definition tracer_RETURN_stop (frame : addr) (arg : option PyObject)
    : M (option Jump) :=
  result ← user_method frame "user_return" arg;
  match result with
  | None => mret (Some GotoFail)
  | Some Py_None => mret (Some (GotoFin (Some Py_None)))
  | Some _ =>
      self1 ← get_self;
      l ← PyLong_AsLong (stop_lineno self1);
      let lineno := long_to_int l in
      e ← PyErr_Occurred;
      if bool_decide (lineno = -1) && e then mret (Some GotoFail)
      else if bool_decide (Some (PyRef frame) ≠ botframe self1)
              && ((bool_decide (stopframe self1 = Some Py_None)
                   && bool_decide (lineno = 0))
                  || bool_decide (Some (PyRef frame) = stopframe self1)) then
        propagate_to_caller frame;; mret None
      else mret None
  end.

(** Lines 416-464. *)
Definition tracer_RETURN (frame : addr) (arg : option PyObject) : M Jump :=
  rc ← stop_here frame;
  if bool_decide (rc = -1) then mret GotoFail
  else
    self0 ← get_self;
    j ← (if bool_decide (rc ≠ 0)
            || bool_decide (Some (PyRef frame) = stopframe self0)
         then tracer_RETURN_stop frame arg
         else mret None);
    match j with
    | Some jump => mret jump
    | None =>
        self2 ← get_self;
        if bool_decide (Some (PyRef frame) = botframe self2) then
          result ← PyObject_CallMethod "stop_tracing" [PyRef frame];
          match result with
          | None => mret GotoFail
          | Some _ => mret (GotoFin (Some Py_None))
          end
        else mret FallThrough
    end.

(** Lines 467-475. *)
Definition tracer_EXCEPTION (frame : addr) (arg : option PyObject) : M Jump :=
  rc ← stop_here frame;
  if bool_decide (rc = -1) then mret GotoFail
  else if bool_decide (rc ≠ 0) then
    result ← user_method frame "user_exception" arg;
    mret (GotoFin result)
  else mret FallThrough.

(** Lines 493-498. *)
Definition tracer_fail (frame : addr) : M Z :=
  PyTraceBack_Here frame;;
  PyEval_SetTrace None;;
  fr ← frame_load frame;
  frame_store frame
    (mkFrame (f_back fr) (f_code fr) None (f_lineno fr) (f_lasti fr));;
  mret (-1).

(** Lines 480-491. *)
Definition tracer_fin (frame : addr) (result : option PyObject) : M Z :=
  match result with
  | None => tracer_fail frame
  | Some r =>
      if bool_decide (r ≠ Py_None) then
        fr ← frame_load frame;
        frame_store frame
          (mkFrame (f_back fr) (f_code fr) (Some r) (f_lineno fr) (f_lasti fr));;
        mret 0
      else mret 0
  end.

(** Lines 360-478: the four event kinds. *)
Definition tracer_event (frame : addr) (what : Z) (arg : option PyObject)
    : M Jump :=
  if bool_decide (what = PyTrace_LINE) then tracer_LINE frame
  else if bool_decide (what = PyTrace_CALL) then tracer_CALL frame arg
  else if bool_decide (what = PyTrace_RETURN) then tracer_RETURN frame arg
  else if bool_decide (what = PyTrace_EXCEPTION) then tracer_EXCEPTION frame arg
  else mret FallThrough.

(** Lines 341-499. *)
Definition tracer (frame : addr) (what : Z) (arg : option PyObject) : M Z :=
  fr ← frame_load frame;
  if bool_decide (what ≠ PyTrace_CALL) && bool_decide (f_trace fr = None) then
    mret 0
  else
    let arg := match arg with
               | None => Some Py_None
               | Some a => Some a
               end in
    j ← tracer_event frame what arg;
    match j with
    | GotoFin result => tracer_fin frame result
    | GotoFail => tracer_fail frame
    | FallThrough => tracer_fin frame (Some PySelf)
    end.

(** Lines 550-566: [stop_here] as a Python method; the format ["O!"] with
    [PyFrame_Type] accepts exactly one frame. *)
Definition BdbTracer_stop_here (args : list PyObject) : M (option PyObject) :=
  h ← get_heap;
  match args with
  | [PyRef a] =>
      match h !! a with
      | Some (HFrame _) =>
          rc ← stop_here a;
          if bool_decide (rc = -1) then mret None
          else if bool_decide (rc ≠ 0) then mret (Some Py_True)
          else mret (Some Py_False)
      | _ => raise TypeError;; mret None
      end
  | _ => raise TypeError;; mret None
  end.

(** [PyDict_New]: a fresh, empty dictionary. *)
Definition PyDict_New : M (option PyObject) :=
  h ← get_heap;
  let a := fresh (dom h) in
  put_heap (<[a := HDict []]> h);;
  mret (Some (PyRef a)).

(** Lines 62-140.  The three arguments are what
    [PyArg_ParseTupleAndKeywords] binds for the format ["O!|O!O!:init"]:
    [to_lowercase] and the two optional tuples ([None] when omitted); a
    [to_lowercase] that is missing or not a [bool] is the failed parse of
    line 90.  The [reset] of line 125 is looked up on the instance. *)
Definition BdbTracer_init (lowercase : option PyObject)
    (skip_modules_arg skip_calls_arg : option (list PyObject)) : M Z :=
  self0 ← get_self;
  modify_self (λ _, mkTracer None None None None None None None None None
                      None None (ignore_first_call_event self0) None None
                      None None);;
  match lowercase with
  | Some lc =>
      if is_bool lc then
        cache ← (if bool_decide (lc = Py_True) then PyDict_New else mret None);
        bps ← PyDict_New;
        modify_self (λ t, mkTracer (Some PySelf) bps None None None None None
                            None
                            (match skip_modules_arg with
                             | None => Some []
                             | Some l => Some l
                             end)
                            (match skip_calls_arg with
                             | None => Some []
                             | Some l => Some l
                             end)
                            (Some []) (ignore_first_call_event t) cache
                            None None None);;
        result ← PyObject_CallMethod "reset" [];
        match result with
        | None => mret (-1)
        | Some _ => mret 0
        end
      else raise TypeError;; mret (-1)
  | None => raise TypeError;; mret (-1)
  end.

End Tracer.

(** Lines 501-548, argument parsing: the format ["|O!O:reset"] with the
    keyword list [ignore_first_call_event], [botframe].  [None] is a failed
    parse (a [TypeError]); otherwise each of the two C variables is [NULL]
    or the object given. *)
Definition kw_lookup (kwds : list (string * PyObject)) (name : string)
    : option PyObject :=
  snd <$> find (λ kv, bool_decide (fst kv = name)) kwds.

(** The object bound to the [i]-th name of the keyword list: the [i]-th
    positional argument or else the keyword argument of that name; [None]
    is an omitted argument, the C variable stays [NULL]. *)
Definition bound_arg (args : list PyObject) (kwds : list (string * PyObject))
    (i : nat) (name : string) : option PyObject :=
  match args !! i with
  | Some o => Some o
  | None => kw_lookup kwds name
  end.

Definition parse_reset_args (args : list PyObject)
    (kwds : list (string * PyObject))
    : option (option PyObject * option PyObject) :=
  let kwlist := ["ignore_first_call_event"; "botframe"]%string in
  if bool_decide (length kwlist < length args + length kwds)%nat then None
  else if negb (forallb (λ kv, bool_decide (fst kv ∈ kwlist)) kwds) then None
  else if existsb (λ i, match args !! i, kwlist !! i with
                        | Some _, Some name =>
                            bool_decide (kw_lookup kwds name ≠ None)
                        | _, _ => false
                        end) [0; 1]%nat then None
  else
    let ignore := bound_arg args kwds 0 "ignore_first_call_event" in
    let botframe_arg := bound_arg args kwds 1 "botframe" in
    match ignore with
    | Some o => if is_bool o then Some (ignore, botframe_arg) else None
    | None => Some (ignore, botframe_arg)
    end.

(** Lines 501-548. *)
Definition BdbTracer_reset (args : list PyObject)
    (kwds : list (string * PyObject)) : M (option PyObject) :=
  match parse_reset_args args kwds with
  | None => raise TypeError;; mret None
  | Some (ignore, botframe_arg) =>
      modify_self (set_ignore_first_call_event
                     (if bool_decide (ignore ≠ Some Py_False) then 1 else 0));;
      modify_self (set_botframe (match botframe_arg with
                                 | None => Some Py_None
                                 | Some b => Some b
                                 end));;
      modify_self (set_quitting (Some Py_False));;
      modify_self (set_topframe (Some Py_None));;
      modify_self (set_topframe_locals (Some Py_None));;
      modify_self (set_stopframe (Some Py_None));;
      modify_self (set_stop_lineno (Some (PyLong 0)));;
      mret (Some Py_None)
  end.

(** Lines 568-574. *)
Definition BdbTracer_set_trace_dispatch : M (option PyObject) :=
  PyEval_SetTrace (Some PySelf);;
  mret (Some Py_None).

(** * Vocabulary of the specifications *)

(** Partial correctness of a computation: from a state satisfying [P],
    every defined outcome satisfies [Q]. *)
Definition hoare {A : Type} (P : State → Prop) (m : M A)
    (Q : A → State → Prop) : Prop :=
  ∀ s, P s → match m s with
             | Ok a s' => Q a s'
             | UB => True
             end.

(** Computations that leave a component of the state as it is: with
    [proj := self] the tracer object, with [proj := log] the log. *)
Definition keeps {X A : Type} (proj : State → X) (m : M A) : Prop :=
  ∀ s a s', m s = Ok a s' → proj s' = proj s.

(** ** Well-formed callers *)

(** The back pointer of a frame, when it is not [NULL], points to a frame
    whose [f_code] points to a code object. *)
Definition caller_wf (h : gmap addr HeapObj) (fr : PyFrameObject) : bool :=
  match f_back fr with
  | None => true
  | Some fb =>
      match h !! fb with
      | Some (HFrame fbr) =>
          match h !! f_code fbr with
          | Some (HCode _) => true
          | _ => false
          end
      | _ => false
      end
  end.

(** ** The breakpoint cache is set as a whole *)

(** The three references of the breakpoint cache are set together: a cached
    code object comes with a cached [module_bps] and a cached [code_bps]. *)
Definition cache_set_together (t : BdbTracer) : bool :=
  match cached_f_code t, module_bps t, code_bps t with
  | Some _, Some _, Some _ => true
  | Some _, _, _ => false
  | None, _, _ => true
  end.

Definition cache_inv (s : State) : Prop :=
  cache_set_together (self s) = true.

Definition keeps_cache_inv {A : Type} (m : M A) : Prop :=
  hoare cache_inv m (λ _, cache_inv).

(** ** Coherence of the breakpoint cache *)

(** The folded file name when computing it needs no call: case folding is
    off, or the name is already in [lcfilename_cache]. *)
Definition folded_filename (s : State) (filename : PyObject)
    : option PyObject :=
  match lcfilename_cache (self s) with
  | None => Some filename
  | Some lc => dict_lookup (heap s) lc filename
  end.

(** The pair [(module_bps, code_bps)] that the breakpoints index holds for
    the code object at [c]: the lookups of [bkpt_in_code] (lines 220-227) as
    a function of the state. *)
Definition resolve_code (s : State) (c : addr) : option (PyObject * PyObject) :=
  match heap s !! c with
  | Some (HCode co) =>
      fname ← folded_filename s (co_filename co);
      bps ← breakpoints (self s);
      mb ← dict_lookup (heap s) bps fname;
      lines ← linenumbers (self s);
      if bool_decide (0 ≤ co_firstlineno co) then
        key ← lines !! Z.to_nat (co_firstlineno co);
        if bool_decide (key ≠ Py_None) then
          cb ← dict_lookup (heap s) mb key;
          Some (mb, cb)
        else None
      else None
  | _ => None
  end.

(** The cached references are the ones the index holds now: the invariant
    that the Python side keeps by never replacing a [module_bps] or
    [code_bps] dictionary (comment of lines 30-33). *)
Definition cache_coherent (s : State) : bool :=
  match cached_f_code (self s) with
  | None => true
  | Some c =>
      match resolve_code s c with
      | Some (mb, cb) =>
          bool_decide (module_bps (self s) = Some mb)
          && bool_decide (code_bps (self s) = Some cb)
      | None => false
      end
  end.

(** A lookup in the breakpoints index (or in the file name cache). *)
Definition ev_lookup (e : Event) : bool :=
  match e with
  | EvDictGetItem _ _ => true
  | _ => false
  end.

(** Two outcomes with the same result and the same tracer object and heap;
    the logs may differ. *)
Definition same_outcome {A : Type} (x y : Res A) : Prop :=
  match x, y with
  | Ok a s, Ok b t =>
      a = b ∧ self s = self t ∧ heap s = heap t
      ∧ err_indicator s = err_indicator t ∧ c_traceobj s = c_traceobj t
  | UB, UB => True
  | _, _ => False
  end.

(** ** Failures in the log *)

(** A call that raised and whose error return the source tests: the call
    of a method that returned [NULL], a [lower()] that failed, a dictionary
    operation that reported an error, a line number that could not be
    decoded, an argument tuple that could not be built.  A truth test that
    raised ([EvIsTrueFailed]) is not among them: line 174 does not test its
    error return. *)
Definition ev_failed (e : Event) : bool :=
  match e with
  | EvCallMethod _ _ None => true
  | EvLower _ None => true
  | EvDictSetItem _ _ _ rc => bool_decide (rc ≠ 0)
  | EvDictContains _ _ rc => bool_decide (rc = -1)
  | EvLongAsLong _ false => true
  | EvBuildValueNull => true
  | _ => false
  end.

(** What the tracer may still do once a call has raised: write the locals
    back, record the traceback, remove the global hook. *)
Definition ev_exit (e : Event) : bool :=
  match e with
  | EvLocalsToFast _ => true
  | EvTraceBackHere _ => true
  | EvSetTrace None => true
  | _ => false
  end.

Definition clean (l : list Event) : bool :=
  forallb (λ e, negb (ev_failed e)) l.

(** Exactly one call raised, and only exit events follow it. *)
Fixpoint failed_once (l : list Event) : bool :=
  match l with
  | [] => false
  | e :: rest => if ev_failed e then forallb ev_exit rest else failed_once rest
  end.

(** The log of a run started with the log [l0]: nothing has raised so far,
    or (only when [may_fail] holds) one call has raised and nothing but exit
    events followed. *)
Definition log_state (l0 : list Event) (may_fail : Prop) (s : State) : Prop :=
  ∃ l, log s = l0 ++ l
       ∧ (clean l = true ∨ (may_fail ∧ failed_once l = true)).

(** The values by which the functions of the module report an error. *)
Definition jump_err (j : Jump) : Prop :=
  j = GotoFail ∨ j = GotoFin None.

(** * Concrete objects for the examples

    One source file [/Lib/A.py] with a function starting at line 1, a frame
    [1] running it at line 5 and called from frame [2]; a breakpoint at
    line 5. *)

Definition ex_code : PyCodeObject := mkCode (PyUnicode "/Lib/A.py") 1.

Definition ex_frame (hook : option PyObject) : PyFrameObject :=
  mkFrame (Some 2%positive) 10%positive hook 5 0.

Definition ex_caller (hook : option PyObject) : PyFrameObject :=
  mkFrame None 11%positive hook 3 7.

Definition ex_heap (hook caller_hook : option PyObject) : gmap addr HeapObj :=
  list_to_map
    [ (1%positive, HFrame (ex_frame hook));
      (2%positive, HFrame (ex_caller caller_hook));
      (10%positive, HCode ex_code);
      (11%positive, HCode (mkCode (PyUnicode "/Lib/B.py") 1));
      (20%positive, HDict [(PyUnicode "/Lib/A.py", PyRef 21%positive)]);
      (21%positive, HDict [(PyLong 1, PyRef 22%positive)]);
      (22%positive, HDict [(PyLong 5, Py_True)]) ].

Definition ex_linenumbers : list PyObject :=
  [Py_None; PyLong 1; Py_None; Py_None; Py_None; PyLong 5].

(** A tracer as [reset] leaves it, with the given step target and bottom
    frame and an empty breakpoint cache. *)
Definition ex_tracer (stopframe_ stop_lineno_ botframe_ : PyObject)
    : BdbTracer :=
  mkTracer (Some PySelf) (Some (PyRef 20%positive)) (Some botframe_)
    (Some Py_False) (Some Py_None) (Some Py_None) (Some stopframe_)
    (Some stop_lineno_) (Some []) (Some []) (Some ex_linenumbers) 0 None
    None None None.

Definition ex_state (t : BdbTracer) (h : gmap addr HeapObj) : State :=
  mkState t h None (Some PySelf) [].

(** A debugger whose handlers do nothing and keep the tracer installed. *)
Definition ex_py_method (name : string) (args : list PyObject) (s : State)
    : option PyObject * State :=
  if bool_decide (name = "get_traceobj") then (Some PySelf, s)
  else if bool_decide (name = "is_skipped_module") then (Some Py_False, s)
  else (Some Py_None, s).

(** The same debugger, detaching from the frame after each stop. *)
Definition ex_py_detach (name : string) (args : list PyObject) (s : State)
    : option PyObject * State :=
  if bool_decide (name = "is_skipped_module") then (Some Py_False, s)
  else (Some Py_None, s).

(** A debugger that skips every module. *)
Definition ex_py_skip (name : string) (args : list PyObject) (s : State)
    : option PyObject * State :=
  if bool_decide (name = "is_skipped_module") then (Some Py_True, s)
  else ex_py_method name args s.

Definition ex_Addr2Line (co : PyCodeObject) (lasti : Z) : Z :=
  co_firstlineno co + lasti.

(** A debugger whose [user_line] raises. *)
Definition ex_py_raise (name : string) (args : list PyObject) (s : State)
    : option PyObject * State :=
  if bool_decide (name = "user_line") then (None, set_err (Some OtherError) s)
  else ex_py_method name args s.

(** The same heap with one more object, at [30], whose [__bool__] raises,
    and a debugger whose [is_skipped_module] answers with that object. *)
Definition ex_heap_raiser : gmap addr HeapObj :=
  <[30%positive := HObject None]> (ex_heap (Some PySelf) None).

Definition ex_py_raiser (name : string) (args : list PyObject) (s : State)
    : option PyObject * State :=
  if bool_decide (name = "is_skipped_module")
  then (Some (PyRef 30%positive), s)
  else ex_py_method name args s.

(** The example tracer with one skip pattern. *)
Definition ex_tracer_skip (stopframe_ stop_lineno_ botframe_ : PyObject)
    : BdbTracer :=
  mkTracer (Some PySelf) (Some (PyRef 20%positive)) (Some botframe_)
    (Some Py_False) (Some Py_None) (Some Py_None) (Some stopframe_)
    (Some stop_lineno_) (Some [PyUnicode "lib*"]) (Some [])
    (Some ex_linenumbers) 0 None None None None.

(** * The rest of the module

    ** The default methods and the method table *)

(** Lines 576-593: the bodies that the type gives to the three methods a
    subclass overrides. *)
Definition BdbTracer_stop_tracing : M (option PyObject) :=
  mret (Some Py_NotImplemented).

Definition BdbTracer_is_skipped_module (args : list PyObject)
    : M (option PyObject) :=
  mret (Some Py_NotImplemented).

Definition BdbTracer_get_traceobj : M (option PyObject) :=
  mret (Some Py_NotImplemented).

(** Lines 595-608: what [PyObject_CallMethod] reaches on an object whose type
    is [_bdb.BdbTracer] itself, for the names that the module calls on
    [self].  [reset], [stop_tracing] and [is_skipped_module] take any
    positional arguments, [get_traceobj] is [METH_NOARGS]; the five
    [user_...] handlers are not attributes of the type.  None of these
    bodies has undefined behaviour, so the outcome is a result and a state
    (the last case of [run_method] is not reached, lemma
    [base_method_defined]). *)
Definition base_method_body (name : string) (args : list PyObject)
    : M (option PyObject) :=
  if bool_decide (name = "reset") then BdbTracer_reset args []
  else if bool_decide (name = "stop_tracing") then BdbTracer_stop_tracing
  else if bool_decide (name = "is_skipped_module") then
    BdbTracer_is_skipped_module args
  else if bool_decide (name = "get_traceobj") then
    match args with
    | [] => BdbTracer_get_traceobj
    | _ => raise TypeError;; mret None
    end
  else raise AttributeError;; mret None.

Definition run_method (m : M (option PyObject)) (s : State)
    : option PyObject * State :=
  match m s with
  | Ok r s' => (r, s')
  | UB => (None, s)
  end.

Definition base_method (name : string) (args : list PyObject) (s : State)
    : option PyObject * State :=
  run_method (base_method_body name args) s.

(** ** Vocabulary of the further properties *)

(** The C [long] that [PyLong_AsLong] decodes from an object, when it
    succeeds. *)
Definition as_long (o : option PyObject) : option Z :=
  match o with
  | Some (PyLong z) =>
      if bool_decide (LONG_MIN ≤ z ≤ LONG_MAX) then Some z else None
  | Some Py_True => Some 1
  | Some Py_False => Some 0
  | _ => None
  end.

(** The file name cache maps strings to their lower case. *)
Definition lc_entry_ok (kv : PyObject * PyObject) : bool :=
  match kv with
  | (PyUnicode k, PyUnicode v) => bool_decide (v = str_lower k)
  | _ => false
  end.

Definition lc_cache_ok (s : State) : Prop :=
  match lcfilename_cache (self s) with
  | None => True
  | Some lc =>
      ∃ a items, lc = PyRef a ∧ heap s !! a = Some (HDict items)
                 ∧ forallb lc_entry_ok items = true
  end.

(** Computations whose log entries all satisfy [P]. *)
Definition emits {A : Type} (P : Event → bool) (m : M A) : Prop :=
  ∀ s a s', m s = Ok a s' → ∃ l, log s' = log s ++ l ∧ forallb P l = true.

(** The five handlers of the debugger. *)
Definition is_user_handler (name : string) : bool :=
  bool_decide (name ∈ ["user_line"; "bkpt_user_line"; "user_call";
                       "user_return"; "user_exception"]%string).

Definition ev_handler (e : Event) : bool :=
  match e with
  | EvCallMethod name _ _ => is_user_handler name
  | _ => false
  end.

Definition count_handlers (l : list Event) : nat :=
  length (filter (λ e, ev_handler e = true) l).

(** Computations that call at most [n] handlers. *)
Definition calls_handlers {A : Type} (n : nat) (m : M A) : Prop :=
  ∀ s a s', m s = Ok a s' →
    ∃ l, log s' = log s ++ l ∧ (count_handlers l ≤ n)%nat.

(** What a dispatch on [frame] with the argument [arg] may do to the outside
    world: call one of eight methods with the frame (and the argument) as
    arguments, copy the locals of the frame, record a traceback entry for
    the frame, and remove (never install) the global hook. *)
Definition ev_dispatch_ok (frame : addr) (arg : PyObject) (e : Event) : bool :=
  match e with
  | EvCallMethod name args _ =>
      if bool_decide (name ∈ ["is_skipped_module"; "user_line";
                              "stop_tracing"]%string)
      then bool_decide (args = [PyRef frame])
      else if bool_decide (name ∈ ["user_call"; "user_return";
                                   "user_exception"]%string)
      then bool_decide (args = [PyRef frame; arg])
      else if bool_decide (name = "bkpt_user_line")
      then match args with
           | [f; mb] => bool_decide (f = PyRef frame ∧ mb ≠ Py_None)
           | _ => false
           end
      else if bool_decide (name = "get_traceobj")
      then bool_decide (args = [])
      else false
  | EvBuildValueNull => false
  | EvFastToLocals f | EvLocalsToFast f | EvTraceBackHere f =>
      bool_decide (f = frame)
  | EvSetTrace o => bool_decide (o = None)
  | _ => true
  end.

(** The state in which [user_method] (lines 300-317) calls the handler:
    [botframe] is set if it was [None], [topframe] is the frame and the
    locals have been copied. *)
Definition handler_entry (frame : addr) (s : State) : State :=
  set_log (log s ++ [EvFastToLocals frame])
    (set_self
       (set_topframe_locals (Some Py_None)
          (set_topframe (Some (PyRef frame))
             (if bool_decide (botframe (self s) = Some Py_None)
              then set_botframe (Some (PyRef frame)) (self s)
              else self s)))
       s).

(** The state in which it calls [get_traceobj] (lines 322-338), from the
    state [s1] in which the handler returned [r0]. *)
Definition handler_exit (frame : addr) (name : string) (args : list PyObject)
    (r0 : option PyObject) (l0 : list Event) (s1 : State) : State :=
  set_self
    (set_topframe_locals (Some Py_None)
       (set_topframe (Some Py_None) (self s1)))
    (set_log (l0 ++ [EvCallMethod name args r0; EvLocalsToFast frame]) s1).

(** The arguments that [user_method] passes to the handler. *)
Definition handler_args (frame : addr) (name : string) (a : PyObject)
    : list PyObject :=
  if bool_decide (name = "user_line") then [PyRef frame]
  else [PyRef frame; a].

(** ** src/testsuite/foo.c *)

(** [msleep], lines 14-25, the branch compiled without [WIN32]: the two
    fields of the [struct timespec] handed to [nanosleep].  C division and
    remainder truncate towards zero; no operation overflows an [int]. *)
Definition msleep_timespec (msec : Z) : Z * Z :=
  (Z.quot msec 1000, Z.rem msec 1000 * 1000000).

(** ** More concrete objects *)

(** The example tracer with case folding on: the file name cache is the
    empty dictionary at [23], the breakpoints are indexed by the lower-case
    name. *)
Definition ex_heap_lc : gmap addr HeapObj :=
  list_to_map
    [ (1%positive, HFrame (ex_frame (Some PySelf)));
      (2%positive, HFrame (ex_caller None));
      (10%positive, HCode ex_code);
      (11%positive, HCode (mkCode (PyUnicode "/Lib/B.py") 1));
      (20%positive, HDict [(PyUnicode "/lib/a.py", PyRef 21%positive)]);
      (21%positive, HDict [(PyLong 1, PyRef 22%positive)]);
      (22%positive, HDict [(PyLong 5, Py_True)]);
      (23%positive, HDict []) ].

Definition ex_tracer_lc : BdbTracer :=
  mkTracer (Some PySelf) (Some (PyRef 20%positive)) (Some Py_None)
    (Some Py_False) (Some Py_None) (Some Py_None) (Some (PyRef 2%positive))
    (Some (PyLong 0)) (Some []) (Some []) (Some ex_linenumbers) 0
    (Some (PyRef 23%positive)) None None None.

(** * Properties *)

Ltac msimpl :=
  unfold mbind, mret, M_bind, M_ret, get_heap, get_self, put_heap,
    modify_self, emit, raise, undefined, PyErr_Occurred, put_c_traceobj in *;
  cbn [self heap err_indicator c_traceobj log
       set_self set_heap set_err set_c_traceobj set_log] in *.

Section Properties.

Variable py_method :
  string → list PyObject → State → option PyObject * State.
Variable PyCode_Addr2Line : PyCodeObject → Z → Z.

Lemma bind_eq {A B : Type} (m : M A) (f : A → M B) (s : State) :
  (m ≫= f) s = match m s with Ok a s' => f a s' | UB => UB end.
Proof. reflexivity. Qed.

Lemma frame_load_eq (frame : addr) (fr : PyFrameObject) (s : State) :
  heap s !! frame = Some (HFrame fr) → frame_load frame s = Ok fr s.
Proof. intros H. unfold frame_load. msimpl. rewrite H. reflexivity. Qed.

Lemma long_to_int_id (z : Z) : INT_MIN ≤ z ≤ INT_MAX → long_to_int z = z.
Proof.
  unfold INT_MIN, INT_MAX, long_to_int. intros H.
  rewrite Z.mod_small; lia.
Qed.

Lemma PyLong_AsLong_int (z : Z) (s : State) :
  INT_MIN ≤ z ≤ INT_MAX →
  PyLong_AsLong (Some (PyLong z)) s
  = Ok z (set_log (log s ++ [EvLongAsLong (Some (PyLong z)) true]) s).
Proof.
  intros H. unfold PyLong_AsLong.
  rewrite bool_decide_true; [reflexivity|].
  unfold INT_MIN, INT_MAX, LONG_MIN, LONG_MAX in *. lia.
Qed.

(** *** The stop decision *)

(** The two ways through the skip test: an empty [skip_modules], or a
    frame that [is_skipped_module] does not match. *)
Lemma skip_test_empty (frame : addr) (s : State) :
  skip_modules (self s) = Some [] → skip_test py_method frame s = Ok None s.
Proof. intros H. unfold skip_test. msimpl. rewrite H. reflexivity. Qed.

Lemma skip_test_no_match (frame : addr) (s s1 : State)
    (pats : list PyObject) (r : PyObject) :
  skip_modules (self s) = Some pats →
  pats ≠ [] →
  py_method "is_skipped_module" [PyRef frame] s = (Some r, s1) →
  object_truth (heap s1) r = 0 →
  skip_test py_method frame s
  = Ok None (set_log (log s ++ [EvCallMethod "is_skipped_module"
                                  [PyRef frame] (Some r)]) s1).
Proof.
  intros Hpats Hne Hcall Hfalse.
  unfold skip_test, PyObject_CallMethod, PyObject_IsTrue. msimpl.
  rewrite Hpats. cbn [PyTuple_GET_SIZE]. msimpl.
  rewrite bool_decide_true by (destruct pats; [done | cbn; lia]).
  rewrite Hcall. msimpl. rewrite Hfalse. reflexivity.
Qed.

(** Lines 181-191 on a line number that fits a C [int]. *)
Lemma stop_decision_int (frame : addr) (s : State) (z : Z) :
  stop_lineno (self s) = Some (PyLong z) →
  INT_MIN ≤ z ≤ INT_MAX →
  (z = -1 → err_indicator s = None) →
  stop_decision frame s =
    let s' := set_log (log s ++ [EvLongAsLong (Some (PyLong z)) true]) s in
    if bool_decide (Some (PyRef frame) = stopframe (self s))
       || bool_decide (stopframe (self s) = Some Py_None)
    then if bool_decide (z = -1) then Ok 0 s'
         else match heap s !! frame with
              | Some (HFrame fr) =>
                  Ok (if bool_decide (z ≤ f_lineno fr) then 1 else 0) s'
              | _ => UB
              end
    else Ok 0 s'.
Proof.
  intros Hl Hz He. unfold stop_decision.
  rewrite bind_eq. cbn [get_self]. rewrite Hl.
  rewrite bind_eq, (PyLong_AsLong_int _ _ Hz).
  rewrite (long_to_int_id _ Hz).
  rewrite bind_eq. cbn [PyErr_Occurred set_log err_indicator self].
  destruct (bool_decide (z = -1)) eqn:E1.
  - apply bool_decide_eq_true in E1. rewrite (He E1). cbn.
    destruct (_ || _); reflexivity.
  - cbn. destruct (_ || _); [|reflexivity].
    unfold frame_load. msimpl.
    destruct (heap s !! frame) as [[]|]; reflexivity.
Qed.

Lemma stop_here_after_skip_test (frame : addr) (s s1 : State) :
  skip_test py_method frame s = Ok None s1 →
  stop_here py_method frame s = stop_decision frame s1.
Proof. intros H. unfold stop_here. rewrite bind_eq, H. reflexivity. Qed.

(** C1 (as amended).  When the skip test lets the frame through (in
    particular when [skip_modules] is empty), the stop frame is [None] and
    [stop_lineno] holds the sentinel [-1], [stop_here] returns 0 (false) on
    every frame: with [-1] the tracer never stops on a line. *)
Theorem stop_here_minus_one_never_stops (frame : addr) (s s1 : State) :
  skip_test py_method frame s = Ok None s1 →
  stopframe (self s1) = Some Py_None →
  stop_lineno (self s1) = Some (PyLong (-1)) →
  err_indicator s1 = None →
  stop_here py_method frame s
  = Ok 0 (set_log (log s1 ++ [EvLongAsLong (Some (PyLong (-1))) true]) s1).
Proof.
  intros Hskip Hf Hl He.
  rewrite (stop_here_after_skip_test _ _ _ Hskip).
  rewrite (stop_decision_int frame s1 (-1) Hl); [|done|done].
  cbn zeta. rewrite Hf. reflexivity.
Qed.

(** Stepping is the line threshold 0: with the stop frame [None] and
    [stop_lineno] 0, [stop_here] returns 1 on every frame (line numbers are
    not negative). *)
Lemma stop_here_zero_stops_everywhere (frame : addr) (s s1 : State)
    (fr : PyFrameObject) :
  skip_test py_method frame s = Ok None s1 →
  stopframe (self s1) = Some Py_None →
  stop_lineno (self s1) = Some (PyLong 0) →
  heap s1 !! frame = Some (HFrame fr) →
  0 ≤ f_lineno fr →
  stop_here py_method frame s
  = Ok 1 (set_log (log s1 ++ [EvLongAsLong (Some (PyLong 0)) true]) s1).
Proof.
  intros Hskip Hf Hl Hfr Hline.
  rewrite (stop_here_after_skip_test _ _ _ Hskip).
  rewrite (stop_decision_int frame s1 0 Hl); [|done|done].
  cbn zeta. rewrite Hf, Hfr.
  rewrite (bool_decide_true (Some Py_None = Some Py_None)) by done.
  rewrite orb_true_r. cbn.
  by rewrite (bool_decide_true _ Hline).
Qed.

(** C5.  With a non-empty [skip_modules], when [is_skipped_module] answers
    with a true object, [stop_here] returns 0 whatever [stopframe] and
    [stop_lineno] hold; the only thing it has done is the call: the line
    number is not decoded and the frame is not read.  An answer whose truth
    test raises is taken for a true one: [stop_here] returns 0 as well and
    leaves the exception of the truth test pending. *)
Theorem stop_here_skipped_module (frame : addr) (s s1 : State)
    (pats : list PyObject) (r : PyObject) :
  skip_modules (self s) = Some pats →
  pats ≠ [] →
  py_method "is_skipped_module" [PyRef frame] s = (Some r, s1) →
  object_truth (heap s1) r ≠ 0 →
  let s2 := set_log (log s ++ [EvCallMethod "is_skipped_module"
                                 [PyRef frame] (Some r)]) s1 in
  stop_here py_method frame s
  = Ok 0 (if bool_decide (object_truth (heap s1) r = -1)
          then set_log (log s2 ++ [EvIsTrueFailed r])
                 (set_err (Some OtherError) s2)
          else s2).
Proof.
  intros Hpats Hne Hcall Htrue s2. subst s2.
  unfold stop_here, skip_test, PyObject_CallMethod, PyObject_IsTrue. msimpl.
  rewrite Hpats. cbn [PyTuple_GET_SIZE]. msimpl.
  rewrite bool_decide_true by (destruct pats; [done | cbn; lia]).
  rewrite Hcall. msimpl.
  destruct (bool_decide (object_truth (heap s1) r = -1)); msimpl.
  - reflexivity.
  - rewrite bool_decide_true by done. reflexivity.
Qed.


(** *** Events on frames without a hook *)

(** C9.  A LINE, RETURN or EXCEPTION event (any event other than CALL) on
    a frame whose [f_trace] is [NULL] returns 0 at once and leaves the whole
    state as it was: nothing is called, nothing is looked up, no field of
    the tracer changes (the log is unchanged too).  A CALL event on such a
    frame is dispatched: here, while [ignore_first_call_event] is set, it
    clears the flag and installs the tracer on the frame. *)
Theorem tracer_ignores_hookless_frame (frame : addr) (what : Z)
    (arg : option PyObject) (s : State) (fr : PyFrameObject) :
  heap s !! frame = Some (HFrame fr) →
  f_trace fr = None →
  (what ≠ PyTrace_CALL →
   tracer py_method PyCode_Addr2Line frame what arg s = Ok 0 s)
  ∧ (ignore_first_call_event (self s) ≠ 0 →
     tracer py_method PyCode_Addr2Line frame PyTrace_CALL arg s
     = Ok 0 (set_heap
               (<[frame := HFrame (mkFrame (f_back fr) (f_code fr)
                                     (Some PySelf) (f_lineno fr) (f_lasti fr))]>
                  (heap s))
               (set_self (set_ignore_first_call_event 0 (self s)) s))).
Proof.
  intros Hfr Hhook. split.
  - intros Hwhat. unfold tracer.
    rewrite bind_eq, (frame_load_eq _ _ _ Hfr), Hhook.
    rewrite (bool_decide_true _ Hwhat). reflexivity.
  - intros Hflag. unfold tracer.
    rewrite bind_eq, (frame_load_eq _ _ _ Hfr).
    rewrite (bool_decide_false (PyTrace_CALL ≠ PyTrace_CALL)) by auto.
    cbn [andb]. rewrite bind_eq. unfold tracer_event.
    rewrite (bool_decide_false (PyTrace_CALL = PyTrace_LINE)) by done.
    rewrite (bool_decide_true (PyTrace_CALL = PyTrace_CALL)) by done.
    unfold tracer_CALL. msimpl.
    rewrite (bool_decide_true _ Hflag).
    unfold tracer_fin.
    rewrite (bool_decide_true (PySelf ≠ Py_None)) by done.
    unfold frame_load, frame_store. msimpl. rewrite Hfr. msimpl.
    rewrite Hfr. reflexivity.
Qed.

(** *** Reset *)

(** C3 (as amended).  After a call of [reset] that accepts its arguments,
    [quitting] is [False], [topframe], [topframe_locals] and [stopframe] are
    [None], [stop_lineno] is 0, [botframe] is the object given ([None] when
    omitted), and [ignore_first_call_event] is 0 when [False] was given and
    1 otherwise: it defaults to true when the argument is omitted.  The
    breakpoint cache, the skip lists and the heap are untouched. *)
Theorem BdbTracer_reset_post (args : list PyObject)
    (kwds : list (string * PyObject)) (s s' : State) (r : PyObject) :
  BdbTracer_reset args kwds s = Ok (Some r) s' →
  let ignore := bound_arg args kwds 0 "ignore_first_call_event" in
  quitting (self s') = Some Py_False
  ∧ topframe (self s') = Some Py_None
  ∧ topframe_locals (self s') = Some Py_None
  ∧ stopframe (self s') = Some Py_None
  ∧ stop_lineno (self s') = Some (PyLong 0)
  ∧ botframe (self s') = Some (default Py_None (bound_arg args kwds 1 "botframe"))
  ∧ (ignore = Some Py_False → ignore_first_call_event (self s') = 0)
  ∧ (ignore = Some Py_True → ignore_first_call_event (self s') = 1)
  ∧ (ignore = None → ignore_first_call_event (self s') = 1)
  ∧ (ignore = None ∨ ignore = Some Py_True ∨ ignore = Some Py_False)
  ∧ module_bps (self s') = module_bps (self s)
  ∧ code_bps (self s') = code_bps (self s)
  ∧ cached_f_code (self s') = cached_f_code (self s)
  ∧ skip_modules (self s') = skip_modules (self s)
  ∧ skip_calls (self s') = skip_calls (self s)
  ∧ heap s' = heap s.
Proof.
  unfold BdbTracer_reset, parse_reset_args.
  repeat match goal with
         | |- context [if ?c then None else _] => destruct c
         end; msimpl; try discriminate.
  cbv zeta.
  destruct (bound_arg args kwds 0 "ignore_first_call_event") as [o|] eqn:Ei.
  - destruct (is_bool o) eqn:Eb; msimpl; [|discriminate].
    intros [= <- <-]. cbn.
    destruct o; try discriminate Eb; cbn;
      repeat split; try done; auto;
      destruct (bound_arg args kwds 1 "botframe"); reflexivity.
  - msimpl. intros [= <- <-]. cbn.
    repeat split; try done; auto;
      destruct (bound_arg args kwds 1 "botframe"); reflexivity.
Qed.

(** *** The end of a dispatch *)


(** *** The RETURN event *)

Lemma PyLong_AsLong_long (z : Z) (s : State) :
  LONG_MIN ≤ z ≤ LONG_MAX →
  PyLong_AsLong (Some (PyLong z)) s
  = Ok z (set_log (log s ++ [EvLongAsLong (Some (PyLong z)) true]) s).
Proof.
  intros H. unfold PyLong_AsLong. rewrite bool_decide_true; [reflexivity|done].
Qed.

(** Lines 434-449 on a well-formed caller: the caller gets the tracer as its
    hook when it has none and keeps its hook otherwise; the step target is
    cleared. *)
Lemma propagate_to_caller_spec (frame : addr) (s : State)
    (fr : PyFrameObject) (sf sl : PyObject) :
  heap s !! frame = Some (HFrame fr) →
  caller_wf (heap s) fr = true →
  stopframe (self s) = Some sf →
  stop_lineno (self s) = Some sl →
  ∃ h',
    propagate_to_caller PyCode_Addr2Line frame s
    = Ok tt (set_self (set_stop_lineno (Some (PyLong 0))
                         (set_stopframe (Some Py_None) (self s)))
               (set_heap h' s))
    ∧ (∀ a, f_back fr ≠ Some a → h' !! a = heap s !! a)
    ∧ (∀ fb fbr, f_back fr = Some fb → heap s !! fb = Some (HFrame fbr) →
       ∃ ln, h' !! fb
             = Some (HFrame (mkFrame (f_back fbr) (f_code fbr)
                               (Some (default PySelf (f_trace fbr)))
                               (if f_trace fbr is Some _ then f_lineno fbr else ln)
                               (f_lasti fbr)))).
Proof.
  intros Hfr Hwf Hsf Hsl. unfold propagate_to_caller, caller_wf in *.
  unfold PyFrame_GetLineNumber, frame_store, frame_load, code_load.
  destruct (f_back fr) as [fb|] eqn:Eback.
  - destruct (heap s !! fb) as [[fbr| | |]|] eqn:Efb; try discriminate.
    destruct (heap s !! f_code fbr) as [[|co| |]|] eqn:Eco; try discriminate.
    destruct (f_trace fbr) as [hook|] eqn:Ehook.
    + exists (heap s). split; [|split].
      * msimpl. rewrite Hfr, Eback. msimpl. rewrite Efb, Ehook. msimpl.
        rewrite Hsf, Hsl. cbn. destruct s; reflexivity.
      * done.
      * intros fb' fbr' [= <-] Hfb'. rewrite Efb in Hfb'.
        injection Hfb' as <-. exists 0. rewrite Efb, Ehook. cbn.
        destruct fbr; cbn in *; subst; reflexivity.
    + eexists. split; [|split].
      * msimpl. rewrite Hfr, Eback. msimpl. rewrite Efb, Ehook. msimpl.
        rewrite Efb. msimpl. rewrite Ehook, Eco. msimpl.
        rewrite Efb. msimpl. rewrite Hsf, Hsl. cbn. reflexivity.
      * intros a Ha. cbn. rewrite lookup_insert_ne; [done|congruence].
      * intros fb' fbr' [= <-] Hfb'. rewrite Efb in Hfb'.
        injection Hfb' as <-. eexists. rewrite lookup_insert_eq, Ehook.
        cbn. reflexivity.
  - exists (heap s). split; [|split].
    + msimpl. rewrite Hfr, Eback. msimpl.
      rewrite Hsf, Hsl. cbn. destruct s; reflexivity.
    + done.
    + intros ? ? [=].
Qed.

(** C7 (as amended).  A RETURN event on a hooked frame [F] for which
    [stop_here] answers true, [user_return] (followed by [get_traceobj])
    comes back with an object other than [None], and after which the stop
    frame is [F] and [F] is not the bottom frame: the tracer returns 0, the
    stop frame is [None], [stop_lineno] is 0, and the caller of [F] has the
    tracer as its hook if it had no hook and keeps the hook it had
    otherwise. *)
Theorem tracer_return_propagates (F : addr) (arg : option PyObject)
    (s s0 s1 : State) (fr fr1 : PyFrameObject) (rc n : Z) (r : PyObject) :
  heap s !! F = Some (HFrame fr) →
  f_trace fr ≠ None →
  stop_here py_method F s = Ok rc s0 →
  rc ≠ 0 →
  rc ≠ -1 →
  user_method py_method F "user_return" (Some (default Py_None arg)) s0
  = Ok (Some r) s1 →
  r ≠ Py_None →
  stopframe (self s1) = Some (PyRef F) →
  botframe (self s1) ≠ Some (PyRef F) →
  stop_lineno (self s1) = Some (PyLong n) →
  LONG_MIN ≤ n ≤ LONG_MAX →
  err_indicator s1 = None →
  heap s1 !! F = Some (HFrame fr1) →
  caller_wf (heap s1) fr1 = true →
  ∃ s', tracer py_method PyCode_Addr2Line F PyTrace_RETURN arg s = Ok 0 s'
        ∧ stopframe (self s') = Some Py_None
        ∧ stop_lineno (self s') = Some (PyLong 0)
        ∧ ∀ fb fbr, f_back fr1 = Some fb → fb ≠ F →
            heap s1 !! fb = Some (HFrame fbr) →
            ∃ fbr', heap s' !! fb = Some (HFrame fbr')
                    ∧ f_trace fbr' = Some (default PySelf (f_trace fbr)).
Proof.
  intros Hfr Hhook Hstop Hrc0 Hrc1 Huser Hr Hsf Hbot Hsl Hn Herr Hfr1 Hwf.
  set (s2 := set_log (log s1 ++ [EvLongAsLong (Some (PyLong n)) true]) s1).
  destruct (propagate_to_caller_spec F s2 fr1 (PyRef F) (PyLong n))
    as (h' & Hprop & Hother & Hcaller); try done.
  assert (∃ frF, h' !! F = Some (HFrame frF)) as [frF HfrF].
  { destruct (decide (f_back fr1 = Some F)) as [Hb|Hb].
    - destruct (Hcaller F fr1 Hb Hfr1) as [ln ->]. eauto.
    - rewrite (Hother F Hb). eauto. }
  eexists. split; [|split; [|split]].
  - unfold tracer.
    rewrite bind_eq, (frame_load_eq _ _ _ Hfr).
    rewrite (bool_decide_false (f_trace fr = None)) by done.
    rewrite andb_false_r.
    assert (match arg with Some a => Some a | None => Some Py_None end
            = Some (default Py_None arg)) as -> by (destruct arg; reflexivity).
    rewrite bind_eq. unfold tracer_event.
    rewrite (bool_decide_false (PyTrace_RETURN = PyTrace_LINE)) by done.
    rewrite (bool_decide_false (PyTrace_RETURN = PyTrace_CALL)) by done.
    rewrite (bool_decide_true (PyTrace_RETURN = PyTrace_RETURN)) by done.
    unfold tracer_RETURN.
    rewrite bind_eq, Hstop.
    rewrite (bool_decide_false (rc = -1)) by done.
    rewrite bind_eq. cbn [get_self].
    rewrite (bool_decide_true (rc ≠ 0)) by done. cbn [orb].
    rewrite bind_eq. unfold tracer_RETURN_stop.
    rewrite bind_eq, Huser.
    assert (∀ (A : Type) (x y : A),
              match r with Py_None => x | _ => y end = y) as Hmatch
      by (intros; destruct r; done).
    rewrite Hmatch. clear Hmatch.
    rewrite bind_eq. cbn [get_self]. rewrite Hsl.
    rewrite bind_eq, (PyLong_AsLong_long _ _ Hn). fold s2.
    rewrite bind_eq. cbn [PyErr_Occurred].
    replace (err_indicator s2) with (@None PyExc) by (symmetry; exact Herr).
    rewrite (bool_decide_false (None ≠ None)) by auto.
    rewrite andb_false_r.
    rewrite (bool_decide_true (Some (PyRef F) ≠ botframe (self s1)))
      by congruence.
    rewrite (bool_decide_true (Some (PyRef F) = stopframe (self s1)))
      by congruence.
    rewrite orb_true_r. cbn [andb].
    rewrite bind_eq, Hprop. msimpl.
    rewrite (bool_decide_false (Some (PyRef F) = botframe (self s1)))
      by congruence.
    unfold tracer_fin.
    rewrite (bool_decide_true (PySelf ≠ Py_None)) by done.
    unfold frame_load, frame_store. msimpl. rewrite HfrF. msimpl.
    rewrite HfrF. reflexivity.
  - reflexivity.
  - reflexivity.
  - intros fb fbr Hback Hne Hfb. cbn.
    destruct (Hcaller fb fbr Hback Hfb) as [ln Hl].
    rewrite lookup_insert_ne by congruence. rewrite Hl.
    eexists. split; [reflexivity|]. reflexivity.
Qed.

(** *** A small program logic *)

Lemma hoare_ret {A : Type} (P : State → Prop) (Q : A → State → Prop) (a : A) :
  (∀ s, P s → Q a s) → hoare P (mret a) Q.
Proof. intros H s Hs. cbn. auto. Qed.

Lemma hoare_bind {A B : Type} (P : State → Prop) (R : A → State → Prop)
    (Q : B → State → Prop) (m : M A) (f : A → M B) :
  hoare P m R → (∀ a, hoare (R a) (f a) Q) → hoare P (m ≫= f) Q.
Proof.
  intros Hm Hf s Hs. rewrite bind_eq. specialize (Hm s Hs).
  destruct (m s) as [a s'|]; [|done]. apply (Hf a s' Hm).
Qed.

Lemma hoare_conseq {A : Type} (P P' : State → Prop)
    (Q Q' : A → State → Prop) (m : M A) :
  hoare P' m Q' → (∀ s, P s → P' s) → (∀ a s, Q' a s → Q a s) →
  hoare P m Q.
Proof.
  intros Hm Hp Hq s Hs. specialize (Hm s (Hp s Hs)).
  destruct (m s); [auto|done].
Qed.

Lemma hoare_undefined {A : Type} (P : State → Prop) (Q : A → State → Prop) :
  hoare P undefined Q.
Proof. intros s _. exact I. Qed.

Lemma keeps_ret {X A : Type} (proj : State → X) (a : A) :
  keeps proj (mret a).
Proof. intros s a' s' [= _ <-]. reflexivity. Qed.

Lemma keeps_bind {X A B : Type} (proj : State → X) (m : M A) (f : A → M B) :
  keeps proj m → (∀ a, keeps proj (f a)) → keeps proj (m ≫= f).
Proof.
  intros Hm Hf s b s'. rewrite bind_eq.
  destruct (m s) as [a s1|] eqn:E; [|done].
  intros H. rewrite (Hf _ _ _ _ H). exact (Hm _ _ _ E).
Qed.

Lemma keeps_undefined {X A : Type} (proj : State → X) :
  keeps proj (@undefined A).
Proof. intros s a s' [=]. Qed.

(** Proves [keeps proj m] for a computation made of primitives that keep
    the component, by sequencing and case analysis. *)
Ltac keeps_tac :=
  repeat first
    [ apply keeps_ret
    | apply keeps_undefined
    | match goal with
      | H : context [keeps] |- _ => apply H
      end
    | apply keeps_bind; [|intros ?]
    | match goal with
      | |- keeps _ (match ?x with _ => _ end) => destruct x
      | |- keeps _ (if ?c then _ else _) => destruct c
      | |- keeps _ _ => by (intros ? ? ? [= _ <-])
      end
    | progress unfold Py_INCREF, Py_DECREF, frame_load, frame_store,
        code_load, PyTuple_GET_SIZE, PyList_GET_SIZE, PyList_GET_ITEM,
        PyDict_GetItem, PyDict_SetItem, PyDict_Contains, PyLong_AsLong,
        PyObject_IsTrue, PySequence_Contains, call_lower,
        PyFrame_FastToLocals, PyFrame_LocalsToFast, PyTraceBack_Here,
        PyEval_SetTrace, put_c_traceobj, PyDict_New, PyFrame_GetLineNumber ].

(** *** The breakpoint cache is set as a whole *)

Section CacheInvariant.

(** The three references are not members of the type: Python code reaches
    them only through the functions of this module. *)
Hypothesis py_method_cache_inv :
  ∀ name args s r s',
    cache_inv s → py_method name args s = (r, s') → cache_inv s'.

Lemma keeps_cache_inv_of_keeps_self {A : Type} (m : M A) :
  keeps self m → keeps_cache_inv m.
Proof.
  intros Hm s Hs. destruct (m s) as [a s'|] eqn:E; [|done].
  unfold cache_inv in *. rewrite (Hm _ _ _ E). exact Hs.
Qed.

Lemma keeps_cache_inv_ret {A : Type} (a : A) : keeps_cache_inv (mret a).
Proof. apply keeps_cache_inv_of_keeps_self, keeps_ret. Qed.

Lemma keeps_cache_inv_bind {A B : Type} (m : M A) (f : A → M B) :
  keeps_cache_inv m → (∀ a, keeps_cache_inv (f a)) →
  keeps_cache_inv (m ≫= f).
Proof. intros Hm Hf. eapply hoare_bind; [exact Hm|]. exact Hf. Qed.

Lemma keeps_cache_inv_modify (f : BdbTracer → BdbTracer) :
  (∀ t, cache_set_together t = true → cache_set_together (f t) = true) →
  keeps_cache_inv (modify_self f).
Proof. intros Hf s Hs. cbn. apply Hf, Hs. Qed.

Lemma keeps_cache_inv_CallMethod name args :
  keeps_cache_inv (PyObject_CallMethod py_method name args).
Proof.
  intros s Hs. unfold PyObject_CallMethod.
  destruct (py_method name args s) as [r s'] eqn:E.
  apply (py_method_cache_inv _ _ _ _ _ Hs) in E. exact E.
Qed.

Ltac cinv :=
  repeat first
    [ apply keeps_cache_inv_ret
    | apply keeps_cache_inv_CallMethod
    | match goal with
      | H : context [keeps_cache_inv] |- _ => apply H
      end
    | apply keeps_cache_inv_modify; by intros []
    | match goal with
      | |- keeps_cache_inv (_ ≫= _) =>
          apply keeps_cache_inv_bind; [|intros ?]
      | |- keeps_cache_inv (match ?x with _ => _ end) => destruct x
      | |- keeps_cache_inv (if ?c then _ else _) => destruct c
      end
    | apply keeps_cache_inv_of_keeps_self; solve [keeps_tac] ].

Lemma keeps_cache_inv_skip_test frame :
  keeps_cache_inv (skip_test py_method frame).
Proof. unfold skip_test. cinv. Qed.

Lemma keeps_cache_inv_stop_decision frame :
  keeps_cache_inv (stop_decision frame).
Proof. unfold stop_decision. cinv. Qed.

Lemma keeps_cache_inv_stop_here frame :
  keeps_cache_inv (stop_here py_method frame).
Proof.
  pose proof keeps_cache_inv_skip_test. pose proof keeps_cache_inv_stop_decision.
  unfold stop_here. cinv.
Qed.

Lemma keeps_cache_inv_fold_filename o :
  keeps_cache_inv (fold_filename o).
Proof. unfold fold_filename. cinv. Qed.

Lemma keeps_cache_inv_lookup_code_bps frame o :
  keeps_cache_inv (lookup_code_bps frame o).
Proof. unfold lookup_code_bps. cinv. Qed.

Lemma keeps_cache_inv_bkpt_in_code frame :
  keeps_cache_inv (bkpt_in_code frame).
Proof.
  pose proof keeps_cache_inv_fold_filename.
  pose proof keeps_cache_inv_lookup_code_bps.
  unfold bkpt_in_code. cinv.
Qed.

Lemma keeps_cache_inv_bkpt_on_lineno frame mb :
  keeps_cache_inv (bkpt_on_lineno frame mb).
Proof. unfold bkpt_on_lineno. cinv. Qed.

Lemma keeps_cache_inv_bkpt_at_line frame :
  keeps_cache_inv (bkpt_at_line frame).
Proof.
  pose proof keeps_cache_inv_bkpt_in_code.
  pose proof keeps_cache_inv_bkpt_on_lineno.
  unfold bkpt_at_line, bkpt_at_line_uncached. cinv.
Qed.

Lemma keeps_cache_inv_user_method frame name arg :
  keeps_cache_inv (user_method py_method frame name arg).
Proof. unfold user_method. cinv. Qed.

Lemma keeps_cache_inv_tracer_event frame what arg :
  keeps_cache_inv (tracer_event py_method PyCode_Addr2Line frame what arg).
Proof.
  pose proof keeps_cache_inv_stop_here.
  pose proof keeps_cache_inv_bkpt_in_code.
  pose proof keeps_cache_inv_bkpt_at_line.
  pose proof keeps_cache_inv_user_method.
  unfold tracer_event, tracer_LINE, tracer_CALL, tracer_RETURN,
    tracer_RETURN_stop, tracer_EXCEPTION, propagate_to_caller.
  cinv.
Qed.

Lemma keeps_cache_inv_tracer frame what arg :
  keeps_cache_inv (tracer py_method PyCode_Addr2Line frame what arg).
Proof.
  pose proof keeps_cache_inv_tracer_event.
  unfold tracer, tracer_fin, tracer_fail. cbv zeta. cinv.
Qed.

Lemma keeps_cache_inv_reset args kwds :
  keeps_cache_inv (BdbTracer_reset args kwds).
Proof. unfold BdbTracer_reset. cinv. Qed.

Lemma keeps_cache_inv_BdbTracer_stop_here args :
  keeps_cache_inv (BdbTracer_stop_here py_method args).
Proof.
  pose proof keeps_cache_inv_stop_here.
  unfold BdbTracer_stop_here. cinv.
Qed.

Lemma keeps_cache_inv_set_trace_dispatch :
  keeps_cache_inv BdbTracer_set_trace_dispatch.
Proof. unfold BdbTracer_set_trace_dispatch. cinv. Qed.

Lemma BdbTracer_init_cache_inv lowercase sm sc :
  hoare (λ _, True) (BdbTracer_init py_method lowercase sm sc)
    (λ _, cache_inv).
Proof.
  unfold BdbTracer_init.
  eapply hoare_bind with (R := λ _ _, True); [done|intros self0].
  eapply hoare_bind with (R := λ _, cache_inv); [by intros s _|intros _].
  match goal with |- hoare cache_inv ?m _ => change (keeps_cache_inv m) end.
  cinv.
Qed.

Lemma keeps_self_fold_filename o : keeps self (fold_filename o).
Proof. unfold fold_filename. keeps_tac. Qed.

(** [bkpt_in_code] either leaves the tracer object as it is or writes the
    three references at once, all of them non-null. *)
Lemma lookup_code_bps_writes_all frame fname s r s' :
  lookup_code_bps frame fname s = Ok r s' →
  self s' = self s
  ∨ ∃ mb cb c, r = Some mb
               ∧ self s' = set_bkpt_cache (Some mb) (Some cb) (Some c) (self s).
Proof.
  pose (Q := λ (r : option PyObject) (s' : State),
          self s' = self s
          ∨ ∃ mb cb c, r = Some mb
              ∧ self s' = set_bkpt_cache (Some mb) (Some cb) (Some c) (self s)).
  assert (hoare (λ s1, self s1 = self s) (lookup_code_bps frame fname) Q) as H.
  { assert (∀ (A : Type) (m : M A), keeps self m →
              hoare (λ s1, self s1 = self s) m (λ _ s1, self s1 = self s))
      as Hkeep.
    { intros A m Hm s1 Hs1. destruct (m s1) as [a s2|] eqn:E; [|done].
      rewrite (Hm _ _ _ E). exact Hs1. }
    unfold lookup_code_bps.
    repeat first
      [ eapply hoare_bind; [apply Hkeep; solve [keeps_tac]|intros ?]
      | apply hoare_ret; intros ? ?; left; assumption
      | match goal with
        | |- hoare _ (match ?x with _ => _ end) _ => destruct x
        | |- hoare _ (if ?c then _ else _) _ => destruct c
        end ].
    intros s1 Hs1. cbn. right. do 3 eexists. split; [reflexivity|].
    cbn. rewrite Hs1. reflexivity. }
  intros E. specialize (H s eq_refl). rewrite E in H. exact H.
Qed.

Lemma bkpt_in_code_writes_all frame s r s' :
  bkpt_in_code frame s = Ok r s' →
  self s' = self s
  ∨ ∃ mb cb c, r = Some mb
               ∧ self s' = set_bkpt_cache (Some mb) (Some cb) (Some c) (self s).
Proof.
  unfold bkpt_in_code. rewrite bind_eq.
  destruct (frame_load frame s) as [fr s1|] eqn:E1; [|done].
  assert (keeps self (frame_load frame)) as K1 by keeps_tac.
  apply K1 in E1. rewrite bind_eq.
  destruct (code_load (f_code fr) s1) as [co s2|] eqn:E2; [|done].
  assert (keeps self (code_load (f_code fr))) as K2 by keeps_tac.
  apply K2 in E2. rewrite bind_eq.
  destruct (fold_filename (co_filename co) s2) as [fn s3|] eqn:E3; [|done].
  apply keeps_self_fold_filename in E3.
  assert (self s3 = self s) as Hs by congruence.
  destruct fn as [fname|].
  - intros E. apply lookup_code_bps_writes_all in E. rewrite Hs in E. exact E.
  - intros [= <- <-]. left. exact Hs.
Qed.

(** C10.  The three references of the last-resolved breakpoint cache are set
    together.  Provided the methods of the Python subclass keep it so (they
    cannot reach the three fields), [__init__] establishes and every
    function of the module preserves: when the cached code object is not
    [NULL], the cached [module_bps] and [code_bps] are not [NULL] either.
    [bkpt_in_code] leaves the tracer object alone or writes the three
    references at once, none of them [NULL]; hence on a cache hit
    [bkpt_at_line] reads two non-null cached sets. *)
Theorem bkpt_cache_set_together :
  (∀ lowercase sm sc,
     hoare (λ _, True) (BdbTracer_init py_method lowercase sm sc)
       (λ _, cache_inv))
  ∧ (∀ frame, keeps_cache_inv (stop_here py_method frame))
  ∧ (∀ frame, keeps_cache_inv (bkpt_in_code frame))
  ∧ (∀ frame, keeps_cache_inv (bkpt_at_line frame))
  ∧ (∀ frame name arg, keeps_cache_inv (user_method py_method frame name arg))
  ∧ (∀ frame what arg,
       keeps_cache_inv (tracer py_method PyCode_Addr2Line frame what arg))
  ∧ (∀ args kwds, keeps_cache_inv (BdbTracer_reset args kwds))
  ∧ (∀ args, keeps_cache_inv (BdbTracer_stop_here py_method args))
  ∧ keeps_cache_inv BdbTracer_set_trace_dispatch
  ∧ (∀ frame s r s',
       bkpt_in_code frame s = Ok r s' →
       self s' = self s
       ∨ ∃ mb cb c, r = Some mb
           ∧ self s' = set_bkpt_cache (Some mb) (Some cb) (Some c) (self s))
  ∧ (∀ frame s fr,
       cache_inv s →
       heap s !! frame = Some (HFrame fr) →
       Some (f_code fr) = cached_f_code (self s) →
       ∃ mb cb, module_bps (self s) = Some mb
                ∧ code_bps (self s) = Some cb
                ∧ bkpt_at_line frame s = bkpt_on_lineno frame (Some mb) s).
Proof.
  split; [exact BdbTracer_init_cache_inv|].
  split; [exact keeps_cache_inv_stop_here|].
  split; [exact keeps_cache_inv_bkpt_in_code|].
  split; [exact keeps_cache_inv_bkpt_at_line|].
  split; [exact keeps_cache_inv_user_method|].
  split; [exact keeps_cache_inv_tracer|].
  split; [exact keeps_cache_inv_reset|].
  split; [exact keeps_cache_inv_BdbTracer_stop_here|].
  split; [exact keeps_cache_inv_set_trace_dispatch|].
  split; [exact bkpt_in_code_writes_all|].
  intros frame s fr Hinv Hfr Hhit.
  unfold cache_inv, cache_set_together in Hinv. rewrite <- Hhit in Hinv.
  destruct (module_bps (self s)) as [mb|] eqn:Emb; [|done].
  destruct (code_bps (self s)) as [cb|] eqn:Ecb; [|done].
  exists mb, cb. split; [reflexivity|]. split; [reflexivity|].
  unfold bkpt_at_line.
  rewrite bind_eq, (frame_load_eq _ _ _ Hfr). msimpl.
  rewrite (bool_decide_true _ Hhit), Emb. reflexivity.
Qed.

End CacheInvariant.

(** *** Failures end the dispatch *)

Lemma clean_app l1 l2 : clean (l1 ++ l2) = clean l1 && clean l2.
Proof. unfold clean. apply forallb_app. Qed.

Lemma failed_once_app_clean l1 l2 :
  clean l1 = true → failed_once (l1 ++ l2) = failed_once l2.
Proof.
  induction l1 as [|e l1 IH]; [done|]. cbn. intros H.
  apply andb_true_iff in H as [He Hl]. apply negb_true_iff in He.
  rewrite He. auto.
Qed.

Lemma failed_once_app_exit l1 l2 :
  failed_once l1 = true → forallb ev_exit l2 = true →
  failed_once (l1 ++ l2) = true.
Proof.
  induction l1 as [|e l1 IH]; [done|]. cbn. intros H H2.
  destruct (ev_failed e); [|auto].
  rewrite forallb_app, H, H2. reflexivity.
Qed.

Lemma ev_exit_not_failed e : ev_exit e = true → ev_failed e = false.
Proof. destruct e as [| | | | | | | | | |[]|]; done. Qed.

Lemma clean_no_failure l : clean l = true → existsb ev_failed l = false.
Proof.
  induction l as [|e l IH]; [done|]. cbn. intros H.
  apply andb_true_iff in H as [He Hl]. apply negb_true_iff in He.
  rewrite He. auto.
Qed.

Section LogSpecs.

Variable l0 : list Event.

Lemma log_state_mono (P Q : Prop) s :
  (P → Q) → log_state l0 P s → log_state l0 Q s.
Proof. intros H (l & Hl & [Hc|[Hp Hf]]); exists l; tauto. Qed.

Lemma log_state_same_log (P : Prop) s s' :
  log s' = log s → log_state l0 P s → log_state l0 P s'.
Proof. intros E (l & Hl & H). exists l. rewrite E. done. Qed.

(** Logging an event that is not a failure, from a clean log. *)
Lemma log_state_emit_clean e s :
  ev_failed e = false →
  log_state l0 False s →
  log_state l0 False (set_log (log s ++ [e]) s).
Proof.
  intros He (l & Hl & [Hc|[[] _]]). exists (l ++ [e]). cbn.
  rewrite Hl, <- app_assoc. split; [done|]. left.
  rewrite clean_app, Hc. cbn. rewrite He. done.
Qed.

(** Logging a failure, from a clean log. *)
Lemma log_state_emit_failed (P : Prop) e s :
  ev_failed e = true → P →
  log_state l0 False s →
  log_state l0 P (set_log (log s ++ [e]) s).
Proof.
  intros He HP (l & Hl & [Hc|[[] _]]). exists (l ++ [e]). cbn.
  rewrite Hl, <- app_assoc. split; [done|]. right. split; [done|].
  rewrite failed_once_app_clean by done. cbn. rewrite He. done.
Qed.

(** Logging an exit event, whatever the log. *)
Lemma log_state_emit_exit (P : Prop) e s :
  ev_exit e = true →
  log_state l0 P s →
  log_state l0 P (set_log (log s ++ [e]) s).
Proof.
  intros He (l & Hl & H). exists (l ++ [e]). cbn.
  rewrite Hl, <- app_assoc. split; [done|].
  destruct H as [Hc|[HP Hf]].
  - left. rewrite clean_app, Hc. cbn.
    rewrite (ev_exit_not_failed _ He). done.
  - right. split; [done|]. apply failed_once_app_exit; [done|].
    cbn. rewrite He. done.
Qed.

Lemma hoare_keeps_log {A : Type} (P : Prop) (m : M A) :
  keeps log m → hoare (log_state l0 P) m (λ _, log_state l0 P).
Proof.
  intros Hm s Hs. destruct (m s) as [a s'|] eqn:E; [|done].
  apply (log_state_same_log _ s); [|done]. exact (Hm _ _ _ E).
Qed.

Lemma hoare_log_ret {A : Type} (P : Prop) (E : A → Prop) (a : A) :
  (P → E a) → hoare (log_state l0 P) (mret a) (λ a s, log_state l0 (E a) s).
Proof. intros H. apply hoare_ret. intros s. apply log_state_mono, H. Qed.

Lemma hoare_log_pre {A : Type} (P P' : Prop) (m : M A) Q :
  (P → P') → hoare (log_state l0 P') m Q → hoare (log_state l0 P) m Q.
Proof.
  intros H Hm. eapply hoare_conseq; [exact Hm| |done].
  intros s. apply log_state_mono, H.
Qed.

End LogSpecs.

Section Dispatch.

Variable l0 : list Event.

Notation "'LOG' P" := (log_state l0 P) (at level 10, P at level 9).

(** The primitives that log. *)

Lemma emit_clean_spec e :
  ev_failed e = false →
  hoare (LOG False) (emit e) (λ _, LOG False).
Proof. intros He s Hs. cbn. by apply log_state_emit_clean. Qed.

Lemma emit_exit_spec (P : Prop) e :
  ev_exit e = true →
  hoare (LOG P) (emit e) (λ _, LOG P).
Proof. intros He s Hs. cbn. by apply log_state_emit_exit. Qed.

Lemma PyObject_CallMethod_spec name args :
  hoare (LOG False) (PyObject_CallMethod py_method name args)
    (λ r, LOG (r = None)).
Proof.
  intros s Hs. unfold PyObject_CallMethod.
  destruct (py_method name args s) as [[r|] s'] eqn:E.
  - apply (log_state_mono _ False); [done|].
    apply (log_state_emit_clean l0 (EvCallMethod name args (Some r)) s eq_refl)
      in Hs.
    destruct Hs as (l & Hl & H). exists l. done.
  - apply (log_state_emit_failed l0 (@None PyObject = None)
             (EvCallMethod name args None) s eq_refl eq_refl) in Hs.
    destruct Hs as (l & Hl & H). exists l. done.
Qed.

Lemma PyDict_GetItem_spec d k :
  hoare (LOG False) (PyDict_GetItem d k) (λ _, LOG False).
Proof.
  unfold PyDict_GetItem.
  eapply hoare_bind; [by apply emit_clean_spec|intros []].
  apply hoare_keeps_log. keeps_tac.
Qed.

Lemma PyDict_SetItem_spec d k v :
  hoare (LOG False) (PyDict_SetItem d k v) (λ rc, LOG (rc ≠ 0)).
Proof.
  intros s Hs. unfold PyDict_SetItem.
  destruct d as [o|]; [|done]. msimpl.
  destruct (as_dict (heap s) o) as [[a items]|].
  - destruct (hashable (heap s) k); msimpl.
    + apply (log_state_mono _ False); [done|].
      by apply (log_state_emit_clean l0 (EvDictSetItem (Some o) k v 0)
                  (set_heap _ s)).
    + by apply (log_state_emit_failed l0 _ (EvDictSetItem (Some o) k v (-1))
                  (set_err _ s)).
  - by apply (log_state_emit_failed l0 _ (EvDictSetItem (Some o) k v (-1))
                (set_err _ s)).
Qed.

Lemma PyDict_Contains_spec d k :
  hoare (LOG False) (PyDict_Contains d k) (λ rc, LOG (rc = -1)).
Proof.
  intros s Hs. unfold PyDict_Contains.
  destruct d as [o|]; [|done]. msimpl.
  destruct (as_dict (heap s) o) as [[a items]|]; [|done].
  destruct (hashable (heap s) k); msimpl.
  - apply (log_state_mono _ False); [done|].
    apply (log_state_emit_clean l0 (EvDictContains (Some o) k _) s); [|done].
    by destruct (dict_find items k).
  - by apply (log_state_emit_failed l0 _ (EvDictContains (Some o) k (-1))
                (set_err _ s)).
Qed.

Lemma call_lower_spec o :
  hoare (LOG False) (call_lower o) (λ r, LOG (r = None)).
Proof.
  intros s Hs. unfold call_lower.
  destruct o; msimpl;
    try (by apply (log_state_emit_failed l0 _ (EvLower _ None) (set_err _ s))).
  apply (log_state_mono _ False); [done|].
  by apply (log_state_emit_clean l0 (EvLower _ (Some _)) s).
Qed.

(** Lines 181-183 and 428-430: decoding [stop_lineno] and testing the error
    indicator.  After a failed decode the test of the source succeeds. *)
Lemma PyLong_AsLong_spec o :
  hoare (LOG False) (PyLong_AsLong o)
    (λ l s, log_state l0 (l = -1 ∧ err_indicator s ≠ None) s).
Proof.
  assert (∀ s z, log_state l0 False s →
            log_state l0 (z = -1 ∧ err_indicator s ≠ None)
              (set_log (log s ++ [EvLongAsLong o true]) s)) as Hok.
  { intros s z Hs. apply (log_state_mono _ False); [done|].
    by apply log_state_emit_clean. }
  assert (∀ s x, log_state l0 False s →
            log_state l0 (-1 = -1 ∧ Some x ≠ None)
              (set_log (log s ++ [EvLongAsLong o false])
                 (set_err (Some x) s))) as Hfail.
  { intros s x Hs.
    by apply (log_state_emit_failed l0 _ (EvLongAsLong o false)
                (set_err _ s)). }
  intros s Hs. unfold PyLong_AsLong.
  destruct o as [[]|]; try case_bool_decide; msimpl;
    first [by apply Hok | by apply Hfail].
Qed.

(** Line 174: a truth test that raises is not reported. *)
Lemma PyObject_IsTrue_spec o :
  hoare (LOG False) (PyObject_IsTrue o) (λ _, LOG False).
Proof.
  intros s Hs. unfold PyObject_IsTrue. msimpl.
  destruct (bool_decide (object_truth (heap s) o = -1)); msimpl; [|done].
  by apply (log_state_emit_clean l0 (EvIsTrueFailed o) (set_err _ s)).
Qed.

Lemma PyErr_Occurred_spec (l : Z) :
  hoare (λ s, log_state l0 (l = -1 ∧ err_indicator s ≠ None) s)
    PyErr_Occurred
    (λ e, LOG (bool_decide (long_to_int l = -1) && e = true)).
Proof.
  intros s Hs. cbn. revert Hs. apply log_state_mono.
  intros [-> He]. by rewrite (bool_decide_true _ He).
Qed.

Lemma hoare_ret_bind {A B : Type} (P : State → Prop) (a : A) (f : A → M B) Q :
  hoare P (f a) Q → hoare P (mret a ≫= f) Q.
Proof. intros H s Hs. exact (H s Hs). Qed.

Create HintDb lspec.

#[local] Hint Resolve PyObject_CallMethod_spec PyDict_GetItem_spec
  PyDict_SetItem_spec PyDict_Contains_spec call_lower_spec
  PyLong_AsLong_spec PyObject_IsTrue_spec PyErr_Occurred_spec : lspec.

Ltac lg_side :=
  intros; subst; unfold jump_err in *; cbn [andb orb] in *;
  first [ done | tauto | congruence | lia
        | left; reflexivity | right; reflexivity
        | intuition congruence ].

Ltac lg :=
  repeat first
    [ progress cbv beta
    | apply hoare_undefined
    | apply hoare_log_ret; lg_side
    | eapply hoare_log_pre; cycle 1;
        [solve [eauto with lspec]|lg_side]
    | match goal with
      | |- hoare _ ((if ?c then _ else _) ≫= _) _ => destruct c eqn:?
      | |- hoare _ (mret _ ≫= _) _ => apply hoare_ret_bind
      | |- hoare _ (PyErr_Occurred ≫= _) _ =>
          eapply hoare_bind; [apply PyErr_Occurred_spec|intros ?]
      | |- hoare _ (_ ≫= _) _ =>
          first
            [ eapply hoare_bind;
                [apply hoare_keeps_log; solve [keeps_tac]|intros ?]
            | eapply hoare_bind;
                [apply emit_exit_spec; reflexivity|intros ?]
            | eapply hoare_bind;
                [eapply hoare_log_pre; cycle 1;
                   [first [ solve [eauto with lspec]
                          | apply emit_clean_spec; reflexivity ]
                   |lg_side]
                |intros ?] ]
      | |- hoare _ (if bool_decide ?φ then _ else _) _ =>
          destruct (decide φ);
            [rewrite (bool_decide_true φ) in * by assumption
            |rewrite (bool_decide_false φ) in * by assumption]
      | |- hoare _ (if ?c then _ else _) _ => destruct c eqn:?
      | |- hoare _ (match ?x with _ => _ end) _ => destruct x eqn:?
      end ].

Lemma skip_test_spec frame :
  hoare (LOG False) (skip_test py_method frame) (λ r, LOG (r = Some (-1))).
Proof. unfold skip_test. lg. Qed.

Lemma stop_decision_spec frame :
  hoare (LOG False) (stop_decision frame) (λ rc, LOG (rc = -1)).
Proof.
  unfold stop_decision. cbv zeta. lg.
Qed.

#[local] Hint Resolve skip_test_spec stop_decision_spec : lspec.

Lemma stop_here_spec frame :
  hoare (LOG False) (stop_here py_method frame) (λ rc, LOG (rc = -1)).
Proof. unfold stop_here. lg. Qed.

Lemma fold_filename_spec o :
  hoare (LOG False) (fold_filename o) (λ r, LOG (r = None)).
Proof. unfold fold_filename. lg. Qed.

Lemma lookup_code_bps_spec frame o :
  hoare (LOG False) (lookup_code_bps frame o) (λ r, LOG (r = None)).
Proof. unfold lookup_code_bps. lg. Qed.

#[local] Hint Resolve stop_here_spec fold_filename_spec
  lookup_code_bps_spec : lspec.

Lemma bkpt_in_code_spec frame :
  hoare (LOG False) (bkpt_in_code frame) (λ r, LOG (r = None)).
Proof. unfold bkpt_in_code. lg. Qed.

Lemma bkpt_on_lineno_spec frame mb :
  mb ≠ None →
  hoare (LOG False) (bkpt_on_lineno frame mb) (λ r, LOG (r = None)).
Proof. intros Hmb. unfold bkpt_on_lineno. lg. Qed.

#[local] Hint Resolve bkpt_in_code_spec bkpt_on_lineno_spec : lspec.

Lemma bkpt_at_line_spec frame :
  hoare (LOG False) (bkpt_at_line frame) (λ r, LOG (r = None)).
Proof.
  unfold bkpt_at_line.
  eapply hoare_bind; [apply hoare_keeps_log; keeps_tac|intros fr].
  eapply hoare_bind; [apply hoare_keeps_log; keeps_tac|intros self0].
  destruct (bool_decide (Some (f_code fr) = cached_f_code self0)).
  - destruct (module_bps self0) as [mb|]; [|by intros s _].
    eapply hoare_bind; [apply hoare_keeps_log; keeps_tac|intros []].
    by apply bkpt_on_lineno_spec.
  - unfold bkpt_at_line_uncached. lg.
Qed.

Lemma user_method_spec frame name arg :
  hoare (LOG False) (user_method py_method frame name arg)
    (λ r, LOG (r = None)).
Proof.
  assert (hoare (LOG False)
            (if bool_decide (name = "user_line")
             then PyObject_CallMethod py_method name [PyRef frame]
             else match arg with
                  | Some a => PyObject_CallMethod py_method name [PyRef frame; a]
                  | None => raise SystemError;; emit EvBuildValueNull;;
                            mret None
                  end)
            (λ r, LOG (r = None))) as Hcall.
  { lg. intros s Hs. cbn.
    by apply (log_state_emit_failed l0 _ EvBuildValueNull (set_err _ s)). }
  unfold user_method. lg.
Qed.

#[local] Hint Resolve bkpt_at_line_spec user_method_spec : lspec.

Lemma tracer_LINE_spec frame :
  hoare (LOG False) (tracer_LINE py_method frame) (λ j, LOG (jump_err j)).
Proof. unfold tracer_LINE. lg. Qed.

Lemma tracer_CALL_spec frame arg :
  hoare (LOG False) (tracer_CALL py_method frame arg)
    (λ j, LOG (jump_err j)).
Proof. unfold tracer_CALL. lg. Qed.

Lemma propagate_to_caller_log frame :
  keeps log (propagate_to_caller PyCode_Addr2Line frame).
Proof. unfold propagate_to_caller. keeps_tac. Qed.

Lemma tracer_RETURN_stop_spec frame arg :
  hoare (LOG False) (tracer_RETURN_stop py_method PyCode_Addr2Line frame arg)
    (λ j, LOG (j = Some GotoFail)).
Proof.
  pose proof propagate_to_caller_log.
  unfold tracer_RETURN_stop. cbv zeta. lg.
Qed.

#[local] Hint Resolve tracer_RETURN_stop_spec : lspec.

Lemma tracer_RETURN_spec frame arg :
  hoare (LOG False) (tracer_RETURN py_method PyCode_Addr2Line frame arg)
    (λ j, LOG (jump_err j)).
Proof. unfold tracer_RETURN. lg. Qed.

Lemma tracer_EXCEPTION_spec frame arg :
  hoare (LOG False) (tracer_EXCEPTION py_method frame arg)
    (λ j, LOG (jump_err j)).
Proof. unfold tracer_EXCEPTION. lg. Qed.

#[local] Hint Resolve tracer_LINE_spec tracer_CALL_spec tracer_RETURN_spec
  tracer_EXCEPTION_spec : lspec.

Lemma tracer_event_spec frame what arg :
  hoare (LOG False) (tracer_event py_method PyCode_Addr2Line frame what arg)
    (λ j, LOG (jump_err j)).
Proof.
  unfold tracer_event.
  repeat match goal with
         | |- hoare _ (if ?c then _ else _) _ => destruct c
         end;
    first [ apply tracer_LINE_spec | apply tracer_CALL_spec
          | apply tracer_RETURN_spec | apply tracer_EXCEPTION_spec
          | apply hoare_log_ret; lg_side ].
Qed.

(** Lines 493-498. *)
Lemma tracer_fail_spec frame :
  hoare (LOG True) (tracer_fail frame)
    (λ rc s, rc = -1
             ∧ c_traceobj s = None
             ∧ (∃ fr, heap s !! frame = Some (HFrame fr) ∧ f_trace fr = None)
             ∧ ∃ l, log s = l0 ++ l ++ [EvTraceBackHere frame; EvSetTrace None]
                    ∧ (clean l = true ∨ failed_once l = true)).
Proof.
  intros s (l & Hl & H). unfold tracer_fail, PyTraceBack_Here,
    PyEval_SetTrace, frame_load, frame_store. msimpl.
  destruct (heap s !! frame) as [[fr| | |]|] eqn:Efr; try done. msimpl.
  rewrite Efr. msimpl.
  split; [done|]. split; [done|]. split.
  - eexists. rewrite lookup_insert_eq. done.
  - exists l. rewrite Hl, <- !app_assoc. split; [done|tauto].
Qed.

(** Lines 480-491. *)
Lemma tracer_fin_spec frame result :
  hoare (LOG (result = None)) (tracer_fin frame result)
    (λ rc s, (rc = 0 ∧ (LOG False) s)
             ∨ (rc = -1
                ∧ c_traceobj s = None
                ∧ (∃ fr, heap s !! frame = Some (HFrame fr)
                         ∧ f_trace fr = None)
                ∧ ∃ l, log s = l0 ++ l ++ [EvTraceBackHere frame;
                                           EvSetTrace None]
                       ∧ (clean l = true ∨ failed_once l = true))).
Proof.
  unfold tracer_fin. destruct result as [r|].
  - eapply hoare_conseq with (P' := LOG False) (Q' := λ rc s, rc = 0 ∧ (LOG False) s);
      [|intros s; by apply log_state_mono|by left].
    destruct (bool_decide (r ≠ Py_None)).
    + eapply hoare_bind; [apply hoare_keeps_log; keeps_tac|intros fr].
      eapply hoare_bind; [apply hoare_keeps_log; keeps_tac|intros []].
      by apply hoare_ret.
    + by apply hoare_ret.
  - eapply hoare_conseq; [apply tracer_fail_spec| |by right].
    intros s. by apply log_state_mono.
Qed.

Lemma tracer_spec frame what arg :
  hoare (LOG False) (tracer py_method PyCode_Addr2Line frame what arg)
    (λ rc s, (rc = 0 ∧ (LOG False) s)
             ∨ (rc = -1
                ∧ c_traceobj s = None
                ∧ (∃ fr, heap s !! frame = Some (HFrame fr)
                         ∧ f_trace fr = None)
                ∧ ∃ l, log s = l0 ++ l ++ [EvTraceBackHere frame;
                                           EvSetTrace None]
                       ∧ (clean l = true ∨ failed_once l = true))).
Proof.
  unfold tracer. cbv zeta.
  eapply hoare_bind; [apply hoare_keeps_log; keeps_tac|intros fr].
  destruct (_ && _).
  { apply hoare_ret. by left. }
  eapply hoare_bind; [apply tracer_event_spec|intros j].
  destruct j as [result| |]; cbv beta.
  - eapply hoare_conseq; [apply (tracer_fin_spec frame result)| |done].
    intros s. apply log_state_mono. intros [|]; congruence.
  - eapply hoare_conseq; [apply tracer_fail_spec| |by right].
    intros s. by apply log_state_mono.
  - eapply hoare_conseq; [apply (tracer_fin_spec frame (Some PySelf))| |done].
    intros s. apply log_state_mono. intros [|]; congruence.
Qed.

End Dispatch.

(** *** Coherence of the breakpoint cache *)

Lemma key_eqb_refl k : key_eqb k k = true.
Proof. unfold key_eqb. by apply bool_decide_eq_true. Qed.

Lemma dict_find_set items k v : dict_find (dict_set items k v) k = Some v.
Proof.
  induction items as [|[k' v'] items IH]; cbn.
  - by rewrite key_eqb_refl.
  - destruct (key_eqb k' k) eqn:E; cbn; rewrite E; [done|exact IH].
Qed.

Lemma dict_lookup_is_ref h d k v :
  dict_lookup h d k = Some v →
  ∃ a items, d = PyRef a ∧ h !! a = Some (HDict items).
Proof.
  unfold dict_lookup, as_dict. destruct d as [| | | | | | |a]; try done.
  destruct (h !! a) as [[| |items|]|] eqn:E; try done. intros _. eauto.
Qed.

Lemma PyDict_GetItem_eq d k s :
  PyDict_GetItem (Some d) k s
  = Ok (dict_lookup (heap s) d k)
      (set_log (log s ++ [EvDictGetItem (Some d) k]) s).
Proof. reflexivity. Qed.

(** Lines 275-291 do not look at the log. *)
Lemma bkpt_on_lineno_same frame mb s t :
  self s = self t → heap s = heap t →
  err_indicator s = err_indicator t → c_traceobj s = c_traceobj t →
  same_outcome (bkpt_on_lineno frame mb s) (bkpt_on_lineno frame mb t).
Proof.
  intros Hself Hheap Herr Htr.
  destruct s as [ts hs es gs ls], t as [tt ht et gt lt]. cbn in *. subst.
  unfold bkpt_on_lineno, frame_load, PyList_GET_SIZE, PyList_GET_ITEM,
    PyDict_Contains.
  msimpl.
  destruct (ht !! frame) as [[fr| | |]|]; try done. msimpl.
  destruct (linenumbers tt) as [lines|]; [|done]. msimpl.
  destruct (bool_decide (f_lineno fr < _)); [|done].
  destruct (bool_decide (0 ≤ f_lineno fr)); [|done].
  destruct (lines !! _) as [lineno|]; [|done]. msimpl.
  destruct (bool_decide (lineno ≠ Py_None)); [|done].
  destruct (code_bps tt) as [cb|]; [|done]. msimpl.
  destruct (as_dict ht cb) as [[a items]|]; [|done].
  destruct (hashable ht lineno); msimpl.
  - destruct (dict_find items lineno); cbn; done.
  - done.
Qed.

(** On a cache hit nothing is looked up: at most the membership test on the
    cached [code_bps] is logged. *)
Lemma bkpt_on_lineno_log frame mb s r t :
  bkpt_on_lineno frame mb s = Ok r t →
  self t = self s ∧ heap t = heap s
  ∧ ∃ l, log t = log s ++ l ∧ existsb ev_lookup l = false.
Proof.
  unfold bkpt_on_lineno, frame_load, PyList_GET_SIZE, PyList_GET_ITEM,
    PyDict_Contains.
  msimpl.
  destruct (heap s !! frame) as [[fr| | |]|]; try done. msimpl.
  destruct (linenumbers (self s)) as [lines|]; [|done]. msimpl.
  destruct (bool_decide (f_lineno fr < _));
    [|intros [= _ <-]; repeat split; exists []; by rewrite app_nil_r].
  destruct (bool_decide (0 ≤ f_lineno fr)); [|done].
  destruct (lines !! _) as [lineno|]; [|done]. msimpl.
  destruct (bool_decide (lineno ≠ Py_None));
    [|intros [= _ <-]; repeat split; exists []; by rewrite app_nil_r].
  destruct (code_bps (self s)) as [cb|]; [|done]. msimpl.
  destruct (as_dict (heap s) cb) as [[a items]|]; [|done].
  destruct (hashable (heap s) lineno); msimpl.
  - destruct (dict_find items lineno); cbn; intros [= _ <-];
      repeat split; eauto.
  - intros [= _ <-]. repeat split; eauto.
Qed.


Lemma resolve_code_inv s c mb cb :
  resolve_code s c = Some (mb, cb) ↔
  ∃ co fname bps lines key,
    heap s !! c = Some (HCode co)
    ∧ folded_filename s (co_filename co) = Some fname
    ∧ breakpoints (self s) = Some bps
    ∧ dict_lookup (heap s) bps fname = Some mb
    ∧ linenumbers (self s) = Some lines
    ∧ 0 ≤ co_firstlineno co
    ∧ lines !! Z.to_nat (co_firstlineno co) = Some key
    ∧ key ≠ Py_None
    ∧ dict_lookup (heap s) mb key = Some cb.
Proof.
  unfold resolve_code. split.
  - intros Hres.
    destruct (heap s !! c) as [[|co| |]|] eqn:Eco; try done.
    destruct (folded_filename s (co_filename co)) as [fname|] eqn:Ef; [|done].
    cbn in Hres.
    destruct (breakpoints (self s)) as [bps|] eqn:Eb; [|done]. cbn in Hres.
    destruct (dict_lookup (heap s) bps fname) as [mb'|] eqn:Emb; [|done].
    cbn in Hres.
    destruct (linenumbers (self s)) as [lines|] eqn:El; [|done]. cbn in Hres.
    case_bool_decide as Hpos; [|done].
    destruct (lines !! Z.to_nat (co_firstlineno co)) as [key|] eqn:Ek; [|done].
    cbn in Hres. case_bool_decide as Hkey; [|done].
    destruct (dict_lookup (heap s) mb' key) as [cb'|] eqn:Ecb; [|done].
    cbn in Hres. injection Hres as -> ->.
    exists co, fname, bps, lines, key. done.
  - intros (co & fname & bps & lines & key & -> & -> & -> & Hmb & -> & Hpos
            & Hk & Hkey & Hcb).
    cbn. rewrite Hmb. cbn. rewrite (bool_decide_true _ Hpos), Hk. cbn.
    rewrite (bool_decide_true _ Hkey), Hcb. done.
Qed.

(** [bkpt_in_code] computes [resolve_code]: when the index holds a pair for
    the code object of the frame, it returns the [module_bps] of the pair
    and caches the pair, and changes nothing else but the log. *)
Lemma bkpt_in_code_resolved frame s fr mb cb :
  heap s !! frame = Some (HFrame fr) →
  resolve_code s (f_code fr) = Some (mb, cb) →
  ∃ l, bkpt_in_code frame s
       = Ok (Some mb)
           (set_log (log s ++ l)
              (set_self (set_bkpt_cache (Some mb) (Some cb) (Some (f_code fr))
                           (self s)) s)).
Proof.
  intros Hfr Hres.
  apply resolve_code_inv in Hres
    as (co & fname & bps & lines & key & Eco & Ef & Eb & Emb & El & Hpos
        & Ek & Hkey & Ecb).
  assert (co_firstlineno co < Z.of_nat (length lines)) as Hlt.
  { apply lookup_lt_Some in Ek. lia. }
  assert (∀ t, heap t = heap s → self t = self s →
            lookup_code_bps frame fname t
            = Ok (Some mb)
                (set_log (log t ++ [EvDictGetItem (Some bps) fname;
                                    EvDictGetItem (Some mb) key])
                   (set_self (set_bkpt_cache (Some mb) (Some cb)
                                (Some (f_code fr)) (self s)) t))) as Hlookup.
  { intros t Hh Hs. unfold lookup_code_bps, frame_load, code_load. msimpl.
    rewrite Hh, Hfr. msimpl. rewrite Hh, Eco. msimpl. rewrite Hs, Eb.
    rewrite PyDict_GetItem_eq. msimpl. rewrite Hh, Emb, El.
    cbn [PyList_GET_SIZE]. msimpl.
    rewrite (bool_decide_true _ Hlt). cbn [PyList_GET_ITEM].
    rewrite (bool_decide_true _ Hpos), Ek. msimpl.
    rewrite (bool_decide_true _ Hkey).
    rewrite PyDict_GetItem_eq. msimpl. rewrite Hh, Ecb. msimpl.
    rewrite Hs, <- app_assoc. reflexivity. }
  unfold bkpt_in_code, frame_load, code_load. msimpl.
  rewrite Hfr. msimpl. rewrite Eco. msimpl.
  unfold folded_filename in Ef. unfold fold_filename. msimpl.
  destruct (lcfilename_cache (self s)) as [lc|] eqn:Elc.
  - rewrite PyDict_GetItem_eq. msimpl. rewrite Ef.
    rewrite (Hlookup (set_log _ s)) by done. cbn.
    rewrite <- app_assoc. eauto.
  - injection Ef as <-. rewrite (Hlookup s) by done. eauto.
Qed.


Lemma set_bkpt_cache_same t :
  set_bkpt_cache (module_bps t) (code_bps t) (cached_f_code t) t = t.
Proof. by destruct t. Qed.

(** On a hit in a coherent cache the cached path and the path through
    [bkpt_in_code] agree. *)
Lemma bkpt_at_line_hit_same frame s fr :
  cache_coherent s = true →
  heap s !! frame = Some (HFrame fr) →
  cached_f_code (self s) = Some (f_code fr) →
  same_outcome (bkpt_at_line frame s) (bkpt_at_line_uncached frame s).
Proof.
  intros Hcoh Hfr Hhit. unfold cache_coherent in Hcoh. rewrite Hhit in Hcoh.
  destruct (resolve_code s (f_code fr)) as [[mb cb]|] eqn:Hres; [|done].
  apply andb_true_iff in Hcoh as [Hmb Hcb].
  apply bool_decide_eq_true in Hmb, Hcb.
  destruct (bkpt_in_code_resolved frame s fr mb cb Hfr Hres) as [l Hin].
  assert (set_bkpt_cache (Some mb) (Some cb) (Some (f_code fr)) (self s)
          = self s) as Hsame.
  { rewrite <- Hmb, <- Hcb, <- Hhit. apply set_bkpt_cache_same. }
  rewrite Hsame in Hin.
  assert (∃ a, mb = PyRef a) as [a ->].
  { apply resolve_code_inv in Hres
      as (co & fname & bps & lines & key & _ & _ & _ & _ & _ & _ & _ & _
          & Ecb).
    destruct (dict_lookup_is_ref _ _ _ _ Ecb) as (a & items & -> & _).
    eauto. }
  unfold bkpt_at_line, bkpt_at_line_uncached.
  rewrite bind_eq, (frame_load_eq _ _ _ Hfr). msimpl.
  rewrite (bool_decide_true (Some (f_code fr) = cached_f_code (self s)))
    by done.
  rewrite Hmb. cbn [Py_INCREF]. msimpl. rewrite Hin.
  apply bkpt_on_lineno_same; destruct s; reflexivity.
Qed.


(** Lines 204-218: after a successful fold the folded name is in the file
    name cache (or folding is off); only that dictionary may have changed. *)
Lemma fold_filename_post fn s fname s2 :
  fold_filename fn s = Ok (Some fname) s2 →
  self s2 = self s
  ∧ folded_filename s2 fn = Some fname
  ∧ ∀ a o, heap s !! a = Some o → (∀ items, o ≠ HDict items) →
           heap s2 !! a = Some o.
Proof.
  unfold fold_filename, folded_filename. msimpl.
  destruct (lcfilename_cache (self s)) as [lc|] eqn:Elc.
  - rewrite PyDict_GetItem_eq. msimpl.
    destruct (dict_lookup (heap s) lc fn) as [l|] eqn:El.
    + intros [= <- <-]. cbn. rewrite Elc. done.
    + unfold call_lower.
      destruct fn as [| | | | |str| |]; msimpl; try done.
      unfold PyDict_SetItem. msimpl.
      destruct (as_dict (heap s) lc) as [[a items]|] eqn:Ed; msimpl; [|done].
      intros [= <- <-]. cbn. rewrite Elc. split; [done|].
      unfold as_dict in Ed.
      destruct lc as [| | | | | | |a']; try done.
      destruct (heap s !! a') as [[| |items'|]|] eqn:Ea; try done.
      injection Ed as <- <-. split.
      * unfold dict_lookup, as_dict. rewrite lookup_insert_eq. cbn.
        apply dict_find_set.
      * intros b o Hb Ho. rewrite lookup_insert_ne; [done|].
        intros <-. rewrite Ea in Hb. injection Hb as <-. by eapply Ho.
  - intros [= <- <-]. rewrite Elc. done.
Qed.

(** Lines 220-248: a lookup that changes the tracer object leaves a
    coherent cache. *)
Lemma lookup_code_bps_post frame fname s r s' fr co :
  heap s !! frame = Some (HFrame fr) →
  heap s !! f_code fr = Some (HCode co) →
  folded_filename s (co_filename co) = Some fname →
  lookup_code_bps frame fname s = Ok r s' →
  heap s' = heap s
  ∧ (self s' = self s ∨ cache_coherent s' = true).
Proof.
  intros Hfr Hco Hfold.
  unfold lookup_code_bps, frame_load, code_load. msimpl.
  rewrite Hfr. msimpl. rewrite Hco. msimpl.
  destruct (breakpoints (self s)) as [bps|] eqn:Eb; [|done].
  rewrite PyDict_GetItem_eq. msimpl.
  destruct (dict_lookup (heap s) bps fname) as [mb|] eqn:Emb;
    [|intros [= _ <-]; cbn; auto].
  destruct (linenumbers (self s)) as [lines|] eqn:El; [|done].
  cbn [PyList_GET_SIZE]. msimpl.
  case_bool_decide as Hlt; [|intros [= _ <-]; cbn; auto].
  cbn [PyList_GET_ITEM].
  case_bool_decide as Hpos; [|done].
  destruct (lines !! Z.to_nat (co_firstlineno co)) as [key|] eqn:Ek; [|done].
  msimpl.
  case_bool_decide as Hkey; [|intros [= _ <-]; cbn; auto].
  rewrite PyDict_GetItem_eq. msimpl.
  destruct (dict_lookup (heap s) mb key) as [cb|] eqn:Ecb;
    [|intros [= _ <-]; cbn; auto].
  msimpl. intros [= _ <-]. split; [done|]. right.
  match goal with
  | |- cache_coherent ?t = true =>
      assert (resolve_code t (f_code fr) = Some (mb, cb)) as Hres
  end.
  { apply resolve_code_inv.
    exists co, fname, bps, lines, key. cbn. done. }
  unfold cache_coherent.
  cbn [cached_f_code module_bps code_bps self set_self set_log
       set_bkpt_cache].
  rewrite Hres. by rewrite !bool_decide_true.
Qed.

Lemma bkpt_in_code_establishes frame s r s' :
  bkpt_in_code frame s = Ok r s' →
  self s' = self s ∨ cache_coherent s' = true.
Proof.
  unfold bkpt_in_code, frame_load, code_load. msimpl.
  destruct (heap s !! frame) as [[fr| | |]|] eqn:Hfr; try done. msimpl.
  destruct (heap s !! f_code fr) as [[|co| |]|] eqn:Hco; try done. msimpl.
  destruct (fold_filename (co_filename co) s) as [[fname|] s2|] eqn:Hfold;
    [| |done].
  - apply fold_filename_post in Hfold as (Hself & Hf & Hheap).
    intros Hlook.
    apply (lookup_code_bps_post frame fname s2 r s' fr co) in Hlook
      as [_ [H|H]]; [left; congruence|by right| | |done].
    + by apply Hheap.
    + by apply Hheap.
  - apply keeps_self_fold_filename in Hfold. intros [= _ <-]. by left.
Qed.

Lemma cache_coherent_same s t :
  self s = self t → heap s = heap t → cache_coherent s = cache_coherent t.
Proof.
  intros Hs Hh. unfold cache_coherent, resolve_code, folded_filename.
  by rewrite Hs, Hh.
Qed.

(** C2.  Two consecutive resolutions, on frames that share their code
    object, the second of which finds that code object in the cache (and the
    index coherent with the cache before the first): the second call looks
    nothing up (no [PyDict_GetItem], only the membership test on the cached
    [code_bps]), and its outcome is the outcome of the path that does not
    use the cache. *)
Theorem bkpt_at_line_cache_hit (f1 f2 : addr) (s0 s1 : State)
    (r1 : option PyObject) (fr1 fr2 : PyFrameObject) :
  cache_coherent s0 = true →
  heap s0 !! f1 = Some (HFrame fr1) →
  bkpt_at_line f1 s0 = Ok r1 s1 →
  heap s1 !! f2 = Some (HFrame fr2) →
  f_code fr2 = f_code fr1 →
  cached_f_code (self s1) = Some (f_code fr2) →
  same_outcome (bkpt_at_line f2 s1) (bkpt_at_line_uncached f2 s1)
  ∧ ∀ r2 s2, bkpt_at_line f2 s1 = Ok r2 s2 →
      ∃ l, log s2 = log s1 ++ l ∧ existsb ev_lookup l = false.
Proof.
  intros Hcoh Hfr1 Hrun Hfr2 Hcode Hhit.
  assert (cache_coherent s1 = true) as Hcoh1.
  { revert Hrun. unfold bkpt_at_line.
    rewrite bind_eq, (frame_load_eq _ _ _ Hfr1). msimpl.
    case_bool_decide as Hhit0.
    - destruct (module_bps (self s0)) as [mb|]; [|done].
      cbn [Py_INCREF]. msimpl. intros Hrun.
      apply bkpt_on_lineno_log in Hrun as (Hs & Hh & _).
      by rewrite (cache_coherent_same s1 s0).
    - unfold bkpt_at_line_uncached. msimpl.
      destruct (bkpt_in_code f1 s0) as [mb sx|] eqn:Hin; [|done].
      assert (self s1 = self sx ∧ heap s1 = heap sx → cache_coherent s1 = true)
        as Hdone.
      { intros [Hs Hh]. rewrite (cache_coherent_same s1 sx) by done.
        apply bkpt_in_code_establishes in Hin as [Hsame|Hc]; [|done].
        exfalso. apply Hhit0. rewrite <- Hsame, <- Hs, Hhit, Hcode. done. }
      destruct mb as [[]|];
        try (intros [= _ <-]; by apply Hdone);
        intros Hrun; apply bkpt_on_lineno_log in Hrun as (Hs & Hh & _);
        by apply Hdone. }
  split.
  - by apply (bkpt_at_line_hit_same f2 s1 fr2).
  - intros r2 s2. unfold bkpt_at_line.
    rewrite bind_eq, (frame_load_eq _ _ _ Hfr2). msimpl.
    rewrite (bool_decide_true (Some (f_code fr2) = cached_f_code (self s1)))
      by done.
    destruct (module_bps (self s1)) as [mb|]; [|done].
    cbn [Py_INCREF]. msimpl. intros Hrun2.
    by apply bkpt_on_lineno_log in Hrun2 as (_ & _ & H).
Qed.

End Properties.

(** In the example state nothing is skipped, the step target is
    unconstrained and [stop_lineno] is [-1]: [stop_here] answers 0, not 1. *)
Lemma stop_here_minus_one_counterexample :
  let s := ex_state (ex_tracer Py_None (PyLong (-1)) Py_None)
             (ex_heap (Some PySelf) None) in
  skip_modules (self s) = Some []
  ∧ stopframe (self s) = Some Py_None
  ∧ stop_lineno (self s) = Some (PyLong (-1))
  ∧ ∃ s', stop_here ex_py_method 1%positive s = Ok 0 s'.
Proof. repeat split. eexists. vm_compute. reflexivity. Qed.

Lemma stop_here_minus_one_never_stops_witness :
  let s := ex_state (ex_tracer Py_None (PyLong (-1)) Py_None)
             (ex_heap (Some PySelf) None) in
  stop_here ex_py_method 1%positive s
  = Ok 0 (set_log (log s ++ [EvLongAsLong (Some (PyLong (-1))) true]) s).
Proof.
  intros s.
  apply (stop_here_minus_one_never_stops ex_py_method 1%positive s s);
    reflexivity.
Defined.

Lemma stop_here_skipped_module_witness :
  let t := ex_tracer Py_None (PyLong 0) Py_None in
  let t' := mkTracer (trace_dispatch t) (breakpoints t) (botframe t)
              (quitting t) (topframe t) (topframe_locals t) (stopframe t)
              (stop_lineno t) (Some [PyUnicode "lib*"]) (skip_calls t)
              (linenumbers t) 0 None None None None in
  let s := ex_state t' (ex_heap (Some PySelf) None) in
  stop_here ex_py_skip 1%positive s
  = Ok 0 (set_log (log s ++ [EvCallMethod "is_skipped_module"
                               [PyRef 1%positive] (Some Py_True)]) s).
Proof.
  intros t t' s.
  apply (stop_here_skipped_module ex_py_skip 1%positive s s
           [PyUnicode "lib*"] Py_True); [reflexivity | done | reflexivity | done].
Defined.



Lemma tracer_ignores_hookless_frame_witness :
  let s := ex_state (ex_tracer Py_None (PyLong 0) Py_None) (ex_heap None None) in
  tracer ex_py_method ex_Addr2Line 1%positive PyTrace_LINE None s = Ok 0 s.
Proof.
  intros s.
  apply (tracer_ignores_hookless_frame ex_py_method ex_Addr2Line 1%positive
           PyTrace_LINE None s (ex_frame None)); [reflexivity | reflexivity | done].
Defined.

(** [reset()] without arguments sets [ignore_first_call_event] to 1. *)
Lemma BdbTracer_reset_default_counterexample :
  let s := ex_state (ex_tracer (PyRef 1%positive) (PyLong 7) Py_None)
             (ex_heap None None) in
  ∃ s', BdbTracer_reset [] [] s = Ok (Some Py_None) s'
        ∧ ignore_first_call_event (self s') = 1
        ∧ ignore_first_call_event (self s') ≠ 0.
Proof. eexists. split; [vm_compute; reflexivity|]. split; done. Qed.

Lemma BdbTracer_reset_post_witness :
  let s := ex_state (ex_tracer (PyRef 1%positive) (PyLong 7) Py_None)
             (ex_heap None None) in
  ∃ s', BdbTracer_reset [Py_False] [("botframe"%string, PyRef 2%positive)] s
        = Ok (Some Py_None) s'
        ∧ stop_lineno (self s') = Some (PyLong 0)
        ∧ botframe (self s') = Some (PyRef 2%positive)
        ∧ ignore_first_call_event (self s') = 0.
Proof.
  intros s. eexists. split; [vm_compute; reflexivity|].
  edestruct (BdbTracer_reset_post [Py_False]
               [("botframe"%string, PyRef 2%positive)] s)
    as (_ & _ & _ & _ & H5 & H6 & H7 & _); [vm_compute; reflexivity|].
  split; [exact H5|]. split; [exact H6|]. exact (H7 eq_refl).
Defined.



(** A RETURN event on the bottom frame: the stop frame is that frame,
    [stop_here] answers 1 and the handlers keep the tracer installed, yet
    the stop frame is not cleared and the caller gets no hook. *)
Lemma tracer_return_propagates_counterexample :
  let s := ex_state (ex_tracer (PyRef 1%positive) (PyLong 0) (PyRef 1%positive))
             (ex_heap (Some PySelf) None) in
  stopframe (self s) = Some (PyRef 1%positive)
  ∧ (∃ s0, stop_here ex_py_method 1%positive s = Ok 1 s0
           ∧ ∃ s1, user_method ex_py_method 1%positive "user_return"
                     (Some Py_None) s0 = Ok (Some PySelf) s1)
  ∧ ∃ s', tracer ex_py_method ex_Addr2Line 1%positive PyTrace_RETURN None s
          = Ok 0 s'
          ∧ stopframe (self s') = Some (PyRef 1%positive)
          ∧ heap s' !! 2%positive = Some (HFrame (ex_caller None)).
Proof.
  split; [reflexivity|]. split.
  - eexists. split; [vm_compute; reflexivity|].
    eexists. vm_compute. reflexivity.
  - eexists. split; [vm_compute; reflexivity|]. split; reflexivity.
Qed.

Lemma tracer_return_propagates_witness :
  let s := ex_state (ex_tracer (PyRef 1%positive) (PyLong 0) (PyRef 2%positive))
             (ex_heap (Some PySelf) None) in
  ∃ s', tracer ex_py_method ex_Addr2Line 1%positive PyTrace_RETURN None s
        = Ok 0 s'
        ∧ stopframe (self s') = Some Py_None
        ∧ stop_lineno (self s') = Some (PyLong 0)
        ∧ ∃ fbr', heap s' !! 2%positive = Some (HFrame fbr')
                  ∧ f_trace fbr' = Some PySelf.
Proof.
  intros s.
  edestruct (tracer_return_propagates ex_py_method ex_Addr2Line 1%positive
               None s) as (s' & H1 & H2 & H3 & H4);
    [ reflexivity | done | vm_compute; reflexivity | done | done
    | vm_compute; reflexivity | done | reflexivity | done | reflexivity
    | done | reflexivity | reflexivity | reflexivity | ].
  exists s'. split; [exact H1|]. split; [exact H2|]. split; [exact H3|].
  apply (H4 2%positive (ex_caller None)); [reflexivity | done | reflexivity].
Defined.

Lemma ex_py_method_cache_inv (name : string) (args : list PyObject)
    (s : State) (r : option PyObject) (s' : State) :
  cache_inv s → ex_py_method name args s = (r, s') → cache_inv s'.
Proof.
  intros Hs. unfold ex_py_method.
  repeat case_bool_decide; intros [= _ <-]; exact Hs.
Qed.

(** A CALL event into the function with the breakpoint fills the cache. *)
Lemma bkpt_cache_set_together_witness :
  let s := ex_state (ex_tracer Py_None (PyLong (-1)) (PyRef 2%positive))
             (ex_heap None None) in
  ∃ s', tracer ex_py_method ex_Addr2Line 1%positive PyTrace_CALL None s
        = Ok 0 s'
        ∧ cached_f_code (self s') = Some 10%positive
        ∧ cache_inv s'.
Proof.
  intros s. eexists. split; [vm_compute; reflexivity|].
  split; [reflexivity|].
  destruct (bkpt_cache_set_together ex_py_method ex_Addr2Line
              ex_py_method_cache_inv) as (_ & _ & _ & _ & _ & Htracer & _).
  exact (Htracer 1%positive PyTrace_CALL None s eq_refl).
Defined.

(** C8 fails on the code.  A LINE event on the hooked frame [1], which
    stands on a breakpoint, with one skip pattern and an
    [is_skipped_module] whose answer cannot be tested for truth.  The truth
    test raises; line 174 takes its [-1] for a true answer, so that
    [stop_here] returns 0; the dispatch goes on to the breakpoint, calls
    [bkpt_user_line] and [get_traceobj], and the tracer returns 0 with the
    exception still pending.  No traceback entry is recorded, and the global
    hook and the hook of the frame are still there. *)
Theorem tracer_truth_test_unnoticed :
  let s := ex_state (ex_tracer_skip Py_None (PyLong 0) (PyRef 2%positive))
             ex_heap_raiser in
  object_truth (heap s) (PyRef 30%positive) = -1
  ∧ err_indicator s = None
  ∧ ∃ s', tracer ex_py_raiser ex_Addr2Line 1%positive PyTrace_LINE None s
          = Ok 0 s'
          ∧ log s'
            = [ EvCallMethod "is_skipped_module" [PyRef 1%positive]
                  (Some (PyRef 30%positive));
                EvIsTrueFailed (PyRef 30%positive);
                EvDictGetItem (Some (PyRef 20%positive))
                  (PyUnicode "/Lib/A.py");
                EvDictGetItem (Some (PyRef 21%positive)) (PyLong 1);
                EvDictContains (Some (PyRef 22%positive)) (PyLong 5) 1;
                EvFastToLocals 1%positive;
                EvCallMethod "bkpt_user_line"
                  [PyRef 1%positive; PyRef 21%positive] (Some Py_None);
                EvLocalsToFast 1%positive;
                EvCallMethod "get_traceobj" [] (Some PySelf) ]
          ∧ err_indicator s' = Some OtherError
          ∧ c_traceobj s' = Some PySelf
          ∧ heap s' !! 1%positive = Some (HFrame (ex_frame (Some PySelf))).
Proof.
  split; [reflexivity|]. split; [reflexivity|].
  eexists. split; [vm_compute; reflexivity|]. repeat split; reflexivity.
Qed.

(** Two LINE-time resolutions in the function with the breakpoint: the
    first fills the cache, the second hits it. *)
Lemma bkpt_at_line_cache_hit_witness :
  let s0 := ex_state (ex_tracer Py_None (PyLong (-1)) (PyRef 2%positive))
              (ex_heap (Some PySelf) None) in
  ∃ r1 s1, bkpt_at_line 1%positive s0 = Ok r1 s1
    ∧ same_outcome (bkpt_at_line 1%positive s1)
        (bkpt_at_line_uncached 1%positive s1)
    ∧ ∀ r2 s2, bkpt_at_line 1%positive s1 = Ok r2 s2 →
        ∃ l, log s2 = log s1 ++ l ∧ existsb ev_lookup l = false.
Proof.
  intros s0. eexists _, _. split; [vm_compute; reflexivity|].
  eapply (bkpt_at_line_cache_hit 1%positive 1%positive s0 _ _
            (ex_frame (Some PySelf)) (ex_frame (Some PySelf)));
    [ reflexivity | reflexivity | vm_compute; reflexivity | reflexivity
    | reflexivity | reflexivity ].
Defined.

(** * Further properties of the module *)

Section Further.

Variable py_method :
  string → list PyObject → State → option PyObject * State.
Variable PyCode_Addr2Line : PyCodeObject → Z → Z.

(** *** Decoding the line number *)

Lemma PyLong_AsLong_decodes (o : option PyObject) (z : Z) (s : State) :
  as_long o = Some z →
  PyLong_AsLong o s = Ok z (set_log (log s ++ [EvLongAsLong o true]) s).
Proof.
  unfold as_long, PyLong_AsLong.
  destruct o as [[]|]; try done; try (by intros [= <-]).
  case_bool_decide; [|done]. by intros [= <-].
Qed.

Lemma PyLong_AsLong_fails (o : option PyObject) (s : State) :
  as_long o = None →
  ∃ e, PyLong_AsLong o s
       = Ok (-1) (set_log (log s ++ [EvLongAsLong o false])
                    (set_err (Some e) s)).
Proof.
  unfold as_long, PyLong_AsLong.
  destruct o as [[]|]; try done; try (intros _; eexists; reflexivity).
  case_bool_decide; [done|]. intros _. eexists. reflexivity.
Qed.

(** Lines 181-191 when the line number decodes. *)
Lemma stop_decision_decoded (frame : addr) (s : State) (l : Z)
    (fr : PyFrameObject) :
  as_long (stop_lineno (self s)) = Some l →
  (long_to_int l = -1 → err_indicator s = None) →
  heap s !! frame = Some (HFrame fr) →
  stop_decision frame s
  = Ok (if (bool_decide (stopframe (self s) = Some (PyRef frame))
            || bool_decide (stopframe (self s) = Some Py_None))
           && negb (bool_decide (long_to_int l = -1))
           && bool_decide (long_to_int l ≤ f_lineno fr)
        then 1 else 0)
      (set_log (log s ++ [EvLongAsLong (stop_lineno (self s)) true]) s).
Proof.
  intros Hl He Hfr. unfold stop_decision.
  rewrite bind_eq. cbn [get_self].
  rewrite bind_eq, (PyLong_AsLong_decodes _ _ _ Hl).
  rewrite bind_eq. cbn [PyErr_Occurred set_log err_indicator self].
  assert (bool_decide (Some (PyRef frame) = stopframe (self s))
          = bool_decide (stopframe (self s) = Some (PyRef frame))) as ->.
  { apply bool_decide_ext. split; congruence. }
  destruct (decide (long_to_int l = -1)) as [E|E].
  - rewrite (bool_decide_true _ E), (He E).
    rewrite (bool_decide_false (None ≠ None)) by auto. cbn.
    rewrite andb_false_r. destruct (_ || _); reflexivity.
  - rewrite (bool_decide_false _ E). cbn.
    destruct (_ || _); [|reflexivity]. cbn.
    rewrite bind_eq, (frame_load_eq frame fr (set_log _ s) Hfr). reflexivity.
Qed.

(** X1.  When the skip test lets the frame through and [stop_lineno]
    decodes to the C [long] [l], [stop_here] returns 1 exactly when the stop
    frame is this frame or [None] and the [int] that [l] is narrowed to is
    not [-1] and is at most the current line of the frame; otherwise it
    returns 0.  The threshold is compared after the narrowing to [int], and
    [True] and [False] count as 1 and 0. *)
Theorem stop_here_decision (frame : addr) (s s1 : State) (l : Z)
    (fr : PyFrameObject) :
  skip_test py_method frame s = Ok None s1 →
  as_long (stop_lineno (self s1)) = Some l →
  (long_to_int l = -1 → err_indicator s1 = None) →
  heap s1 !! frame = Some (HFrame fr) →
  stop_here py_method frame s
  = Ok (if (bool_decide (stopframe (self s1) = Some (PyRef frame))
            || bool_decide (stopframe (self s1) = Some Py_None))
           && negb (bool_decide (long_to_int l = -1))
           && bool_decide (long_to_int l ≤ f_lineno fr)
        then 1 else 0)
      (set_log (log s1 ++ [EvLongAsLong (stop_lineno (self s1)) true]) s1).
Proof.
  intros Hskip Hl He Hfr.
  rewrite (stop_here_after_skip_test _ _ _ _ Hskip).
  by apply stop_decision_decoded.
Qed.

(** X2.  When the skip test lets the frame through and [stop_lineno] is not
    an integer that fits a C [long], [stop_here] returns -1 with an
    exception set; the frame is not looked at. *)
Theorem stop_here_undecodable (frame : addr) (s s1 : State) :
  skip_test py_method frame s = Ok None s1 →
  as_long (stop_lineno (self s1)) = None →
  ∃ e, stop_here py_method frame s
       = Ok (-1) (set_log (log s1 ++ [EvLongAsLong (stop_lineno (self s1))
                                        false])
                    (set_err (Some e) s1)).
Proof.
  intros Hskip Hl.
  rewrite (stop_here_after_skip_test _ _ _ _ Hskip).
  destruct (PyLong_AsLong_fails _ s1 Hl) as [e He]. exists e.
  unfold stop_decision. rewrite bind_eq. cbn [get_self].
  rewrite bind_eq, He. reflexivity.
Qed.



(** X4.  With an empty [skip_modules], [stop_here] is a query: it calls no
    method and looks nothing up, and it leaves the tracer object, the heap
    and the global hook as they are; its only trace is the decoding of
    [stop_lineno]. *)
Theorem stop_here_is_a_query (frame : addr) (s s' : State) (rc : Z) :
  skip_modules (self s) = Some [] →
  stop_here py_method frame s = Ok rc s' →
  self s' = self s ∧ heap s' = heap s ∧ c_traceobj s' = c_traceobj s
  ∧ ∃ ok, log s' = log s ++ [EvLongAsLong (stop_lineno (self s)) ok].
Proof.
  intros Hskip.
  rewrite (stop_here_after_skip_test _ _ _ _ (skip_test_empty _ _ _ Hskip)).
  unfold stop_decision. rewrite bind_eq. cbn [get_self]. rewrite bind_eq.
  destruct (as_long (stop_lineno (self s))) as [l|] eqn:Hl.
  - rewrite (PyLong_AsLong_decodes _ _ _ Hl). rewrite bind_eq.
    cbn [PyErr_Occurred].
    destruct (_ && _); [intros [= _ <-]; cbn; eauto 10|].
    destruct (_ || _); [|intros [= _ <-]; cbn; eauto 10].
    case_bool_decide; [intros [= _ <-]; cbn; eauto 10|].
    rewrite bind_eq. unfold frame_load. msimpl.
    destruct (heap s !! frame) as [[fr| | |]|]; try done.
    intros [= _ <-]. cbn. eauto 10.
  - destruct (PyLong_AsLong_fails _ s Hl) as [e ->].
    cbn. intros [= _ <-]. cbn. eauto 10.
Qed.
(** *** The file name cache *)

Lemma key_eqb_str (k n : string) :
  key_eqb (PyUnicode k) (PyUnicode n) = bool_decide (k = n).
Proof. unfold key_eqb. cbn. apply bool_decide_ext. split; congruence. Qed.

Lemma lc_find_ok (items : list (PyObject * PyObject)) (n : string)
    (v : PyObject) :
  forallb lc_entry_ok items = true →
  dict_find items (PyUnicode n) = Some v →
  v = PyUnicode (str_lower n).
Proof.
  induction items as [|[k w] items IH]; [done|]. cbn.
  intros H. apply andb_true_iff in H as [Hkw Hrest].
  destruct k as [| | | | |k| |]; try done.
  destruct w as [| | | | |w| |]; try done.
  apply bool_decide_eq_true in Hkw. rewrite key_eqb_str.
  case_bool_decide as E; [|by apply IH].
  intros [= <-]. by subst.
Qed.

Lemma lc_set_ok (items : list (PyObject * PyObject)) (n : string) :
  forallb lc_entry_ok items = true →
  forallb lc_entry_ok
    (dict_set items (PyUnicode n) (PyUnicode (str_lower n))) = true.
Proof.
  induction items as [|[k w] items IH]; cbn.
  - intros _. by rewrite bool_decide_true.
  - intros H. apply andb_true_iff in H as [Hkw Hrest].
    destruct k as [| | | | |k| |]; try done.
    destruct w as [| | | | |w| |]; try done.
    apply bool_decide_eq_true in Hkw. rewrite key_eqb_str.
    case_bool_decide as E; cbn.
    + subst. by rewrite bool_decide_true.
    + by rewrite (bool_decide_true _ Hkw), IH.
Qed.

(** X5.  With case folding on and a file name cache that maps names to
    their lower case, [bkpt_in_code] folds the name of a file (lines
    204-218) to its lower case and remembers it: the cache still maps names
    to their lower case, no other object of the heap and no field of the
    tracer changes, and folding the same name again is one lookup in the
    cache, without a call of [lower()] and without a write. *)
Theorem fold_filename_memoizes (n : string) (s : State) (lc : PyObject) :
  lcfilename_cache (self s) = Some lc →
  lc_cache_ok s →
  ∃ s',
    fold_filename (PyUnicode n) s = Ok (Some (PyUnicode (str_lower n))) s'
    ∧ lc_cache_ok s'
    ∧ self s' = self s
    ∧ (∀ a, lc ≠ PyRef a → heap s' !! a = heap s !! a)
    ∧ fold_filename (PyUnicode n) s'
      = Ok (Some (PyUnicode (str_lower n)))
          (set_log (log s' ++ [EvDictGetItem (Some lc) (PyUnicode n)]) s').
Proof.
  intros Hlc Hok. unfold lc_cache_ok in Hok. rewrite Hlc in Hok.
  destruct Hok as (a & items & -> & Ha & Hitems).
  assert (∀ t : State,
            lcfilename_cache (self t) = Some (PyRef a) →
            ∀ items', heap t !! a = Some (HDict items') →
            dict_find items' (PyUnicode n) = Some (PyUnicode (str_lower n)) →
            fold_filename (PyUnicode n) t
            = Ok (Some (PyUnicode (str_lower n)))
                (set_log (log t ++ [EvDictGetItem (Some (PyRef a))
                                      (PyUnicode n)]) t)) as Hhit.
  { intros t Ht items' Ha' Hfind. unfold fold_filename. msimpl.
    rewrite Ht, PyDict_GetItem_eq. msimpl.
    unfold dict_lookup, as_dict. rewrite Ha'. cbn. rewrite Hfind.
    reflexivity. }
  destruct (dict_find items (PyUnicode n)) as [v|] eqn:Hfind.
  - (* already in the cache *)
    pose proof (lc_find_ok _ _ _ Hitems Hfind) as ->.
    eexists. split; [by apply (Hhit s Hlc items)|].
    split; [|split; [done|split; [done|]]].
    + unfold lc_cache_ok. cbn. rewrite Hlc. eauto.
    + by apply (Hhit (set_log _ s) Hlc items).
  - (* a miss: [lower()] is called and the result stored *)
    eexists. split; [|split; [|split; [|split]]].
    + unfold fold_filename. msimpl. rewrite Hlc, PyDict_GetItem_eq. msimpl.
      unfold dict_lookup, as_dict. rewrite Ha. cbn. rewrite Hfind.
      unfold call_lower. msimpl. unfold PyDict_SetItem. msimpl.
      unfold as_dict. rewrite Ha. cbn. msimpl. reflexivity.
    + unfold lc_cache_ok. cbn. rewrite Hlc.
      exists a, (dict_set items (PyUnicode n) (PyUnicode (str_lower n))).
      split; [done|]. split; [by rewrite lookup_insert_eq|].
      by apply lc_set_ok.
    + reflexivity.
    + intros b Hb. cbn. rewrite lookup_insert_ne; [done|congruence].
    + eapply Hhit; [exact Hlc|by cbn; rewrite lookup_insert_eq|].
      apply dict_find_set.
Qed.

(** *** The outcome of a resolution *)

(** Proves [keeps proj m] for a computation made of primitives that keep
    the component. *)
Ltac keeps_solve :=
  repeat first
    [ apply keeps_ret
    | apply keeps_undefined
    | match goal with
      | H : context [keeps] |- _ => apply H
      end
    | apply keeps_bind; [|intros ?]
    | match goal with
      | |- keeps _ (match ?x with _ => _ end) => destruct x
      | |- keeps _ (if ?c then _ else _) => destruct c
      | |- keeps _ _ => by (intros ? ? ? [= _ <-])
      end
    | progress unfold Py_INCREF, Py_DECREF, frame_load, frame_store,
        code_load, PyTuple_GET_SIZE, PyList_GET_SIZE, PyList_GET_ITEM,
        PyDict_GetItem, PyDict_SetItem, PyDict_Contains, PyLong_AsLong,
        PyObject_IsTrue, PySequence_Contains, call_lower,
        PyFrame_FastToLocals, PyFrame_LocalsToFast, PyTraceBack_Here,
        PyEval_SetTrace, put_c_traceobj, PyDict_New, PyFrame_GetLineNumber ].

(** Lines 220-248: a hit writes the pair found in the index, together with
    the code object of the frame; a miss writes nothing. *)
Lemma lookup_code_bps_outcome (frame : addr) (fname : PyObject)
    (s s' : State) (r : option PyObject) (fr : PyFrameObject)
    (co : PyCodeObject) :
  heap s !! frame = Some (HFrame fr) →
  heap s !! f_code fr = Some (HCode co) →
  folded_filename s (co_filename co) = Some fname →
  lookup_code_bps frame fname s = Ok r s' →
  heap s' = heap s
  ∧ ((∃ mb cb, r = Some mb ∧ mb ≠ Py_None
               ∧ self s' = set_bkpt_cache (Some mb) (Some cb)
                             (Some (f_code fr)) (self s)
               ∧ cache_coherent s' = true)
     ∨ (r = Some Py_None ∧ self s' = self s)).
Proof.
  intros Hfr Hco Hfold.
  unfold lookup_code_bps, frame_load, code_load. msimpl.
  rewrite Hfr. msimpl. rewrite Hco. msimpl.
  destruct (breakpoints (self s)) as [bps|] eqn:Eb; [|done].
  rewrite PyDict_GetItem_eq. msimpl.
  destruct (dict_lookup (heap s) bps fname) as [mb|] eqn:Emb;
    [|intros [= <- <-]; cbn; auto].
  destruct (linenumbers (self s)) as [lines|] eqn:El; [|done].
  cbn [PyList_GET_SIZE]. msimpl.
  case_bool_decide as Hlt; [|intros [= <- <-]; cbn; auto].
  cbn [PyList_GET_ITEM].
  case_bool_decide as Hpos; [|done].
  destruct (lines !! Z.to_nat (co_firstlineno co)) as [key|] eqn:Ek; [|done].
  msimpl.
  case_bool_decide as Hkey; [|intros [= <- <-]; cbn; auto].
  rewrite PyDict_GetItem_eq. msimpl.
  destruct (dict_lookup (heap s) mb key) as [cb|] eqn:Ecb;
    [|intros [= <- <-]; cbn; auto].
  msimpl. intros [= <- <-]. split; [done|]. left.
  exists mb, cb. split; [done|]. split.
  { destruct (dict_lookup_is_ref _ _ _ _ Ecb) as (a & items & -> & _). done. }
  split; [done|].
  match goal with
  | |- cache_coherent ?t = true =>
      assert (resolve_code t (f_code fr) = Some (mb, cb)) as Hres
  end.
  { apply resolve_code_inv.
    exists co, fname, bps, lines, key. cbn. done. }
  unfold cache_coherent.
  cbn [cached_f_code module_bps code_bps self set_self set_log
       set_bkpt_cache].
  rewrite Hres. by rewrite !bool_decide_true.
Qed.

Lemma fold_filename_heap (fn : PyObject) (s s' : State)
    (r : option PyObject) :
  fold_filename fn s = Ok r s' →
  ∀ a, lcfilename_cache (self s) ≠ Some (PyRef a) →
       heap s' !! a = heap s !! a.
Proof.
  unfold fold_filename. msimpl.
  destruct (lcfilename_cache (self s)) as [lc|] eqn:Elc;
    [|by intros [= _ <-]].
  rewrite PyDict_GetItem_eq. msimpl.
  destruct (dict_lookup (heap s) lc fn) as [l|] eqn:El;
    [by intros [= _ <-]|].
  unfold call_lower.
  destruct fn as [| | | | |str| |]; msimpl; try by intros [= _ <-].
  unfold PyDict_SetItem. msimpl.
  destruct (as_dict (heap s) lc) as [[a items]|] eqn:Ed; msimpl;
    [|by intros [= _ <-]].
  intros [= _ <-]. cbn. intros b Hb.
  unfold as_dict in Ed.
  destruct lc as [| | | | | | |a']; try done.
  destruct (heap s !! a') as [[| |items'|]|] eqn:Ea; try done.
  injection Ed as <- <-. rewrite lookup_insert_ne; [done|congruence].
Qed.

Lemma bkpt_in_code_outcome (frame : addr) (s s' : State)
    (r : option PyObject) (fr : PyFrameObject) :
  heap s !! frame = Some (HFrame fr) →
  bkpt_in_code frame s = Ok r s' →
  ((∃ mb cb, r = Some mb ∧ mb ≠ Py_None
             ∧ self s' = set_bkpt_cache (Some mb) (Some cb)
                           (Some (f_code fr)) (self s)
             ∧ cache_coherent s' = true)
   ∨ ((r = None ∨ r = Some Py_None) ∧ self s' = self s))
  ∧ c_traceobj s' = c_traceobj s
  ∧ ∀ a, lcfilename_cache (self s) ≠ Some (PyRef a) →
         heap s' !! a = heap s !! a.
Proof.
  intros Hfr Hrun.
  assert (keeps c_traceobj (bkpt_in_code frame)) as Hc.
  { unfold bkpt_in_code, fold_filename, lookup_code_bps. keeps_solve. }
  split; [|split; [exact (Hc _ _ _ Hrun)|]]; revert Hrun;
    unfold bkpt_in_code, frame_load, code_load; msimpl;
    rewrite Hfr; msimpl;
    (destruct (heap s !! f_code fr) as [[|co| |]|] eqn:Hco; try done);
    msimpl;
    (destruct (fold_filename (co_filename co) s) as [[fname|] s2|] eqn:Hfold;
     [| |done]).
  - pose proof (fold_filename_post _ _ _ _ Hfold) as (Hself & Hf & Hheap).
    intros Hlook.
    apply (lookup_code_bps_outcome frame fname s2 s' r fr co) in Hlook
      as [_ Hlook]; [| by apply Hheap | by apply Hheap | done].
    rewrite Hself in Hlook.
    destruct Hlook as [H|[-> H]]; [by left|right; auto].
  - apply keeps_self_fold_filename in Hfold. intros [= <- <-]. right. auto.
  - pose proof (fold_filename_post _ _ _ _ Hfold) as (Hself & Hf & Hheap).
    intros Hlook a Ha.
    apply (lookup_code_bps_outcome frame fname s2 s' r fr co) in Hlook
      as [-> _]; [| by apply Hheap | by apply Hheap | done].
    by apply (fold_filename_heap _ _ _ _ Hfold).
  - intros [= _ <-] a Ha. by apply (fold_filename_heap _ _ _ _ Hfold).
Qed.

(** X6.  [bkpt_in_code] has two outcomes.  A hit: it returns the
    [module_bps] dictionary of the file, which is not [None], and has set
    the three cache references to that dictionary, to the [code_bps] found
    in it and to the code object of the frame, so that the cache agrees
    with the index.  A miss or an error: it returns [None] or [NULL] and
    leaves the tracer object as it was.  In both cases only the file name
    cache may have changed in the heap. *)
Theorem bkpt_in_code_hit_or_miss (frame : addr) (s s' : State)
    (r : option PyObject) (fr : PyFrameObject) :
  heap s !! frame = Some (HFrame fr) →
  bkpt_in_code frame s = Ok r s' →
  ((∃ mb cb, r = Some mb ∧ mb ≠ Py_None
             ∧ self s' = set_bkpt_cache (Some mb) (Some cb)
                           (Some (f_code fr)) (self s)
             ∧ cache_coherent s' = true)
   ∨ ((r = None ∨ r = Some Py_None) ∧ self s' = self s))
  ∧ ∀ a, lcfilename_cache (self s) ≠ Some (PyRef a) →
         heap s' !! a = heap s !! a.
Proof.
  intros Hfr Hrun.
  destruct (bkpt_in_code_outcome _ _ _ _ _ Hfr Hrun) as (H1 & _ & H2).
  done.
Qed.

(** Lines 275-291: a breakpoint is reported only for a line whose number
    object is a key of the cached [code_bps]. *)
Lemma bkpt_on_lineno_sound (frame : addr) (mbo : option PyObject)
    (s s' : State) (mb : PyObject) :
  bkpt_on_lineno frame mbo s = Ok (Some mb) s' →
  mb ≠ Py_None →
  mbo = Some mb ∧ self s' = self s ∧ heap s' = heap s
  ∧ c_traceobj s' = c_traceobj s
  ∧ ∃ fr lines key cb,
      heap s !! frame = Some (HFrame fr)
      ∧ linenumbers (self s) = Some lines
      ∧ 0 ≤ f_lineno fr
      ∧ lines !! Z.to_nat (f_lineno fr) = Some key
      ∧ key ≠ Py_None
      ∧ code_bps (self s) = Some cb
      ∧ dict_lookup (heap s) cb key ≠ None.
Proof.
  unfold bkpt_on_lineno, frame_load, PyList_GET_SIZE, PyList_GET_ITEM,
    PyDict_Contains.
  msimpl.
  destruct (heap s !! frame) as [[fr| | |]|] eqn:Hfr; try done. msimpl.
  destruct (linenumbers (self s)) as [lines|] eqn:El; [|done]. msimpl.
  destruct (bool_decide (f_lineno fr < _)); [|by intros [= <- _]].
  case_bool_decide as Hpos; [|done].
  destruct (lines !! _) as [key|] eqn:Ek; [|done]. msimpl.
  case_bool_decide as Hkey; [|by intros [= <- _]].
  destruct (code_bps (self s)) as [cb|] eqn:Ecb; [|done]. msimpl.
  destruct (as_dict (heap s) cb) as [[a items]|] eqn:Ed; [|done].
  destruct (hashable (heap s) key) eqn:Eh; msimpl; [|done].
  destruct (dict_find items key) as [v|] eqn:Ef; cbn;
    [|by intros [= <- _]].
  intros [= -> <-] Hmb. cbn.
  split; [done|]. split; [done|]. split; [done|]. split; [done|].
  exists fr, lines, key, cb. repeat split; try done.
  unfold dict_lookup. rewrite Ed, Eh, Ef. done.
Qed.

(** X7.  [bkpt_at_line] reports a breakpoint (returns an object other than
    [None]) only when the current line of the frame is within
    [linenumbers], the line number object found there is not [None] and is
    a key of the cached [code_bps] dictionary; the object returned is then
    the cached [module_bps].  This holds on a cache hit and after a
    resolution by [bkpt_in_code] alike. *)
Theorem bkpt_at_line_sound (frame : addr) (s s' : State) (mb : PyObject) :
  bkpt_at_line frame s = Ok (Some mb) s' →
  mb ≠ Py_None →
  module_bps (self s') = Some mb
  ∧ ∃ fr lines key cb,
      heap s' !! frame = Some (HFrame fr)
      ∧ linenumbers (self s') = Some lines
      ∧ 0 ≤ f_lineno fr
      ∧ lines !! Z.to_nat (f_lineno fr) = Some key
      ∧ key ≠ Py_None
      ∧ code_bps (self s') = Some cb
      ∧ dict_lookup (heap s') cb key ≠ None.
Proof.
  unfold bkpt_at_line, frame_load. msimpl.
  destruct (heap s !! frame) as [[fr| | |]|] eqn:Hfr; try done. msimpl.
  case_bool_decide as Hhit.
  - destruct (module_bps (self s)) as [mb0|] eqn:Emb; [|done].
    cbn [Py_INCREF]. msimpl. intros Hrun Hne.
    apply bkpt_on_lineno_sound in Hrun
      as (E & Hs & Hh & _ & fr1 & lines & key & cb & H); [|done].
    injection E as ->. rewrite Hs, Hh. split; [done|]. eauto 10.
  - unfold bkpt_at_line_uncached. msimpl.
    destruct (bkpt_in_code frame s) as [r s1|] eqn:Hin; [|done].
    destruct (bkpt_in_code_outcome _ _ _ _ _ Hfr Hin) as (Hout & _ & _).
    destruct Hout as [(mb1 & cb1 & -> & Hne1 & Hs1 & _)|[[->| ->] _]];
      [|done|by intros [= <-]].
    assert (bkpt_on_lineno frame (Some mb1) s1 = Ok (Some mb) s' →
            mb ≠ Py_None →
            module_bps (self s') = Some mb
            ∧ ∃ fr lines key cb,
                heap s' !! frame = Some (HFrame fr)
                ∧ linenumbers (self s') = Some lines
                ∧ 0 ≤ f_lineno fr
                ∧ lines !! Z.to_nat (f_lineno fr) = Some key
                ∧ key ≠ Py_None
                ∧ code_bps (self s') = Some cb
                ∧ dict_lookup (heap s') cb key ≠ None) as Hgo.
    { intros Hrun Hne.
      apply bkpt_on_lineno_sound in Hrun
        as (E & Hs & Hh & _ & fr1 & lines & key & cb & H); [|done].
      injection E as ->. rewrite Hs, Hh. split; [by rewrite Hs1|]. eauto 10. }
    destruct mb1; try done; exact Hgo.
Qed.

(** X8.  What a resolution leaves alone: [bkpt_at_line] changes no field of
    the tracer object other than the three cache references, no object of
    the heap other than the file name cache (in particular not the
    breakpoints index, and no frame), and not the global hook. *)
Theorem bkpt_at_line_frame (frame : addr) (s s' : State)
    (r : option PyObject) :
  bkpt_at_line frame s = Ok r s' →
  set_bkpt_cache (module_bps (self s)) (code_bps (self s))
    (cached_f_code (self s)) (self s') = self s
  ∧ c_traceobj s' = c_traceobj s
  ∧ ∀ a, lcfilename_cache (self s) ≠ Some (PyRef a) →
         heap s' !! a = heap s !! a.
Proof.
  assert (∀ mbo t t' r',
            bkpt_on_lineno frame mbo t = Ok r' t' →
            self t' = self t ∧ heap t' = heap t
            ∧ c_traceobj t' = c_traceobj t) as Hon.
  { intros mbo t t' r' Hrun.
    assert (keeps c_traceobj (bkpt_on_lineno frame mbo)) as Hc
      by (unfold bkpt_on_lineno; keeps_solve).
    apply bkpt_on_lineno_log in Hrun as Hl. destruct Hl as (? & ? & _).
    split; [done|]. split; [done|]. exact (Hc _ _ _ Hrun). }
  unfold bkpt_at_line, frame_load. msimpl.
  destruct (heap s !! frame) as [[fr| | |]|] eqn:Hfr; try done. msimpl.
  case_bool_decide as Hhit.
  - destruct (module_bps (self s)) as [mb0|] eqn:Emb; [|done].
    cbn [Py_INCREF]. msimpl. intros Hrun.
    apply Hon in Hrun as (Hs & Hh & Hc).
    rewrite Hs, Hh, Hc, <- Emb. split; [apply set_bkpt_cache_same|done].
  - unfold bkpt_at_line_uncached. msimpl.
    destruct (bkpt_in_code frame s) as [r1 s1|] eqn:Hin; [|done].
    destruct (bkpt_in_code_outcome _ _ _ _ _ Hfr Hin) as (Hout & Hc & Hh).
    assert (set_bkpt_cache (module_bps (self s)) (code_bps (self s))
              (cached_f_code (self s)) (self s1) = self s) as Hs1.
    { destruct Hout as [(mb1 & cb1 & _ & _ & -> & _)|[_ ->]].
      - by destruct (self s).
      - apply set_bkpt_cache_same. }
    intros Hrun.
    assert (self s' = self s1 ∧ heap s' = heap s1
            ∧ c_traceobj s' = c_traceobj s1) as (Es & Eh & Ec).
    { destruct r1 as [[]|];
        first [ by injection Hrun as _ <- | by apply Hon in Hrun ]. }
    rewrite Es, Eh, Ec. done.
Qed.
(** *** Calling a handler *)

(** X9.  [user_method] calls the handler [name] with the frame (and, except
    for [user_line], the argument) in a state where [botframe] is set,
    [topframe] is the frame, [topframe_locals] is [None] and the locals of
    the frame have been copied.  When the handler raises, the locals are
    still written back, [topframe] is left as it is, [get_traceobj] is not
    called and the result is [NULL].  When it returns, [topframe] and
    [topframe_locals] are set to [None] and the result is whatever
    [get_traceobj] answers. *)
Theorem user_method_protocol (frame : addr) (name : string)
    (arg : option PyObject) (a tf tl : PyObject) (s s1 : State)
    (r0 : option PyObject) :
  name = "user_line"%string ∨ arg = Some a →
  topframe (self s) = Some tf →
  topframe_locals (self s) = Some tl →
  py_method name (handler_args frame name a) (handler_entry frame s)
  = (r0, s1) →
  let l0 := log (handler_entry frame s) in
  match r0 with
  | None =>
      user_method py_method frame name arg s
      = Ok None
          (set_log (l0 ++ [EvCallMethod name (handler_args frame name a) None;
                           EvLocalsToFast frame]) s1)
  | Some _ =>
      topframe (self s1) ≠ None →
      topframe_locals (self s1) ≠ None →
      let s2 := handler_exit frame name (handler_args frame name a) r0 l0 s1 in
      ∀ r s3,
        py_method "get_traceobj" [] s2 = (r, s3) →
        user_method py_method frame name arg s
        = Ok r (set_log (log s2 ++ [EvCallMethod "get_traceobj" [] r]) s3)
  end.
Proof.
  intros Hname Htf Htl Hcall l0.
  assert (∀ t : State,
            (if bool_decide (name = "user_line"%string)
             then PyObject_CallMethod py_method name [PyRef frame]
             else match arg with
                  | Some a0 =>
                      PyObject_CallMethod py_method name [PyRef frame; a0]
                  | None => raise SystemError;; emit EvBuildValueNull;;
                            mret None
                  end) t
            = PyObject_CallMethod py_method name (handler_args frame name a) t)
    as Hargs.
  { intros t. unfold handler_args.
    case_bool_decide as E; [done|]. by destruct Hname as [?| ->]. }
  assert (user_method py_method frame name arg s
          = (match r0 with
             | None => mret None
             | Some _ =>
                 self2 ← get_self;
                 modify_self (set_topframe (Some Py_None));;
                 Py_DECREF (topframe self2);;
                 modify_self (set_topframe_locals (Some Py_None));;
                 Py_DECREF (topframe_locals self2);;
                 PyObject_CallMethod py_method "get_traceobj" []
             end)
              (set_log (l0 ++ [EvCallMethod name (handler_args frame name a) r0;
                               EvLocalsToFast frame]) s1)) as Hstep.
  { unfold user_method. rewrite bind_eq. cbn [get_self].
    rewrite bind_eq.
    assert ((if bool_decide (botframe (self s) = Some Py_None)
             then modify_self (set_botframe (Some (PyRef frame)))
             else mret ()) s
            = Ok () (set_self
                       (if bool_decide (botframe (self s) = Some Py_None)
                        then set_botframe (Some (PyRef frame)) (self s)
                        else self s) s)) as ->.
    { destruct (bool_decide (botframe (self s) = Some Py_None));
        [reflexivity|]. by destruct s. }
    rewrite bind_eq. cbn [get_self self set_self].
    assert (topframe (if bool_decide (botframe (self s) = Some Py_None)
                      then set_botframe (Some (PyRef frame)) (self s)
                           else self s) = Some tf) as Htf'
      by (destruct (bool_decide (botframe (self s) = Some Py_None)); done).
    assert (topframe_locals
                   (if bool_decide (botframe (self s) = Some Py_None)
                    then set_botframe (Some (PyRef frame)) (self s)
                    else self s) = Some tl) as Htl'
      by (destruct (bool_decide (botframe (self s) = Some Py_None)); done).
    rewrite Htf', Htl'.
    unfold PyFrame_FastToLocals, PyFrame_LocalsToFast. cbn [Py_DECREF].
    msimpl. rewrite Hargs. unfold PyObject_CallMethod.
    match goal with
    | |- context [py_method name _ ?t] =>
        change t with (handler_entry frame s)
    end.
    rewrite Hcall. subst l0.
    cbn [self set_self set_log log heap err_indicator c_traceobj].
    rewrite <- app_assoc. reflexivity. }
  rewrite Hstep. destruct r0 as [r0|]; [|reflexivity].
  intros Htf1 Htl1 s2 r s3 Hget.
  destruct (topframe (self s1)) as [tf1|] eqn:Etf1; [|done].
  destruct (topframe_locals (self s1)) as [tl1|] eqn:Etl1; [|done].
  msimpl. rewrite Etf1. cbn [Py_DECREF]. msimpl.
  rewrite Etl1. cbn [Py_DECREF]. msimpl.
  unfold PyObject_CallMethod.
  match goal with
  | |- context [py_method _ _ ?t] => change t with s2
  end.
  rewrite Hget. reflexivity.
Qed.

(** *** Events that reach no handler *)

Lemma tracer_dispatched (frame : addr) (what : Z) (arg : option PyObject)
    (s : State) (fr : PyFrameObject) :
  heap s !! frame = Some (HFrame fr) →
  what = PyTrace_CALL ∨ f_trace fr ≠ None →
  tracer py_method PyCode_Addr2Line frame what arg s
  = (j ← tracer_event py_method PyCode_Addr2Line frame what
          (Some (default Py_None arg));
     match j with
     | GotoFin result => tracer_fin frame result
     | GotoFail => tracer_fail frame
     | FallThrough => tracer_fin frame (Some PySelf)
     end) s.
Proof.
  intros Hfr Hdisp. unfold tracer.
  rewrite bind_eq, (frame_load_eq _ _ _ Hfr).
  assert (bool_decide (what ≠ PyTrace_CALL) && bool_decide (f_trace fr = None)
          = false) as ->.
  { destruct Hdisp as [->|Hh].
    - rewrite (bool_decide_false (PyTrace_CALL ≠ PyTrace_CALL)) by auto. done.
    - rewrite (bool_decide_false (f_trace fr = None)) by done.
      apply andb_false_r. }
  by destruct arg.
Qed.

Lemma tracer_fin_installs (frame : addr) (r : PyObject) (s : State)
    (fr : PyFrameObject) :
  heap s !! frame = Some (HFrame fr) →
  r ≠ Py_None →
  tracer_fin frame (Some r) s
  = Ok 0 (set_heap
            (<[frame := HFrame (mkFrame (f_back fr) (f_code fr) (Some r)
                                  (f_lineno fr) (f_lasti fr))]> (heap s)) s).
Proof.
  intros Hfr Hr. unfold tracer_fin.
  rewrite (bool_decide_true _ Hr).
  unfold frame_load, frame_store. msimpl. rewrite Hfr. msimpl.
  rewrite Hfr. reflexivity.
Qed.

(** X10.  A CALL event for a function whose code object is in
    [skip_calls] (once the first call event has been consumed) returns 0
    and does nothing at all: no handler is called, the frame gets no hook
    and so the function is not traced. *)
Theorem tracer_skips_calls (frame : addr) (arg : option PyObject)
    (s : State) (fr : PyFrameObject) (l : list PyObject) :
  heap s !! frame = Some (HFrame fr) →
  ignore_first_call_event (self s) = 0 →
  skip_calls (self s) = Some l →
  PyRef (f_code fr) ∈ l →
  tracer py_method PyCode_Addr2Line frame PyTrace_CALL arg s = Ok 0 s.
Proof.
  intros Hfr Hflag Hl Hin.
  rewrite (tracer_dispatched _ _ _ _ _ Hfr) by auto.
  rewrite bind_eq. unfold tracer_event.
  rewrite (bool_decide_false (PyTrace_CALL = PyTrace_LINE)) by done.
  rewrite (bool_decide_true (PyTrace_CALL = PyTrace_CALL)) by done.
  unfold tracer_CALL. msimpl. rewrite Hflag.
  rewrite (bool_decide_false (0 ≠ 0)) by auto.
  rewrite (frame_load_eq _ _ _ Hfr). rewrite Hl.
  cbn [PySequence_Contains]. msimpl.
  assert (existsb (λ x, key_eqb x (PyRef (f_code fr))) l = true) as ->.
  { apply existsb_exists. exists (PyRef (f_code fr)).
    split; [by apply list_elem_of_In|apply key_eqb_refl]. }
  rewrite (bool_decide_false (1 = -1)) by done.
  rewrite (bool_decide_true (1 ≠ 0)) by done.
  unfold tracer_fin.
  rewrite (bool_decide_false (Py_None ≠ Py_None)) by auto. reflexivity.
Qed.

(** X11.  An event of a kind other than CALL, EXCEPTION, LINE and RETURN on
    a frame with a hook is not dispatched to anything: the tracer installs
    itself as the hook of the frame and returns 0; nothing else changes. *)
Theorem tracer_other_event (frame : addr) (what : Z)
    (arg : option PyObject) (s : State) (fr : PyFrameObject) :
  heap s !! frame = Some (HFrame fr) →
  f_trace fr ≠ None →
  what ∉ [PyTrace_CALL; PyTrace_EXCEPTION; PyTrace_LINE; PyTrace_RETURN] →
  tracer py_method PyCode_Addr2Line frame what arg s
  = Ok 0 (set_heap
            (<[frame := HFrame (mkFrame (f_back fr) (f_code fr) (Some PySelf)
                                  (f_lineno fr) (f_lasti fr))]> (heap s)) s).
Proof.
  intros Hfr Hhook Hwhat.
  rewrite (tracer_dispatched _ _ _ _ _ Hfr) by auto.
  rewrite bind_eq. unfold tracer_event.
  rewrite !bool_decide_false by (intros ->; apply Hwhat; set_solver).
  cbn. by apply tracer_fin_installs.
Qed.

(** X12.  A RETURN event on the bottom frame, when [stop_here] answers 0
    and the frame is not the stop frame: the tracer calls
    [stop_tracing(frame)] and, when that call returns, returns 0 without
    touching the hook of the frame, whatever the call returned; when the
    call raises, the tracer fails. *)
Theorem tracer_return_bottom_frame (frame : addr) (arg : option PyObject)
    (s s0 s1 : State) (fr : PyFrameObject) (r : option PyObject) :
  heap s !! frame = Some (HFrame fr) →
  f_trace fr ≠ None →
  stop_here py_method frame s = Ok 0 s0 →
  stopframe (self s0) ≠ Some (PyRef frame) →
  botframe (self s0) = Some (PyRef frame) →
  py_method "stop_tracing" [PyRef frame] s0 = (r, s1) →
  let s2 := set_log (log s0 ++ [EvCallMethod "stop_tracing" [PyRef frame] r])
              s1 in
  tracer py_method PyCode_Addr2Line frame PyTrace_RETURN arg s
  = match r with
    | Some _ => Ok 0 s2
    | None => tracer_fail frame s2
    end.
Proof.
  intros Hfr Hhook Hstop Hsf Hbot Hcall s2.
  rewrite (tracer_dispatched _ _ _ _ _ Hfr) by auto.
  rewrite bind_eq. unfold tracer_event.
  rewrite (bool_decide_false (PyTrace_RETURN = PyTrace_LINE)) by done.
  rewrite (bool_decide_false (PyTrace_RETURN = PyTrace_CALL)) by done.
  rewrite (bool_decide_true (PyTrace_RETURN = PyTrace_RETURN)) by done.
  unfold tracer_RETURN. rewrite bind_eq, Hstop.
  rewrite (bool_decide_false (0 = -1)) by done.
  rewrite bind_eq. cbn [get_self].
  rewrite (bool_decide_false (0 ≠ 0)) by auto.
  rewrite (bool_decide_false (Some (PyRef frame) = stopframe (self s0)))
    by congruence.
  cbn [orb]. msimpl.
  rewrite (bool_decide_true (Some (PyRef frame) = botframe (self s0)))
    by congruence.
  unfold PyObject_CallMethod. rewrite Hcall. fold s2.
  destruct r as [r|]; [|reflexivity].
  unfold tracer_fin.
  rewrite (bool_decide_false (Py_None ≠ Py_None)) by auto. reflexivity.
Qed.

(** X24.  A RETURN event on which the debugger stops and after which
    [get_traceobj] answers [None]: the tracer returns 0 at once.  The step
    target is not handed to the caller, the hook of the frame is not
    written, and [stop_tracing] is not called, even on the bottom frame. *)
Theorem tracer_return_detached (frame : addr) (arg : option PyObject)
    (s s0 s1 : State) (fr : PyFrameObject) (rc : Z) :
  heap s !! frame = Some (HFrame fr) →
  f_trace fr ≠ None →
  stop_here py_method frame s = Ok rc s0 →
  rc ≠ -1 →
  rc ≠ 0 ∨ stopframe (self s0) = Some (PyRef frame) →
  user_method py_method frame "user_return" (Some (default Py_None arg)) s0
  = Ok (Some Py_None) s1 →
  tracer py_method PyCode_Addr2Line frame PyTrace_RETURN arg s = Ok 0 s1.
Proof.
  intros Hfr Hhook Hstop Hrc Hwhy Huser.
  rewrite (tracer_dispatched _ _ _ _ _ Hfr) by auto.
  rewrite bind_eq. unfold tracer_event.
  rewrite (bool_decide_false (PyTrace_RETURN = PyTrace_LINE)) by done.
  rewrite (bool_decide_false (PyTrace_RETURN = PyTrace_CALL)) by done.
  rewrite (bool_decide_true (PyTrace_RETURN = PyTrace_RETURN)) by done.
  unfold tracer_RETURN. rewrite bind_eq, Hstop.
  rewrite (bool_decide_false _ Hrc).
  rewrite bind_eq. cbn [get_self].
  assert (bool_decide (rc ≠ 0)
          || bool_decide (Some (PyRef frame) = stopframe (self s0)) = true)
    as ->.
  { destruct Hwhy as [H|H].
    - by rewrite (bool_decide_true _ H).
    - rewrite (bool_decide_true (Some (PyRef frame) = stopframe (self s0)))
        by done.
      apply orb_true_r. }
  rewrite bind_eq. unfold tracer_RETURN_stop.
  rewrite bind_eq, Huser. cbn.
  unfold tracer_fin.
  rewrite (bool_decide_false (Py_None ≠ Py_None)) by auto. reflexivity.
Qed.

(** *** Line numbers when the hook moves to the caller *)

(** X13.  Handing the step target to the caller (lines 431-451) keeps
    [PyFrame_GetLineNumber] right on every frame: a caller that gets the
    tracer as its hook gets at the same time the line number that
    [PyFrame_GetLineNumber] computed for it before (f_lineno must be
    accurate when f_trace is set), and no other frame changes: every object
    of the heap other than the caller is as it was, and so is a caller that
    had a hook. *)
Theorem propagate_to_caller_line_numbers (frame : addr) (s : State)
    (fr : PyFrameObject) (sf sl : PyObject) :
  heap s !! frame = Some (HFrame fr) →
  caller_wf (heap s) fr = true →
  stopframe (self s) = Some sf →
  stop_lineno (self s) = Some sl →
  ∃ s', propagate_to_caller PyCode_Addr2Line frame s = Ok tt s'
        ∧ (∀ a n, PyFrame_GetLineNumber PyCode_Addr2Line a s = Ok n s →
                  PyFrame_GetLineNumber PyCode_Addr2Line a s' = Ok n s')
        ∧ (∀ a, f_back fr ≠ Some a → heap s' !! a = heap s !! a)
        ∧ (∀ fb fbr,
             f_back fr = Some fb → heap s !! fb = Some (HFrame fbr) →
             match f_trace fbr with
             | Some _ => heap s' !! fb = Some (HFrame fbr)
             | None =>
                 ∃ n, PyFrame_GetLineNumber PyCode_Addr2Line fb s = Ok n s
                      ∧ heap s' !! fb
                        = Some (HFrame (mkFrame (f_back fbr) (f_code fbr)
                                          (Some PySelf) n (f_lasti fbr)))
             end).
Proof.
  intros Hfr Hwf Hsf Hsl. unfold caller_wf in Hwf.
  assert (∀ (t : State) (a : addr),
            PyFrame_GetLineNumber PyCode_Addr2Line a t
            = match heap t !! a with
              | Some (HFrame fa) =>
                  match f_trace fa with
                  | Some _ => Ok (f_lineno fa) t
                  | None =>
                      match heap t !! f_code fa with
                      | Some (HCode co) =>
                          Ok (PyCode_Addr2Line co (f_lasti fa)) t
                      | _ => UB
                      end
                  end
              | _ => UB
              end) as Hget.
  { intros t a. unfold PyFrame_GetLineNumber, frame_load, code_load.
    msimpl. destruct (heap t !! a) as [[fa| | |]|]; try done. msimpl.
    destruct (f_trace fa); [done|]. msimpl.
    by destruct (heap t !! f_code fa) as [[]|]. }
  unfold propagate_to_caller.
  rewrite bind_eq, (frame_load_eq _ _ _ Hfr).
  destruct (f_back fr) as [fb|] eqn:Eback.
  - destruct (heap s !! fb) as [[fbr| | |]|] eqn:Efb; try done.
    destruct (heap s !! f_code fbr) as [[|co| |]|] eqn:Eco; try done.
    rewrite !bind_eq, (frame_load_eq _ _ _ Efb).
    destruct (f_trace fbr) as [hook|] eqn:Ehook.
    + msimpl. rewrite Hsf, Hsl. cbn. eexists. split; [reflexivity|].
      split; [|split].
      * intros a n. rewrite !Hget. cbn.
        destruct (heap s !! a) as [[fa| | |]|]; try done.
        destruct (f_trace fa); [by intros [= <-]|].
        destruct (heap s !! f_code fa) as [[]|]; try done. by intros [= <-].
      * done.
      * intros fb' fbr' [= <-] Hfb'. rewrite Efb in Hfb'.
        injection Hfb' as <-. rewrite Ehook. exact Efb.
    + rewrite bind_eq, Hget, Efb, Ehook, Eco.
      unfold frame_store. msimpl. rewrite Efb. msimpl.
      rewrite Hsf, Hsl. cbn. eexists. split; [reflexivity|].
      split; [|split].
      * intros a n. rewrite !Hget. cbn.
        destruct (decide (a = fb)) as [->|Hne].
        { rewrite lookup_insert_eq, Efb, Ehook, Eco. cbn. by intros [= <-]. }
        rewrite lookup_insert_ne by done.
        destruct (heap s !! a) as [[fa| | |]|]; try done.
        destruct (f_trace fa); [by intros [= <-]|].
        destruct (decide (f_code fa = fb)) as [->|Hc].
        { by rewrite Efb. }
        rewrite lookup_insert_ne by done.
        destruct (heap s !! f_code fa) as [[]|]; try done. by intros [= <-].
      * intros a Ha. cbn. rewrite lookup_insert_ne; [done|congruence].
      * intros fb' fbr' [= <-] Hfb'. rewrite Efb in Hfb'.
        injection Hfb' as <-. rewrite Ehook.
        exists (PyCode_Addr2Line co (f_lasti fbr)). split.
        { by rewrite Hget, Efb, Ehook, Eco. }
        cbn. by rewrite lookup_insert_eq.
  - msimpl. rewrite Hsf, Hsl. cbn. eexists. split; [reflexivity|].
    split; [|split].
    + intros a n. rewrite !Hget. cbn.
      destruct (heap s !! a) as [[fa| | |]|]; try done.
      destruct (f_trace fa); [by intros [= <-]|].
      destruct (heap s !! f_code fa) as [[]|]; try done. by intros [= <-].
    + done.
    + intros ? ? [=].
Qed.
(** *** What a dispatch does to the outside world *)

Lemma emits_ret {A : Type} (P : Event → bool) (a : A) : emits P (mret a).
Proof. intros s a' s' [= _ <-]. exists []. by rewrite app_nil_r. Qed.

Lemma emits_undefined {A : Type} (P : Event → bool) : emits P (@undefined A).
Proof. intros s a s' [=]. Qed.

Lemma emits_bind {A B : Type} (P : Event → bool) (m : M A) (f : A → M B) :
  emits P m → (∀ a, emits P (f a)) → emits P (m ≫= f).
Proof.
  intros Hm Hf s b s'. rewrite bind_eq.
  destruct (m s) as [a s1|] eqn:E; [|done]. intros H.
  destruct (Hm _ _ _ E) as (l1 & E1 & H1).
  destruct (Hf _ _ _ _ H) as (l2 & E2 & H2).
  exists (l1 ++ l2). rewrite E2, E1, app_assoc. split; [done|].
  by rewrite forallb_app, H1, H2.
Qed.

Lemma emits_keeps_log {A : Type} (P : Event → bool) (m : M A) :
  keeps log m → emits P m.
Proof.
  intros Hm s a s' E. exists []. by rewrite (Hm _ _ _ E), app_nil_r.
Qed.

Lemma emits_emit (P : Event → bool) (e : Event) :
  P e = true → emits P (emit e).
Proof.
  intros He s [] s' [= <-]. exists [e]. cbn. by rewrite He.
Qed.

Lemma emits_CallMethod (P : Event → bool) (name : string)
    (args : list PyObject) :
  (∀ r, P (EvCallMethod name args r) = true) →
  emits P (PyObject_CallMethod py_method name args).
Proof.
  intros He s a s'. unfold PyObject_CallMethod.
  destruct (py_method name args s) as [r s1]. intros [= <- <-].
  exists [EvCallMethod name args r]. cbn. by rewrite He.
Qed.

(** Evaluates the tests on closed method names in the goal. *)
Ltac eval_names :=
  repeat match goal with
         | |- context [bool_decide (?n ∈ ?l)] =>
             let b := eval vm_compute in (bool_decide (n ∈ l)) in
             change (bool_decide (n ∈ l)) with b
         | |- context [bool_decide (@eq string ?n ?m)] =>
             let b := eval vm_compute in (bool_decide (n = m)) in
             change (bool_decide (n = m)) with b
         end.

Ltac ev_side :=
  intros; unfold handler_args;
  cbn [ev_dispatch_ok ev_handler is_user_handler negb];
  unfold is_user_handler; eval_names; cbn [negb];
  repeat (rewrite bool_decide_true by (first [done | by split]));
  done.

(** Proves [emits P m] by sequencing and case analysis, down to the
    primitives that log. *)
Ltac emits_tac :=
  repeat first
    [ apply emits_ret
    | apply emits_undefined
    | match goal with
      | H : context [emits] |- _ => apply H; solve [ev_side]
      end
    | apply emits_emit; solve [ev_side]
    | apply emits_CallMethod; solve [ev_side]
    | match goal with
      | |- emits _ (_ ≫= _) => apply emits_bind; [|intros ?]
      | |- emits _ (match ?x with _ => _ end) => destruct x
      | |- emits _ (if ?c then _ else _) => destruct c
      end
    | apply emits_keeps_log; solve [keeps_solve]
    | progress unfold PyDict_GetItem, PyDict_SetItem, PyDict_Contains,
        PyLong_AsLong, PyObject_IsTrue, call_lower, PyFrame_FastToLocals,
        PyFrame_LocalsToFast, PyTraceBack_Here, PyEval_SetTrace ].

Section Callbacks.

Variable frame : addr.
Variable arg : PyObject.

#[local] Abbreviation P := (ev_dispatch_ok frame arg).

Lemma emits_stop_here : emits P (stop_here py_method frame).
Proof. unfold stop_here, skip_test, stop_decision. emits_tac. Qed.

Lemma emits_bkpt_in_code : emits P (bkpt_in_code frame).
Proof. unfold bkpt_in_code, fold_filename, lookup_code_bps. emits_tac. Qed.

Lemma emits_bkpt_at_line : emits P (bkpt_at_line frame).
Proof.
  pose proof emits_bkpt_in_code.
  unfold bkpt_at_line, bkpt_at_line_uncached, bkpt_on_lineno. emits_tac.
Qed.

Lemma emits_user_method (name : string) (a : PyObject)
    (arg0 : option PyObject) :
  (∀ r, P (EvCallMethod name (handler_args frame name a) r) = true) →
  name = "user_line"%string ∨ arg0 = Some a →
  emits P (user_method py_method frame name arg0).
Proof.
  intros Hok Hname.
  assert (emits P
            (if bool_decide (name = "user_line"%string)
             then PyObject_CallMethod py_method name [PyRef frame]
             else match arg0 with
                  | Some a0 =>
                      PyObject_CallMethod py_method name [PyRef frame; a0]
                  | None => raise SystemError;; emit EvBuildValueNull;;
                            mret None
                  end)) as Hcall.
  { unfold handler_args in Hok. case_bool_decide as E.
    - by apply emits_CallMethod.
    - destruct Hname as [?| ->]; [done|]. by apply emits_CallMethod. }
  unfold user_method.
  repeat first
    [ apply Hcall
    | match goal with
      | |- emits _ (PyFrame_FastToLocals _ ≫= _) =>
          apply emits_bind; [apply emits_emit; ev_side|intros ?]
      | |- emits _ (PyFrame_LocalsToFast _ ≫= _) =>
          apply emits_bind; [apply emits_emit; ev_side|intros ?]
      | |- emits _ (_ ≫= _) => apply emits_bind; [|intros ?]
      | |- emits _ (match ?x with _ => _ end) => destruct x
      end
    | apply emits_CallMethod; solve [ev_side]
    | apply emits_keeps_log; solve [keeps_solve] ].
Qed.

Lemma emits_user_method_arg (name : string) :
  name ∈ ["user_call"; "user_return"; "user_exception"]%string →
  emits P (user_method py_method frame name (Some arg)).
Proof.
  intros Hname. apply (emits_user_method name arg); [|by right].
  intros r. unfold handler_args.
  repeat (apply elem_of_cons in Hname as [->|Hname]);
    [ev_side|ev_side|ev_side|by apply elem_of_nil in Hname].
Qed.

Lemma emits_tracer_event (what : Z) :
  emits P (tracer_event py_method PyCode_Addr2Line frame what (Some arg)).
Proof.
  pose proof emits_stop_here. pose proof emits_bkpt_in_code.
  pose proof emits_bkpt_at_line.
  assert (emits P (user_method py_method frame "user_line" None)) as Hline.
  { apply (emits_user_method _ Py_None); [|by left]. ev_side. }
  assert (∀ mb, mb ≠ Py_None →
            emits P (user_method py_method frame "bkpt_user_line" (Some mb)))
    as Hbkpt.
  { intros mb Hmb. apply (emits_user_method _ mb); [|by right]. ev_side. }
  assert (emits P (user_method py_method frame "user_call" (Some arg)))
    as Hcall by (apply emits_user_method_arg, (bool_decide_unpack _); by vm_compute).
  assert (emits P (user_method py_method frame "user_return" (Some arg)))
    as Hret by (apply emits_user_method_arg, (bool_decide_unpack _); by vm_compute).
  assert (emits P (user_method py_method frame "user_exception" (Some arg)))
    as Hexc by (apply emits_user_method_arg, (bool_decide_unpack _); by vm_compute).
  assert (emits P (propagate_to_caller PyCode_Addr2Line frame)) as Hprop.
  { apply emits_keeps_log. apply propagate_to_caller_log. }
  unfold tracer_event.
  repeat match goal with
         | |- emits _ (if ?c then _ else _) => destruct c
         end; [| | | |apply emits_ret].
  - unfold tracer_LINE.
    repeat first
      [ apply emits_ret | apply Hline | by apply Hbkpt
      | match goal with
        | H : emits _ ?m |- emits _ (?m ≫= _) =>
            apply emits_bind; [exact H|intros ?]
        | |- emits _ (_ ≫= _) => apply emits_bind; [|intros ?]
        | |- emits _ (match ?x with _ => _ end) => destruct x
        | |- emits _ (if ?c then _ else _) => destruct c
        end ].
  - unfold tracer_CALL.
    repeat first
      [ apply emits_ret | exact Hcall
      | match goal with
        | H : emits _ ?m |- emits _ (?m ≫= _) =>
            apply emits_bind; [exact H|intros ?]
        | |- emits _ (_ ≫= _) => apply emits_bind; [|intros ?]
        | |- emits _ (match ?x with _ => _ end) => destruct x
        | |- emits _ (if ?c then _ else _) => destruct c
        end
      | apply emits_keeps_log; solve [keeps_solve] ].
  - unfold tracer_RETURN, tracer_RETURN_stop. cbv zeta.
    repeat first
      [ apply emits_ret | exact Hret | exact Hprop
      | match goal with
        | H : emits _ ?m |- emits _ (?m ≫= _) =>
            apply emits_bind; [exact H|intros ?]
        | |- emits _ (_ ≫= _) => apply emits_bind; [|intros ?]
        | |- emits _ (match ?x with _ => _ end) => destruct x
        | |- emits _ (if ?c then _ else _) => destruct c
        end
      | apply emits_CallMethod; solve [ev_side]
      | apply emits_keeps_log; solve [keeps_solve]
      | progress unfold PyLong_AsLong
      | apply emits_emit; solve [ev_side] ].
  - unfold tracer_EXCEPTION.
    repeat first
      [ apply emits_ret | exact Hexc
      | match goal with
        | H : emits _ ?m |- emits _ (?m ≫= _) =>
            apply emits_bind; [exact H|intros ?]
        | |- emits _ (_ ≫= _) => apply emits_bind; [|intros ?]
        | |- emits _ (match ?x with _ => _ end) => destruct x
        | |- emits _ (if ?c then _ else _) => destruct c
        end ].
Qed.

Lemma emits_tracer_fin (result : option PyObject) :
  emits P (tracer_fin frame result).
Proof. unfold tracer_fin, tracer_fail. emits_tac. Qed.

End Callbacks.

(** X14.  Whatever the event and whatever the handlers do, during one
    dispatch the tracer calls only [is_skipped_module], [user_line] and
    [stop_tracing] with the frame, [user_call], [user_return] and
    [user_exception] with the frame and the argument of the event ([None]
    when the interpreter passes [NULL]), [bkpt_user_line] with the frame
    and a [module_bps] that is not [None], and [get_traceobj] without
    arguments.  It never fails to build the arguments of a call, copies the
    locals of no other frame, and calls [PyEval_SetTrace] only to remove
    the hook. *)
Theorem tracer_callbacks (frame : addr) (what : Z) (arg : option PyObject)
    (s s' : State) (rc : Z) :
  tracer py_method PyCode_Addr2Line frame what arg s = Ok rc s' →
  ∃ l, log s' = log s ++ l
       ∧ forallb (ev_dispatch_ok frame (default Py_None arg)) l = true.
Proof.
  revert s rc s'.
  change (emits (ev_dispatch_ok frame (default Py_None arg))
            (tracer py_method PyCode_Addr2Line frame what arg)).
  unfold tracer. cbv zeta.
  apply emits_bind; [apply emits_keeps_log; keeps_solve|intros fr].
  destruct (_ && _); [apply emits_ret|].
  assert (match arg with Some a => Some a | None => Some Py_None end
          = Some (default Py_None arg)) as -> by (by destruct arg).
  apply emits_bind; [apply emits_tracer_event|intros j].
  pose proof (emits_tracer_fin frame (default Py_None arg)) as Hfin.
  destruct j.
  - apply Hfin.
  - apply (Hfin None).
  - apply Hfin.
Qed.
(** *** One handler for one event *)

Lemma count_handlers_app (l1 l2 : list Event) :
  count_handlers (l1 ++ l2) = (count_handlers l1 + count_handlers l2)%nat.
Proof. unfold count_handlers. by rewrite filter_app, length_app. Qed.

Lemma count_handlers_none (l : list Event) :
  forallb (λ e, negb (ev_handler e)) l = true → count_handlers l = 0%nat.
Proof.
  unfold count_handlers. induction l as [|e l IH]; [done|].
  intros H. cbn in H. apply andb_true_iff in H as [He Hl].
  apply negb_true_iff in He.
  rewrite filter_cons_False by (by rewrite He). auto.
Qed.

Lemma calls_of_emits {A : Type} (n : nat) (m : M A) :
  emits (λ e, negb (ev_handler e)) m → calls_handlers n m.
Proof.
  intros Hm s a s' E. destruct (Hm _ _ _ E) as (l & El & Hl).
  exists l. split; [done|]. rewrite (count_handlers_none _ Hl). lia.
Qed.

Lemma calls_bind {A B : Type} (n k : nat) (m : M A) (f : A → M B) :
  calls_handlers n m → (∀ a, calls_handlers k (f a)) →
  calls_handlers (n + k) (m ≫= f).
Proof.
  intros Hm Hf s b s'. rewrite bind_eq.
  destruct (m s) as [a s1|] eqn:E; [|done]. intros H.
  destruct (Hm _ _ _ E) as (l1 & E1 & H1).
  destruct (Hf _ _ _ _ H) as (l2 & E2 & H2).
  exists (l1 ++ l2). rewrite E2, E1, app_assoc. split; [done|].
  rewrite count_handlers_app. lia.
Qed.

Lemma calls_CallMethod (name : string) (args : list PyObject) :
  calls_handlers 1 (PyObject_CallMethod py_method name args).
Proof.
  intros s a s'. unfold PyObject_CallMethod.
  destruct (py_method name args s) as [r s1]. intros [= <- <-].
  exists [EvCallMethod name args r]. split; [done|].
  unfold count_handlers.
  destruct (decide (is_user_handler name = true)).
  - by rewrite filter_cons_True.
  - rewrite filter_cons_False by done. cbn. lia.
Qed.

(** The part of a computation that calls no handler. *)
Ltac no_handler :=
  apply calls_of_emits; solve [emits_tac].

Ltac calls_tac :=
  repeat first
    [ match goal with
      | H : calls_handlers 1 ?m |- calls_handlers 1 (?m ≫= _) =>
          apply (calls_bind 1 0); [exact H|intros ?; no_handler]
      | |- calls_handlers 1 ((if ?c then _ else _) ≫= _) => destruct c
      | |- calls_handlers 1 (_ ≫= _) =>
          apply (calls_bind 0 1); [no_handler|intros ?]
      | |- calls_handlers 1 (match ?x with _ => _ end) => destruct x
      | |- calls_handlers 1 (if ?c then _ else _) => destruct c
      end
    | no_handler ].

Lemma calls_user_method (frame : addr) (name : string)
    (arg : option PyObject) :
  calls_handlers 1 (user_method py_method frame name arg).
Proof.
  assert (calls_handlers 1
            (if bool_decide (name = "user_line"%string)
             then PyObject_CallMethod py_method name [PyRef frame]
             else match arg with
                  | Some a0 =>
                      PyObject_CallMethod py_method name [PyRef frame; a0]
                  | None => raise SystemError;; emit EvBuildValueNull;;
                            mret None
                  end)) as Hcall.
  { destruct (bool_decide _); [apply calls_CallMethod|].
    destruct arg; [apply calls_CallMethod|no_handler]. }
  unfold user_method.
  apply (calls_bind 0 1); [no_handler|intros self0].
  apply (calls_bind 0 1); [no_handler|intros ?].
  apply (calls_bind 0 1); [no_handler|intros self1].
  apply (calls_bind 0 1); [no_handler|intros ?].
  apply (calls_bind 0 1); [no_handler|intros ?].
  apply (calls_bind 0 1); [no_handler|intros ?].
  apply (calls_bind 0 1); [no_handler|intros ?].
  apply (calls_bind 0 1); [no_handler|intros ?].
  apply (calls_bind 1 0); [exact Hcall|intros result]. no_handler.
Qed.

Lemma calls_tracer_event (frame : addr) (what : Z) (arg : option PyObject) :
  calls_handlers 1 (tracer_event py_method PyCode_Addr2Line frame what arg).
Proof.
  assert (emits (λ e, negb (ev_handler e)) (stop_here py_method frame))
    as Hstop
    by (unfold stop_here, skip_test, stop_decision; emits_tac).
  assert (emits (λ e, negb (ev_handler e)) (bkpt_in_code frame)) as Hin
    by (unfold bkpt_in_code, fold_filename, lookup_code_bps; emits_tac).
  assert (emits (λ e, negb (ev_handler e)) (bkpt_at_line frame)) as Hat
    by (unfold bkpt_at_line, bkpt_at_line_uncached, bkpt_on_lineno;
        emits_tac).
  assert (emits (λ e, negb (ev_handler e))
            (propagate_to_caller PyCode_Addr2Line frame)) as Hprop
    by (apply emits_keeps_log, propagate_to_caller_log).
  pose proof (calls_user_method frame "user_line" None) as Hline.
  assert (∀ mb, calls_handlers 1
                  (user_method py_method frame "bkpt_user_line" (Some mb)))
    as Hbkpt by (intros; apply calls_user_method).
  pose proof (calls_user_method frame "user_call" arg) as Hcall.
  pose proof (calls_user_method frame "user_return" arg) as Hret.
  pose proof (calls_user_method frame "user_exception" arg) as Hexc.
  assert (calls_handlers 1
            (tracer_RETURN_stop py_method PyCode_Addr2Line frame arg))
    as Hrs.
  { unfold tracer_RETURN_stop. cbv zeta.
    apply (calls_bind 1 0); [exact Hret|intros result]. no_handler. }
  unfold tracer_event.
  repeat match goal with
         | |- calls_handlers _ (if ?c then _ else _) => destruct c
         end; [| | | |no_handler].
  - unfold tracer_LINE. calls_tac.
    all: apply (calls_bind 1 0); [apply Hbkpt|intros ?; no_handler].
  - unfold tracer_CALL. calls_tac.
  - unfold tracer_RETURN. calls_tac.
  - unfold tracer_EXCEPTION. calls_tac.
Qed.

(** X15.  One event, at most one handler: during one dispatch the tracer
    calls at most one of [user_line], [bkpt_user_line], [user_call],
    [user_return] and [user_exception].  In particular a line that is both
    a stop and a breakpoint is reported once. *)
Theorem tracer_one_handler (frame : addr) (what : Z) (arg : option PyObject)
    (s s' : State) (rc : Z) :
  tracer py_method PyCode_Addr2Line frame what arg s = Ok rc s' →
  ∃ l, log s' = log s ++ l ∧ (count_handlers l ≤ 1)%nat.
Proof.
  revert s rc s'.
  change (calls_handlers 1
            (tracer py_method PyCode_Addr2Line frame what arg)).
  unfold tracer. cbv zeta.
  apply (calls_bind 0 1); [no_handler|intros fr].
  destruct (_ && _); [no_handler|].
  apply (calls_bind 1 0); [apply calls_tracer_event|intros j].
  unfold tracer_fin, tracer_fail. no_handler.
Qed.
(** *** A CALL event when the debugger is not stepping *)

(** X16.  A CALL event (after the first) for a function that the
    membership test does not find in [skip_calls], when [stop_here] answers
    0: no handler is called; a function in which [bkpt_in_code] finds no
    breakpoint is left untraced (its frame gets no hook), a function with
    breakpoints gets the tracer as the hook of its frame. *)
Theorem tracer_call_not_stepping (frame : addr) (arg : option PyObject)
    (s s0 s1 : State) (fr fr1 : PyFrameObject) (r : PyObject) :
  heap s !! frame = Some (HFrame fr) →
  ignore_first_call_event (self s) = 0 →
  PySequence_Contains (skip_calls (self s)) (PyRef (f_code fr)) s = Ok 0 s →
  stop_here py_method frame s = Ok 0 s0 →
  bkpt_in_code frame s0 = Ok (Some r) s1 →
  heap s1 !! frame = Some (HFrame fr1) →
  tracer py_method PyCode_Addr2Line frame PyTrace_CALL arg s
  = Ok 0 (if bool_decide (r = Py_None) then s1
          else set_heap
                 (<[frame := HFrame (mkFrame (f_back fr1) (f_code fr1)
                                       (Some PySelf) (f_lineno fr1)
                                       (f_lasti fr1))]> (heap s1)) s1).
Proof.
  intros Hfr Hflag Hnot Hstop Hin Hfr1.
  rewrite (tracer_dispatched _ _ _ _ _ Hfr) by auto.
  rewrite bind_eq. unfold tracer_event.
  rewrite (bool_decide_false (PyTrace_CALL = PyTrace_LINE)) by done.
  rewrite (bool_decide_true (PyTrace_CALL = PyTrace_CALL)) by done.
  unfold tracer_CALL. rewrite bind_eq. cbn [get_self]. rewrite Hflag.
  rewrite (bool_decide_false (0 ≠ 0)) by auto.
  rewrite bind_eq, (frame_load_eq _ _ _ Hfr).
  rewrite bind_eq, Hnot.
  rewrite (bool_decide_false (0 = -1)) by done.
  rewrite (bool_decide_false (0 ≠ 0)) by auto.
  rewrite bind_eq, Hstop.
  rewrite (bool_decide_false (0 = -1)) by done.
  rewrite bind_eq, Hin.
  rewrite (bool_decide_true (0 = 0)) by done.
  rewrite (bool_decide_false (0 ≠ 0)) by auto. cbn [andb].
  destruct (decide (r = Py_None)) as [->|Hr].
  - rewrite !(bool_decide_true (Py_None = Py_None)) by done. cbn.
    unfold tracer_fin.
    rewrite (bool_decide_false (Py_None ≠ Py_None)) by auto. reflexivity.
  - rewrite !(bool_decide_false (r = Py_None)) by done. cbn.
    by apply tracer_fin_installs.
Qed.

(** *** Failures that the source tests for *)

(** X25.  Whenever a call made during a dispatch raises and the source tests
    its error return (a method of the debugger returns [NULL], the line
    number cannot be decoded, a lookup reports an error), the tracer returns
    -1, and after the call that raised it does nothing but write the locals
    back, record the traceback and remove the hook: no retry and no further
    call.  Whenever it returns -1, it has recorded a traceback entry for the
    frame, removed the global trace hook and cleared the hook of the frame,
    in this order, as its last actions.  The truth test of line 174 is not
    such a call: when it raises, the dispatch goes on. *)
Theorem tracer_failure_is_fatal (frame : addr) (what : Z)
    (arg : option PyObject) (s s' : State) (rc : Z) :
  tracer py_method PyCode_Addr2Line frame what arg s = Ok rc s' →
  ∃ l, log s' = log s ++ l
       ∧ (rc = 0 ∨ rc = -1)
       ∧ (existsb ev_failed l = true → rc = -1 ∧ failed_once l = true)
       ∧ (rc = -1 →
          c_traceobj s' = None
          ∧ (∃ fr, heap s' !! frame = Some (HFrame fr) ∧ f_trace fr = None)
          ∧ ∃ l1, l = l1 ++ [EvTraceBackHere frame; EvSetTrace None]).
Proof.
  intros Hrun.
  assert (log_state (log s) False s) as Hpre.
  { exists []. rewrite app_nil_r. split; [done|by left]. }
  pose proof (tracer_spec py_method PyCode_Addr2Line (log s) frame what arg
                s Hpre) as H.
  rewrite Hrun in H.
  destruct H as [[-> Hlog]|(-> & Hg & Hh & l & Hl & Hc)].
  - destruct Hlog as (l & Hl & [Hc|[[] _]]).
    exists l. split; [done|]. split; [by left|]. split; [|done].
    rewrite (clean_no_failure _ Hc). done.
  - exists (l ++ [EvTraceBackHere frame; EvSetTrace None]).
    split; [done|]. split; [by right|]. split.
    + intros Hex. split; [done|].
      destruct Hc as [Hc|Hf].
      * rewrite existsb_app, (clean_no_failure _ Hc) in Hex. done.
      * by apply failed_once_app_exit.
    + intros _. split; [done|]. split; [done|]. by exists l.
Qed.

(** *** The global hook *)

Section GlobalHook.

(** The handlers do not call [sys.settrace]. *)
Hypothesis py_method_keeps_hook :
  ∀ name args s r s',
    py_method name args s = (r, s') → c_traceobj s' = c_traceobj s.

Lemma keeps_hook_CallMethod (name : string) (args : list PyObject) :
  keeps c_traceobj (PyObject_CallMethod py_method name args).
Proof.
  intros s a s'. unfold PyObject_CallMethod.
  destruct (py_method name args s) as [r s1] eqn:E. intros [= _ <-].
  cbn. by eapply py_method_keeps_hook.
Qed.

Lemma keeps_hook_tracer_event (frame : addr) (what : Z)
    (arg : option PyObject) :
  keeps c_traceobj
    (tracer_event py_method PyCode_Addr2Line frame what arg).
Proof.
  pose proof keeps_hook_CallMethod.
  unfold tracer_event, tracer_LINE, tracer_CALL, tracer_RETURN,
    tracer_RETURN_stop, tracer_EXCEPTION, propagate_to_caller, user_method,
    bkpt_at_line, bkpt_at_line_uncached, bkpt_on_lineno, bkpt_in_code,
    lookup_code_bps, fold_filename, stop_here, stop_decision, skip_test.
  cbv zeta. keeps_solve.
Qed.

(** X17.  The tracer takes the global hook away only when it fails.  After
    [set_trace_dispatch] has installed the tracer, and as long as the
    handlers leave the global hook alone, an event for which the tracer
    returns 0 leaves the tracer installed, and an event for which it
    returns -1 leaves no global hook; there is no third outcome. *)
Theorem tracer_keeps_hook_until_failure (frame : addr) (what : Z)
    (arg : option PyObject) (s s0 s' : State) (r : option PyObject)
    (rc : Z) :
  BdbTracer_set_trace_dispatch s = Ok r s0 →
  tracer py_method PyCode_Addr2Line frame what arg s0 = Ok rc s' →
  r = Some Py_None
  ∧ c_traceobj s0 = Some PySelf
  ∧ ((rc = 0 ∧ c_traceobj s' = Some PySelf)
     ∨ (rc = -1 ∧ c_traceobj s' = None)).
Proof.
  intros [= <- <-] H. split; [done|]. split; [done|].
  match type of H with
  | tracer _ _ _ _ _ ?t = _ => set (t0 := t) in *
  end.
  assert (c_traceobj t0 = Some PySelf) as Hhook by done.
  clearbody t0. revert H.
  assert (∀ t t', tracer_fail frame t = Ok rc t' →
            rc = -1 ∧ c_traceobj t' = None) as Hfail.
  { intros t t'. unfold tracer_fail, PyTraceBack_Here, PyEval_SetTrace,
      frame_load, frame_store. msimpl.
    destruct (heap t !! frame) as [[fr| | |]|] eqn:Efr; try done. msimpl.
    rewrite Efr. by intros [= <- <-]. }
  assert (∀ res t t', tracer_fin frame (Some res) t = Ok rc t' →
            rc = 0 ∧ c_traceobj t' = c_traceobj t) as Hfin.
  { intros res t t'. unfold tracer_fin, frame_load, frame_store. msimpl.
    destruct (bool_decide (res ≠ Py_None)); [|by intros [= <- <-]].
    destruct (heap t !! frame) as [[fr| | |]|] eqn:Efr; try done. msimpl.
    rewrite Efr. by intros [= <- <-]. }
  unfold tracer, frame_load. msimpl.
  destruct (heap t0 !! frame) as [[fr| | |]|] eqn:Efr; try done. msimpl.
  destruct (_ && _); [intros [= <- <-]; by left|].
  match goal with
  | |- context [tracer_event _ _ _ _ ?a t0] =>
      destruct (tracer_event py_method PyCode_Addr2Line frame what a t0)
        as [j t1|] eqn:Hev; [|done]
  end.
  apply keeps_hook_tracer_event in Hev.
  destruct j as [[res|]| |]; intros Hrun.
  - apply Hfin in Hrun as [-> ->]. left. by rewrite Hev.
  - apply (Hfail t1 s') in Hrun as [-> ->]. by right.
  - apply Hfail in Hrun as [-> ->]. by right.
  - apply Hfin in Hrun as [-> ->]. left. by rewrite Hev.
Qed.

End GlobalHook.
(** *** Reset, again *)

(** X18.  [reset] is idempotent: calling it a second time with the same
    arguments gives the same result and changes nothing more, whether the
    arguments are accepted or not. *)
Theorem BdbTracer_reset_idempotent (args : list PyObject)
    (kwds : list (string * PyObject)) (s s' : State) (r : option PyObject) :
  BdbTracer_reset args kwds s = Ok r s' →
  BdbTracer_reset args kwds s' = Ok r s'.
Proof.
  unfold BdbTracer_reset.
  destruct (parse_reset_args args kwds) as [[ignore botframe_arg]|];
    msimpl; intros [= <- <-]; reflexivity.
Qed.

(** X19.  [reset] puts the tracer in step mode: after a call that accepts
    its arguments, whatever the state before, with an empty [skip_modules]
    [stop_here] answers 1 on every frame (line numbers are not
    negative). *)
Theorem reset_enters_step_mode (args : list PyObject)
    (kwds : list (string * PyObject)) (s s1 : State) (r : PyObject)
    (frame : addr) (fr : PyFrameObject) :
  BdbTracer_reset args kwds s = Ok (Some r) s1 →
  skip_modules (self s) = Some [] →
  heap s !! frame = Some (HFrame fr) →
  0 ≤ f_lineno fr →
  stop_here py_method frame s1
  = Ok 1 (set_log (log s1 ++ [EvLongAsLong (Some (PyLong 0)) true]) s1).
Proof.
  unfold BdbTracer_reset.
  destruct (parse_reset_args args kwds) as [[ignore botframe_arg]|];
    msimpl; intros [= <- <-].
  intros Hskip Hfr Hline.
  match goal with
  | |- stop_here _ _ ?t = _ =>
      rewrite (stop_here_after_skip_test py_method frame t t)
        by (by apply skip_test_empty);
      rewrite (stop_decision_decoded frame t 0 fr) by done
  end.
  cbn [self stopframe set_stop_lineno set_stopframe].
  rewrite (bool_decide_true (Some Py_None = Some Py_None)) by done.
  rewrite orb_true_r. cbn.
  by rewrite (bool_decide_true _ Hline).
Qed.

(** *** The constructor *)

Lemma PyDict_New_fresh (s : State) :
  let a := fresh (dom (heap s)) in
  heap s !! a = None
  ∧ PyDict_New s = Ok (Some (PyRef a)) (set_heap (<[a := HDict []]> (heap s)) s).
Proof.
  cbn. split; [|reflexivity].
  apply not_elem_of_dom, is_fresh.
Qed.

(** Lines 62-125: the state in which the constructor calls [reset]. *)
Lemma BdbTracer_init_at_reset (lc : PyObject)
    (sm sc : option (list PyObject)) (s : State) :
  is_bool lc = true →
  ∃ (s0 : State) (b : addr) (cache : option PyObject),
    heap s !! b = None
    ∧ heap s0 !! b = Some (HDict [])
    ∧ (match lc with
       | Py_True =>
           ∃ c, c ≠ b ∧ heap s !! c = None ∧ heap s0 !! c = Some (HDict [])
                ∧ cache = Some (PyRef c)
       | _ => cache = None
       end)
    ∧ (∀ a o, heap s !! a = Some o → heap s0 !! a = Some o)
    ∧ self s0
      = mkTracer (Some PySelf) (Some (PyRef b)) None None None None None None
          (Some (default [] sm)) (Some (default [] sc)) (Some [])
          (ignore_first_call_event (self s)) cache None None None
    ∧ log s0 = log s ∧ err_indicator s0 = err_indicator s
    ∧ c_traceobj s0 = c_traceobj s
    ∧ ∀ r s1,
        py_method "reset" [] s0 = (r, s1) →
        BdbTracer_init py_method (Some lc) sm sc s
        = Ok (if r is Some _ then 0 else -1)
            (set_log (log s0 ++ [EvCallMethod "reset" [] r]) s1).
Proof.
  intros Hbool.
  assert (∀ (o : option (list PyObject)),
            match o with Some l => Some l | None => Some [] end
            = Some (default [] o)) as Hdef by (by intros []).
  destruct lc; try done.
  - (* to_lowercase = True: two dictionaries *)
    set (s' := set_self (mkTracer None None None None None None None None
                           None None None (ignore_first_call_event (self s))
                           None None None None) s).
    destruct (PyDict_New_fresh s') as [Hc Enew1].
    set (c := fresh (dom (heap s'))) in *.
    set (s'' := set_heap (<[c := HDict []]> (heap s')) s') in *.
    destruct (PyDict_New_fresh s'') as [Hb Enew2].
    set (b := fresh (dom (heap s''))) in *.
    assert (c ≠ b) as Hcb.
    { intros E. rewrite <- E in Hb. cbn in Hb.
      by rewrite lookup_insert_eq in Hb. }
    assert (heap s !! c = None) as Hc' by exact Hc.
    assert (heap s !! b = None) as Hb'.
    { cbn in Hb. rewrite lookup_insert_ne in Hb by done. exact Hb. }
    exists (set_self
              (mkTracer (Some PySelf) (Some (PyRef b)) None None None None
                 None None (Some (default [] sm)) (Some (default [] sc))
                 (Some []) (ignore_first_call_event (self s))
                 (Some (PyRef c)) None None None)
              (set_heap (<[b := HDict []]> (heap s'')) s'')), b,
      (Some (PyRef c)).
    split; [exact Hb'|].
    split; [cbn; by rewrite lookup_insert_eq|].
    split.
    { exists c. split; [done|]. split; [exact Hc'|]. split; [|reflexivity].
      cbn. rewrite lookup_insert_ne by done. by rewrite lookup_insert_eq. }
    split.
    { intros a o Ha. cbn.
      rewrite !lookup_insert_ne; [done| |]; intros <-; congruence. }
    split; [reflexivity|].
    split; [done|]. split; [done|]. split; [done|].
    intros r s1 Hreset. unfold BdbTracer_init. msimpl. fold s'.
    cbn [is_bool]. rewrite (bool_decide_true (Py_True = Py_True)) by done.
    rewrite Enew1. fold s''. rewrite Enew2. msimpl. rewrite !Hdef.
    unfold PyObject_CallMethod.
    match goal with
    | |- context [py_method _ _ ?t] =>
        match type of Hreset with
        | py_method _ _ ?u = _ => change t with u
        end
    end.
    rewrite Hreset. by destruct r.
  - (* to_lowercase = False: one dictionary *)
    set (s' := set_self (mkTracer None None None None None None None None
                           None None None (ignore_first_call_event (self s))
                           None None None None) s).
    destruct (PyDict_New_fresh s') as [Hb Enew].
    set (b := fresh (dom (heap s'))) in *.
    assert (heap s !! b = None) as Hb' by exact Hb.
    exists (set_self
              (mkTracer (Some PySelf) (Some (PyRef b)) None None None None
                 None None (Some (default [] sm)) (Some (default [] sc))
                 (Some []) (ignore_first_call_event (self s))
                 None None None None)
              (set_heap (<[b := HDict []]> (heap s')) s')), b, None.
    split; [exact Hb'|].
    split; [cbn; by rewrite lookup_insert_eq|].
    split; [reflexivity|].
    split.
    { intros a o Ha. cbn.
      rewrite lookup_insert_ne; [done|]. intros <-. congruence. }
    split; [reflexivity|].
    split; [done|]. split; [done|]. split; [done|].
    intros r s1 Hreset. unfold BdbTracer_init. msimpl. fold s'.
    cbn [is_bool]. rewrite (bool_decide_false (Py_False = Py_True)) by done.
    msimpl. rewrite Enew. msimpl. rewrite !Hdef.
    unfold PyObject_CallMethod.
    match goal with
    | |- context [py_method _ _ ?t] =>
        match type of Hreset with
        | py_method _ _ ?u = _ => change t with u
        end
    end.
    rewrite Hreset. by destruct r.
Qed.

(** X20.  [__init__] with a [bool] for [to_lowercase] builds the tracer
    and then calls [reset()] on it.  At that call [breakpoints] is a new,
    empty dictionary, the file name cache is another new, empty dictionary
    when [to_lowercase] is [True] and [NULL] when it is [False],
    [skip_modules] and [skip_calls] are the tuples given (empty when
    omitted), [linenumbers] is empty, [trace_dispatch] is the tracer itself
    and the breakpoint cache is empty; no object that existed before has
    changed.  The constructor returns 0 when [reset] returns and -1 when it
    raises. *)
Theorem BdbTracer_init_calls_reset (lc : PyObject)
    (sm sc : option (list PyObject)) (s : State) :
  is_bool lc = true →
  ∃ (s0 : State) (b : addr) (cache : option PyObject),
    heap s !! b = None
    ∧ heap s0 !! b = Some (HDict [])
    ∧ (match lc with
       | Py_True =>
           ∃ c, c ≠ b ∧ heap s !! c = None ∧ heap s0 !! c = Some (HDict [])
                ∧ cache = Some (PyRef c)
       | _ => cache = None
       end)
    ∧ (∀ a o, heap s !! a = Some o → heap s0 !! a = Some o)
    ∧ self s0
      = mkTracer (Some PySelf) (Some (PyRef b)) None None None None None None
          (Some (default [] sm)) (Some (default [] sc)) (Some [])
          (ignore_first_call_event (self s)) cache None None None
    ∧ log s0 = log s ∧ err_indicator s0 = err_indicator s
    ∧ c_traceobj s0 = c_traceobj s
    ∧ ∀ r s1,
        py_method "reset" [] s0 = (r, s1) →
        BdbTracer_init py_method (Some lc) sm sc s
        = Ok (if r is Some _ then 0 else -1)
            (set_log (log s0 ++ [EvCallMethod "reset" [] r]) s1).
Proof. apply BdbTracer_init_at_reset. Qed.

End Further.

(** *** The type without a subclass *)

(** The bodies behind [base_method] are defined on every state. *)
Lemma base_method_defined (name : string) (args : list PyObject) (s : State) :
  base_method_body name args s ≠ UB.
Proof.
  unfold base_method_body, BdbTracer_reset, BdbTracer_stop_tracing,
    BdbTracer_is_skipped_module, BdbTracer_get_traceobj.
  repeat case_bool_decide; try done.
  - by destruct (parse_reset_args args []) as [[]|].
  - by destruct args.
Qed.

(** X21.  Constructing a [BdbTracer] that is not subclassed, with a [bool]
    for [to_lowercase], succeeds and leaves the tracer as [reset()] leaves
    it: in step mode ([stopframe] [None], [stop_lineno] 0), not quitting,
    without top or bottom frame, with the first call event to be ignored,
    an empty [linenumbers], an empty breakpoint cache and an empty
    [breakpoints] dictionary that did not exist before. *)
Theorem BdbTracer_init_base (lc : PyObject) (sm sc : option (list PyObject))
    (s : State) :
  is_bool lc = true →
  ∃ (s' : State) (b : addr) (cache : option PyObject),
    BdbTracer_init base_method (Some lc) sm sc s = Ok 0 s'
    ∧ heap s !! b = None
    ∧ heap s' !! b = Some (HDict [])
    ∧ self s'
      = mkTracer (Some PySelf) (Some (PyRef b)) (Some Py_None) (Some Py_False)
          (Some Py_None) (Some Py_None) (Some Py_None) (Some (PyLong 0))
          (Some (default [] sm)) (Some (default [] sc)) (Some [])
          1 cache None None None
    ∧ (cache = None ↔ lc = Py_False)
    ∧ err_indicator s' = err_indicator s.
Proof.
  intros Hbool.
  destruct (BdbTracer_init_at_reset base_method lc sm sc s Hbool)
    as (s0 & b & cache & Hb & Hb0 & Hlc & Hold & Hself & Hlog & Herr & Hc
        & Hrun).
  assert (base_method "reset" [] s0
          = (Some Py_None,
             set_self
               (mkTracer (Some PySelf) (Some (PyRef b)) (Some Py_None)
                  (Some Py_False) (Some Py_None) (Some Py_None) (Some Py_None)
                  (Some (PyLong 0)) (Some (default [] sm))
                  (Some (default [] sc)) (Some []) 1 cache None None None) s0))
    as Hreset.
  { unfold base_method, run_method, base_method_body, BdbTracer_reset.
    rewrite (bool_decide_true ("reset" = "reset")%string) by done.
    destruct s0 as [t h e g l]. cbn in Hself. subst t. reflexivity. }
  eexists _, b, cache. split; [exact (Hrun _ _ Hreset)|].
  split; [done|]. split; [done|]. split; [reflexivity|].
  split; [|done].
  destruct lc; try done.
  destruct Hlc as (c & _ & _ & _ & ->). done.
Qed.

(** X22.  The default [is_skipped_module] of the type answers
    [NotImplemented], which is true: on a tracer that is not subclassed, a
    non-empty [skip_modules] makes [stop_here] answer 0 on every frame,
    whatever the stop frame and the line number. *)
Theorem base_tracer_skips_every_module (frame : addr) (s : State)
    (pats : list PyObject) :
  skip_modules (self s) = Some pats →
  pats ≠ [] →
  stop_here base_method frame s
  = Ok 0 (set_log (log s ++ [EvCallMethod "is_skipped_module" [PyRef frame]
                               (Some Py_NotImplemented)]) s).
Proof.
  intros Hpats Hne.
  unfold stop_here, skip_test, PyObject_CallMethod, PyObject_IsTrue. msimpl.
  rewrite Hpats. cbn [PyTuple_GET_SIZE]. msimpl.
  rewrite bool_decide_true by (destruct pats; [done | cbn; lia]).
  reflexivity.
Qed.

(** *** src/testsuite/foo.c *)

(** X23.  [msleep] (without [WIN32]) hands [nanosleep] a [timespec] that
    stands for exactly [msec] milliseconds; its computation overflows no
    [int]; for a non-negative [msec] the nanosecond field is within
    [0, 999999999], as [nanosleep] requires, and for a negative one
    neither field is positive. *)
Theorem msleep_timespec_exact (msec : Z) :
  INT_MIN ≤ msec ≤ INT_MAX →
  let (tv_sec, tv_nsec) := msleep_timespec msec in
  tv_sec * 1000000000 + tv_nsec = msec * 1000000
  ∧ INT_MIN ≤ tv_sec ≤ INT_MAX
  ∧ INT_MIN ≤ Z.rem msec 1000 ≤ INT_MAX
  ∧ INT_MIN ≤ tv_nsec ≤ INT_MAX
  ∧ (0 ≤ msec → 0 ≤ tv_sec ∧ 0 ≤ tv_nsec ≤ 999999999)
  ∧ (msec < 0 → tv_sec ≤ 0 ∧ tv_nsec ≤ 0).
Proof.
  unfold msleep_timespec, INT_MIN, INT_MAX. intros Hrange.
  pose proof (Z.quot_rem' msec 1000) as Hqr.
  destruct (Z_le_gt_dec 0 msec) as [Hpos|Hneg].
  - pose proof (Z.rem_bound_pos msec 1000 Hpos ltac:(lia)) as Hr.
    pose proof (Z.quot_pos msec 1000 Hpos ltac:(lia)) as Hq.
    repeat split; lia.
  - pose proof (Z.rem_bound_pos (- msec) 1000 ltac:(lia) ltac:(lia)) as Hr.
    pose proof (Z.quot_pos (- msec) 1000 ltac:(lia) ltac:(lia)) as Hq.
    rewrite (Z.rem_opp_l msec 1000) in Hr by lia.
    rewrite (Z.quot_opp_l msec 1000) in Hq by lia.
    repeat split; lia.
Qed.
(** *** The further properties on the examples *)

(** [stop_lineno] is [2^32 + 3]: the threshold is 3, and line 5 stops. *)
Lemma stop_here_decision_witness :
  let s := ex_state (ex_tracer Py_None (PyLong 4294967299) Py_None)
             (ex_heap (Some PySelf) None) in
  stop_here ex_py_method 1%positive s
  = Ok 1 (set_log (log s ++ [EvLongAsLong (Some (PyLong 4294967299)) true]) s).
Proof.
  intros s.
  apply (stop_here_decision ex_py_method 1%positive s s 4294967299
           (ex_frame (Some PySelf))); [reflexivity|reflexivity|done|reflexivity].
Defined.

Lemma stop_here_undecodable_witness :
  let s := ex_state (ex_tracer Py_None Py_None Py_None)
             (ex_heap (Some PySelf) None) in
  ∃ e, stop_here ex_py_method 1%positive s
       = Ok (-1) (set_log (log s ++ [EvLongAsLong (Some Py_None) false])
                    (set_err (Some e) s)).
Proof.
  intros s.
  apply (stop_here_undecodable ex_py_method 1%positive s s); reflexivity.
Defined.


Lemma stop_here_is_a_query_witness :
  let s := ex_state (ex_tracer Py_None (PyLong 0) Py_None)
             (ex_heap (Some PySelf) None) in
  ∃ s', stop_here ex_py_method 1%positive s = Ok 1 s'
        ∧ self s' = self s ∧ heap s' = heap s.
Proof.
  intros s. eexists. split; [vm_compute; reflexivity|].
  edestruct (stop_here_is_a_query ex_py_method 1%positive s)
    as (Hs & Hh & _); [reflexivity|vm_compute; reflexivity|].
  split; [exact Hs|exact Hh].
Defined.

(** The first resolution in [/Lib/A.py] puts [/lib/a.py] in the cache. *)
Lemma fold_filename_memoizes_witness :
  let s := ex_state ex_tracer_lc ex_heap_lc in
  ∃ s', fold_filename (PyUnicode "/Lib/A.py") s
        = Ok (Some (PyUnicode "/lib/a.py")) s'
        ∧ lc_cache_ok s'
        ∧ fold_filename (PyUnicode "/Lib/A.py") s'
          = Ok (Some (PyUnicode "/lib/a.py"))
              (set_log (log s' ++ [EvDictGetItem (Some (PyRef 23%positive))
                                     (PyUnicode "/Lib/A.py")]) s').
Proof.
  intros s.
  destruct (fold_filename_memoizes "/Lib/A.py" s (PyRef 23%positive))
    as (s' & Hrun & Hok & _ & _ & Hagain).
  - reflexivity.
  - exists 23%positive, []. done.
  - exists s'. split; [exact Hrun|]. split; [exact Hok|exact Hagain].
Defined.

Lemma bkpt_in_code_hit_or_miss_witness :
  let s := ex_state (ex_tracer Py_None (PyLong (-1)) Py_None)
             (ex_heap (Some PySelf) None) in
  ∃ s', bkpt_in_code 1%positive s = Ok (Some (PyRef 21%positive)) s'
        ∧ cache_coherent s' = true.
Proof.
  intros s. eexists. split; [vm_compute; reflexivity|].
  edestruct (bkpt_in_code_hit_or_miss 1%positive s) as [Hout _];
    [reflexivity|vm_compute; reflexivity|].
  destruct Hout as [(mb & cb & _ & _ & _ & Hcoh)|[[E|E] _]];
    [exact Hcoh|discriminate E|discriminate E].
Defined.

(** Line 5 of the example has a breakpoint. *)
Lemma bkpt_at_line_sound_witness :
  let s := ex_state (ex_tracer Py_None (PyLong (-1)) Py_None)
             (ex_heap (Some PySelf) None) in
  ∃ s', bkpt_at_line 1%positive s = Ok (Some (PyRef 21%positive)) s'
        ∧ module_bps (self s') = Some (PyRef 21%positive)
        ∧ ∃ fr lines key cb,
            heap s' !! 1%positive = Some (HFrame fr)
            ∧ linenumbers (self s') = Some lines
            ∧ lines !! Z.to_nat (f_lineno fr) = Some key
            ∧ code_bps (self s') = Some cb
            ∧ dict_lookup (heap s') cb key ≠ None.
Proof.
  intros s. eexists. split; [vm_compute; reflexivity|].
  edestruct (bkpt_at_line_sound 1%positive s)
    as (Hmb & fr & lines & key & cb & Hfr & Hl & _ & Hk & _ & Hcb & Hin);
    [vm_compute; reflexivity|done|].
  split; [exact Hmb|]. exists fr, lines, key, cb.
  split; [exact Hfr|]. split; [exact Hl|]. split; [exact Hk|].
  split; [exact Hcb|exact Hin].
Defined.

Lemma bkpt_at_line_frame_witness :
  let s := ex_state (ex_tracer Py_None (PyLong (-1)) Py_None)
             (ex_heap (Some PySelf) None) in
  ∃ s', bkpt_at_line 1%positive s = Ok (Some (PyRef 21%positive)) s'
        ∧ c_traceobj s' = c_traceobj s
        ∧ heap s' !! 20%positive = heap s !! 20%positive.
Proof.
  intros s. eexists. split; [vm_compute; reflexivity|].
  edestruct (bkpt_at_line_frame 1%positive s) as (_ & Hc & Hh);
    [vm_compute; reflexivity|].
  split; [exact Hc|]. apply Hh. done.
Defined.

(** [user_line] returns and [get_traceobj] answers with the tracer. *)
Lemma user_method_protocol_witness :
  let s := ex_state (ex_tracer Py_None (PyLong 0) Py_None)
             (ex_heap (Some PySelf) None) in
  ∃ s', user_method ex_py_method 1%positive "user_line" None s
        = Ok (Some PySelf) s'
        ∧ topframe (self s') = Some Py_None
        ∧ botframe (self s') = Some (PyRef 1%positive).
Proof.
  intros s. eexists. split; [|split].
  - apply (user_method_protocol ex_py_method 1%positive "user_line" None
             Py_None Py_None Py_None s (handler_entry 1%positive s)
             (Some Py_None));
      [by left|reflexivity|reflexivity|reflexivity|done|done|reflexivity].
  - reflexivity.
  - reflexivity.
Defined.

Lemma tracer_skips_calls_witness :
  let t := ex_tracer Py_None (PyLong 0) Py_None in
  let t' := mkTracer (trace_dispatch t) (breakpoints t) (botframe t)
              (quitting t) (topframe t) (topframe_locals t) (stopframe t)
              (stop_lineno t) (skip_modules t) (Some [PyRef 10%positive])
              (linenumbers t) 0 None None None None in
  let s := ex_state t' (ex_heap None None) in
  tracer ex_py_method ex_Addr2Line 1%positive PyTrace_CALL None s = Ok 0 s.
Proof.
  intros t t' s.
  apply (tracer_skips_calls ex_py_method ex_Addr2Line 1%positive None s
           (ex_frame None) [PyRef 10%positive]);
    [reflexivity|reflexivity|reflexivity|by apply list_elem_of_singleton].
Defined.

(** An event of kind 4 ([PyTrace_C_CALL]). *)
Lemma tracer_other_event_witness :
  let s := ex_state (ex_tracer Py_None (PyLong 0) Py_None)
             (ex_heap (Some Py_True) None) in
  ∃ s' fr, tracer ex_py_method ex_Addr2Line 1%positive 4 None s = Ok 0 s'
           ∧ heap s' !! 1%positive = Some (HFrame fr)
           ∧ f_trace fr = Some PySelf.
Proof.
  intros s. eexists _, _. split; [|split].
  - apply (tracer_other_event ex_py_method ex_Addr2Line 1%positive 4 None s
             (ex_frame (Some Py_True))); [reflexivity|done|].
    intros H. by repeat (apply elem_of_cons in H as [H|H]; [done|]);
      apply elem_of_nil in H.
  - cbn. apply lookup_insert_eq.
  - reflexivity.
Defined.

(** The bottom frame returns while the debugger waits in another frame. *)
Lemma tracer_return_bottom_frame_witness :
  let s := ex_state (ex_tracer (PyRef 2%positive) (PyLong (-1))
                       (PyRef 1%positive))
             (ex_heap (Some PySelf) None) in
  ∃ s', tracer ex_py_method ex_Addr2Line 1%positive PyTrace_RETURN None s
        = Ok 0 s'
        ∧ heap s' = heap s
        ∧ log s' = [EvLongAsLong (Some (PyLong (-1))) true;
                    EvCallMethod "stop_tracing" [PyRef 1%positive]
                      (Some Py_None)].
Proof.
  intros s. eexists. split; [|split].
  - eapply (tracer_return_bottom_frame ex_py_method ex_Addr2Line 1%positive
             None s _ _ (ex_frame (Some PySelf)) (Some Py_None));
      [reflexivity|done|vm_compute; reflexivity|done|reflexivity|reflexivity].
  - reflexivity.
  - reflexivity.
Defined.

(** The caller of the example is at line 1 + 7: it gets the tracer and
    the line 8, and the frame that returns is as it was. *)
Lemma propagate_to_caller_line_numbers_witness :
  let s := ex_state (ex_tracer (PyRef 1%positive) (PyLong 0) Py_None)
             (ex_heap (Some PySelf) None) in
  ∃ s', propagate_to_caller ex_Addr2Line 1%positive s = Ok tt s'
        ∧ PyFrame_GetLineNumber ex_Addr2Line 2%positive s' = Ok 8 s'
        ∧ heap s' !! 1%positive = Some (HFrame (ex_frame (Some PySelf)))
        ∧ ∃ n, PyFrame_GetLineNumber ex_Addr2Line 2%positive s = Ok n s
               ∧ heap s' !! 2%positive
                 = Some (HFrame (mkFrame None 11%positive (Some PySelf) n 7)).
Proof.
  intros s.
  destruct (propagate_to_caller_line_numbers ex_Addr2Line 1%positive s
              (ex_frame (Some PySelf)) (PyRef 1%positive) (PyLong 0))
    as (s' & Hrun & Hline & Hother & Hcaller);
    [reflexivity|reflexivity|reflexivity|reflexivity|].
  exists s'. split; [exact Hrun|]. split; [apply Hline; reflexivity|].
  split.
  - rewrite (Hother 1%positive) by done. reflexivity.
  - exact (Hcaller 2%positive (ex_caller None) eq_refl eq_refl).
Defined.

(** A LINE event on which the debugger stops. *)
Lemma tracer_callbacks_witness :
  let s := ex_state (ex_tracer Py_None (PyLong 0) Py_None)
             (ex_heap (Some PySelf) None) in
  ∃ s' l, tracer ex_py_method ex_Addr2Line 1%positive PyTrace_LINE None s
          = Ok 0 s'
          ∧ log s' = log s ++ l
          ∧ forallb (ev_dispatch_ok 1%positive Py_None) l = true.
Proof.
  intros s.
  edestruct (tracer_callbacks ex_py_method ex_Addr2Line 1%positive
               PyTrace_LINE None s) as (l & Hl & Hok);
    [vm_compute; reflexivity|].
  eexists _, l. split; [vm_compute; reflexivity|].
  split; [exact Hl|exact Hok].
Defined.

(** A LINE event on a line that is a stop and a breakpoint. *)
Lemma tracer_one_handler_witness :
  let s := ex_state (ex_tracer Py_None (PyLong 0) Py_None)
             (ex_heap (Some PySelf) None) in
  ∃ s' l, tracer ex_py_method ex_Addr2Line 1%positive PyTrace_LINE None s
          = Ok 0 s'
          ∧ log s' = log s ++ l
          ∧ (count_handlers l ≤ 1)%nat.
Proof.
  intros s.
  edestruct (tracer_one_handler ex_py_method ex_Addr2Line 1%positive
               PyTrace_LINE None s) as (l & Hl & Hok);
    [vm_compute; reflexivity|].
  eexists _, l. split; [vm_compute; reflexivity|].
  split; [exact Hl|exact Hok].
Defined.

(** A call of the function with the breakpoint, while the debugger waits
    in another frame. *)
Lemma tracer_call_not_stepping_witness :
  let s := ex_state (ex_tracer (PyRef 2%positive) (PyLong (-1)) Py_None)
             (ex_heap None None) in
  ∃ s' fr, tracer ex_py_method ex_Addr2Line 1%positive PyTrace_CALL None s
           = Ok 0 s'
           ∧ heap s' !! 1%positive = Some (HFrame fr)
           ∧ f_trace fr = Some PySelf
           ∧ existsb ev_handler (log s') = false.
Proof.
  intros s. eexists _, _. split; [|split; [|split]].
  - eapply (tracer_call_not_stepping ex_py_method ex_Addr2Line 1%positive None
             s _ _ (ex_frame None) (ex_frame None) (PyRef 21%positive));
      [ reflexivity | reflexivity | reflexivity
      | vm_compute; reflexivity | vm_compute; reflexivity | reflexivity ].
  - reflexivity.
  - reflexivity.
  - reflexivity.
Defined.

Lemma ex_py_method_keeps_hook (name : string) (args : list PyObject)
    (s : State) (r : option PyObject) (s' : State) :
  ex_py_method name args s = (r, s') → c_traceobj s' = c_traceobj s.
Proof.
  unfold ex_py_method. repeat case_bool_decide; by intros [= _ <-].
Qed.

Lemma tracer_keeps_hook_until_failure_witness :
  let s := mkState (ex_tracer Py_None (PyLong 0) Py_None)
             (ex_heap (Some PySelf) None) None None [] in
  ∃ s0 s', BdbTracer_set_trace_dispatch s = Ok (Some Py_None) s0
           ∧ tracer ex_py_method ex_Addr2Line 1%positive PyTrace_LINE None s0
             = Ok 0 s'
           ∧ c_traceobj s' = Some PySelf.
Proof.
  intros s. eexists _, _. split; [reflexivity|].
  split; [vm_compute; reflexivity|].
  edestruct (tracer_keeps_hook_until_failure ex_py_method ex_Addr2Line
               ex_py_method_keeps_hook 1%positive PyTrace_LINE None s)
    as (_ & _ & [[_ H]|[H _]]);
    [reflexivity|vm_compute; reflexivity|exact H|discriminate H].
Defined.

(** A LINE event on which the debugger stops and [user_line] raises. *)
Lemma tracer_failure_is_fatal_witness :
  let s := ex_state (ex_tracer Py_None (PyLong 0) (PyRef 2%positive))
             (ex_heap (Some PySelf) None) in
  ∃ s' l, tracer ex_py_raise ex_Addr2Line 1%positive PyTrace_LINE None s
          = Ok (-1) s'
          ∧ log s' = log s ++ l
          ∧ existsb ev_failed l = true
          ∧ failed_once l = true
          ∧ c_traceobj s' = None
          ∧ heap s' !! 1%positive = Some (HFrame (ex_frame None)).
Proof.
  intros s. eexists _, _.
  split; [vm_compute; reflexivity|].
  split; [reflexivity|].
  split; [reflexivity|].
  edestruct (tracer_failure_is_fatal ex_py_raise ex_Addr2Line 1%positive
               PyTrace_LINE None s) as (l' & Hl' & _ & Hfail & Hclean);
    [vm_compute; reflexivity|].
  vm_compute in Hl'. subst l'.
  split; [exact (proj2 (Hfail eq_refl))|].
  split; [exact (proj1 (Hclean eq_refl))|reflexivity].
Defined.

Lemma BdbTracer_reset_idempotent_witness :
  let s := ex_state (ex_tracer (PyRef 1%positive) (PyLong 7) Py_None)
             (ex_heap None None) in
  ∃ s', BdbTracer_reset [Py_False] [] s = Ok (Some Py_None) s'
        ∧ BdbTracer_reset [Py_False] [] s' = Ok (Some Py_None) s'.
Proof.
  intros s. eexists. split; [vm_compute; reflexivity|].
  apply (BdbTracer_reset_idempotent [Py_False] [] s). vm_compute. reflexivity.
Defined.

Lemma reset_enters_step_mode_witness :
  let s := ex_state (ex_tracer (PyRef 2%positive) (PyLong 7) Py_None)
             (ex_heap (Some PySelf) None) in
  ∃ s1 s', BdbTracer_reset [] [] s = Ok (Some Py_None) s1
           ∧ stop_here ex_py_method 1%positive s1 = Ok 1 s'.
Proof.
  intros s. eexists _, _. split; [vm_compute; reflexivity|].
  eapply (reset_enters_step_mode ex_py_method [] [] s _ Py_None 1%positive
           (ex_frame (Some PySelf)));
    [vm_compute; reflexivity|reflexivity|reflexivity|done].
Defined.

Lemma BdbTracer_init_calls_reset_witness :
  let s := ex_state (ex_tracer Py_None (PyLong 0) Py_None) (ex_heap None None) in
  ∃ s0 b c,
    b ≠ c
    ∧ heap s0 !! b = Some (HDict [])
    ∧ heap s0 !! c = Some (HDict [])
    ∧ self s0
      = mkTracer (Some PySelf) (Some (PyRef b)) None None None None None None
          (Some []) (Some [PyRef 11%positive]) (Some []) 0 (Some (PyRef c))
          None None None
    ∧ BdbTracer_init ex_py_method (Some Py_True) None
        (Some [PyRef 11%positive]) s
      = Ok 0 (set_log (log s0 ++ [EvCallMethod "reset" [] (Some Py_None)]) s0).
Proof.
  intros s.
  destruct (BdbTracer_init_calls_reset ex_py_method Py_True None
              (Some [PyRef 11%positive]) s eq_refl)
    as (s0 & b & cache & _ & Hb & (c & Hcb & _ & Hc & ->) & _ & Hself & _ & _
        & _ & Hrun).
  exists s0, b, c. split; [by apply not_eq_sym|].
  split; [exact Hb|]. split; [exact Hc|]. split; [exact Hself|].
  apply (Hrun (Some Py_None) s0). reflexivity.
Defined.

Lemma BdbTracer_init_base_witness :
  let s := ex_state (ex_tracer Py_None (PyLong 7) Py_None) (ex_heap None None) in
  ∃ s' b,
    BdbTracer_init base_method (Some Py_False) None None s = Ok 0 s'
    ∧ heap s' !! b = Some (HDict [])
    ∧ self s'
      = mkTracer (Some PySelf) (Some (PyRef b)) (Some Py_None) (Some Py_False)
          (Some Py_None) (Some Py_None) (Some Py_None) (Some (PyLong 0))
          (Some []) (Some []) (Some []) 1 None None None None.
Proof.
  intros s.
  destruct (BdbTracer_init_base Py_False None None s eq_refl)
    as (s' & b & cache & Hrun & _ & Hb & Hself & Hcache & _).
  exists s', b. split; [exact Hrun|]. split; [exact Hb|].
  rewrite Hself. by rewrite (proj2 Hcache eq_refl).
Defined.

Lemma base_tracer_skips_every_module_witness :
  let t := ex_tracer Py_None (PyLong 0) Py_None in
  let t' := mkTracer (trace_dispatch t) (breakpoints t) (botframe t)
              (quitting t) (topframe t) (topframe_locals t) (stopframe t)
              (stop_lineno t) (Some [PyUnicode "lib*"]) (skip_calls t)
              (linenumbers t) 0 None None None None in
  let s := ex_state t' (ex_heap (Some PySelf) None) in
  stop_here base_method 1%positive s
  = Ok 0 (set_log (log s ++ [EvCallMethod "is_skipped_module"
                               [PyRef 1%positive] (Some Py_NotImplemented)]) s).
Proof.
  intros t t' s.
  apply (base_tracer_skips_every_module 1%positive s [PyUnicode "lib*"]);
    [reflexivity|done].
Defined.

(** One second and a half. *)
Lemma msleep_timespec_exact_witness :
  msleep_timespec 1500 = (1, 500000000)
  ∧ let (tv_sec, tv_nsec) := msleep_timespec 1500 in
    tv_sec * 1000000000 + tv_nsec = 1500 * 1000000
    ∧ 0 ≤ tv_nsec ≤ 999999999.
Proof.
  split; [reflexivity|].
  pose proof (msleep_timespec_exact 1500) as H.
  destruct (msleep_timespec 1500) as [tv_sec tv_nsec].
  destruct H as (Hex & _ & _ & _ & Hpos & _); [done|].
  split; [exact Hex|]. apply Hpos. done.
Defined.

(** The bottom frame returns, the debugger stops and detaches. *)
Lemma tracer_return_detached_witness :
  let s := ex_state (ex_tracer Py_None (PyLong 0) (PyRef 1%positive))
             (ex_heap (Some PySelf) None) in
  ∃ s1, tracer ex_py_detach ex_Addr2Line 1%positive PyTrace_RETURN None s
        = Ok 0 s1
        ∧ heap s1 = heap s
        ∧ stop_lineno (self s1) = Some (PyLong 0).
Proof.
  intros s. eexists. split; [|split].
  - eapply (tracer_return_detached ex_py_detach ex_Addr2Line 1%positive None
              s _ _ (ex_frame (Some PySelf)) 1);
      [ reflexivity | done | vm_compute; reflexivity | done | by left
      | vm_compute; reflexivity ].
  - reflexivity.
  - reflexivity.
Defined.
